(** * OBD-II diagnostic scripts for the 2009 Acura TSX (P0420): a shallow embedding

    The repository is five Python scripts driving an ELM327 adapter through
    the python-OBD library.  Each script function is embedded below as a
    computation in a small monad that threads the state of the connection,
    records every query (with its outcome), every printed line, prompt and
    sleep in order, and carries Python exceptions explicitly.  The embedded
    functions keep the names they have in the scripts and live in one module
    per script; a loop body or a guarded block that a property is about is
    given a name of its own and used in the function it comes from.

    Conventions.  [except Exception] catches every exception of the model
    (KeyboardInterrupt is outside it).  A response either raises, has no
    value ([None]) or has a value.  Numbers are exact rationals: the trims
    the adapter delivers are binary fractions, the voltages are byte/200,
    and the thresholds compare the same way in binary64.  Strings are byte
    strings and case mapping is that of ASCII letters.  [obd.commands.X] for
    a name written in a script is taken to exist; [hasattr(obd.commands, n)]
    is a parameter. *)

From Stdlib Require Import QArith Qabs Lqa ZArith String Ascii List Strings.Byte.
From Stdlib Require Import Numbers.Cyclic.Int63.Uint63.
From Stdlib Require Import Floats.PrimFloat Floats.FloatOps Floats.SpecFloat.
From stdpp Require Import gmap strings list sorting.
From Stdlib Require Import DecimalString.

(** ** Python strings (ASCII fragment) *)

Module PyStr.

(** the newline character written [\n] in the scripts *)
Definition nl : string := String (ascii_of_nat 10) EmptyString.

(** [s * n] *)
Fixpoint repeat (s : string) (n : nat) : string :=
  match n with
  | O => ""
  | S n' => s +:+ repeat s n'
  end.

(** the format specification [{s:<n}]: pad with spaces on the right *)
Definition ljust (n : nat) (s : string) : string :=
  s +:+ repeat " " (n - String.length s).

(** the slice [s[:n]] *)
Fixpoint take (n : nat) (s : string) : string :=
  match n, s with
  | S n', String c s' => String c (take n' s')
  | _, _ => ""
  end.

Definition upper_char (c : ascii) : ascii :=
  let n := nat_of_ascii c in
  if (97 <=? n)%nat && (n <=? 122)%nat then ascii_of_nat (n - 32) else c.

Definition lower_char (c : ascii) : ascii :=
  let n := nat_of_ascii c in
  if (65 <=? n)%nat && (n <=? 90)%nat then ascii_of_nat (n + 32) else c.

(** [s.upper()] and [s.lower()] *)
Fixpoint upper (s : string) : string :=
  match s with
  | EmptyString => EmptyString
  | String c s' => String (upper_char c) (upper s')
  end.

Fixpoint lower (s : string) : string :=
  match s with
  | EmptyString => EmptyString
  | String c s' => String (lower_char c) (lower s')
  end.

(** [s.startswith(p)] *)
Fixpoint startswith (p s : string) : bool :=
  match p, s with
  | EmptyString, _ => true
  | String a p', String b s' => if Ascii.eqb a b then startswith p' s' else false
  | String _ _, EmptyString => false
  end.

(** [needle in hay] *)
Fixpoint contains (needle hay : string) : bool :=
  startswith needle hay ||
  match hay with
  | EmptyString => false
  | String _ hay' => contains needle hay'
  end.

End PyStr.

(** ** Python values, exceptions and the python-OBD objects the scripts touch *)

(** The exceptions caught by [except Exception as e]; [str(e)] is the message. *)
Inductive Exn : Type := Exception (msg : string).

Definition str_exn (e : Exn) : string := let 'Exception msg := e in msg.

(** What [response.value] can hold when it is not [None].  Numbers are the
    magnitudes of the library's quantities (percent, volt), kept exact. *)
Inductive PyValue : Type :=
| VNum (x : Q)
| VStr (s : string)
| VPids (pids : list Z)
| VCodes (codes : list (string * string))
| VObj (attrs : list (string * Q)).

(** truth value of [response.value] in [if response.value:] *)
Definition truthy (v : option PyValue) : bool :=
  match v with
  | None => false
  | Some (VNum x) => negb (Qeq_bool x 0)
  | Some (VStr s) => negb (String.eqb s "")
  | Some (VPids pids) => match pids with [] => false | _ => true end
  | Some (VCodes codes) => match codes with [] => false | _ => true end
  | Some (VObj _) => true
  end.

(** [hasattr(v, a)] and [v.a] for the numeric attributes of a value object *)
Fixpoint assoc (a : string) (attrs : list (string * Q)) : option Q :=
  match attrs with
  | [] => None
  | (k, x) :: rest => if String.eqb k a then Some x else assoc a rest
  end.

Definition py_getattr (v : PyValue) (a : string) : option Q :=
  match v with
  | VObj attrs => assoc a attrs
  | _ => None
  end.

Definition py_hasattr (v : PyValue) (a : string) : bool :=
  match py_getattr v a with Some _ => true | None => false end.

(** The decoders the scripts name when they build a command by hand. *)
Inductive Decoder : Type := decoders_percent | decoders_raw_string | decoders_pid.

(** A command is either an attribute of [obd.commands] or an
    [obd.OBDCommand(name, desc, command, bytes, decoder)] built by a script. *)
Inductive OBDCommand : Type :=
| commands (attr : string)
| OBDCommand_ (name desc command : string) (nbytes : Z) (decoder : Decoder).

(** ** Effects: queries, prints, prompts, sleeps *)

Inductive Event : Type :=
| Query (cmd : OBDCommand) (outcome : Exn + option PyValue)
| Print (line : string)
| Input (prompt answer : string)
| Sleep (seconds : Z)
| Close.

Definition is_query (ev : Event) : option OBDCommand :=
  match ev with
  | Query cmd _ => Some cmd
  | _ => None
  end.

Definition is_print (ev : Event) : option string :=
  match ev with
  | Print line => Some line
  | _ => None
  end.

(** the commands queried, in order, and the lines printed, in order *)
Definition queries (t : list Event) : list OBDCommand := omap is_query t.
Definition printed (t : list Event) : list string := omap is_print t.

Section Monad.
Context {St : Type}.

(** A computation runs from a connection state to the events it caused,
    the connection state it left and either a raised exception or a value. *)
Definition M (A : Type) : Type := St -> list Event * St * (Exn + A).

Definition ret {A} (a : A) : M A := fun s => ([], s, inr a).

Definition bind {A B} (m : M A) (f : A -> M B) : M B :=
  fun s =>
    match m s with
    | (t1, s1, inl e) => (t1, s1, inl e)
    | (t1, s1, inr a) =>
        match f a s1 with
        | (t2, s2, r) => (t1 ++ t2, s2, r)
        end
    end.

Definition raise {A} (e : Exn) : M A := fun s => ([], s, inl e).

Definition emit (ev : Event) : M unit := fun s => ([ev], s, inr tt).

(** [try: body  except Exception as e: handler e] *)
Definition try_except {A} (body : M A) (handler : Exn -> M A) : M A :=
  fun s =>
    match body s with
    | (t1, s1, inl e) =>
        match handler e s1 with
        | (t2, s2, r) => (t1 ++ t2, s2, r)
        end
    | (t1, s1, inr a) => (t1, s1, inr a)
    end.

(** [try: body  finally: final] *)
Definition try_finally {A} (body : M A) (final : M unit) : M A :=
  fun s =>
    match body s with
    | (t1, s1, r) =>
        match final s1 with
        | (t2, s2, inl e) => (t1 ++ t2, s2, inl e)
        | (t2, s2, inr _) => (t1 ++ t2, s2, r)
        end
    end.

(** [for x in l: body x] *)
Fixpoint for_each {A} (l : list A) (body : A -> M unit) : M unit :=
  match l with
  | [] => ret tt
  | x :: l' => bind (body x) (fun _ => for_each l' body)
  end.

(** a [for] loop that updates a local variable [acc] *)
Fixpoint for_acc {A B} (l : list A) (acc : B) (body : B -> A -> M B) : M B :=
  match l with
  | [] => ret acc
  | x :: l' => bind (body acc x) (fun acc' => for_acc l' acc' body)
  end.

(** a [for] loop with a local variable whose body may [break]
    ([inl acc] leaves the loop, [inr acc] goes on; [continue] is [inr]) *)
Fixpoint for_break {A B} (l : list A) (acc : B) (body : B -> A -> M (B + B)) : M B :=
  match l with
  | [] => ret acc
  | x :: l' =>
      bind (body acc x) (fun r =>
        match r with
        | inl acc' => ret acc'
        | inr acc' => for_break l' acc' body
        end)
  end.

Definition print (line : string) : M unit := emit (Print line).
Definition sleep (seconds : Z) : M unit := emit (Sleep seconds).

(** [connection.query(cmd)]: the connection decides the outcome, which is
    an exception, a response without value or a response with a value. *)
Definition query (conn_query : OBDCommand -> St -> (Exn + option PyValue) * St)
    (cmd : OBDCommand) : M (option PyValue) :=
  fun s =>
    match conn_query cmd s with
    | (r, s') => ([Query cmd r], s', r)
    end.

Definition close : M unit := emit Close.

(** numeric operators; on anything but a number Python raises TypeError *)
Definition py_abs (v : PyValue) : M PyValue :=
  match v with
  | VNum x => ret (VNum (Qabs x))
  | _ => raise (Exception "bad operand type for abs()")
  end.

Definition py_add (v w : PyValue) : M PyValue :=
  match v, w with
  | VNum x, VNum y => ret (VNum (x + y))
  | _, _ => raise (Exception "unsupported operand type(s) for +")
  end.

Definition Qltb (x y : Q) : bool := negb (Qle_bool y x).

Definition py_lt (v : PyValue) (y : Q) : M bool :=
  match v with
  | VNum x => ret (Qltb x y)
  | _ => raise (Exception "'<' not supported between instances")
  end.

Definition py_gt (v : PyValue) (y : Q) : M bool :=
  match v with
  | VNum x => ret (Qltb y x)
  | _ => raise (Exception "'>' not supported between instances")
  end.

End Monad.

Arguments M : clear implicits.

Declare Scope py_scope.
Delimit Scope py_scope with py.
Notation "x <- m ;; k" := (bind m (fun x => k))
  (at level 100, m at next level, right associativity) : py_scope.
Notation "m ;; k" := (bind m (fun _ => k))
  (at level 100, right associativity) : py_scope.
Local Open Scope py_scope.

(** [input(prompt)]: the line typed at the prompt is a parameter of the
    embedded function; the event records the prompt and the answer. *)
Definition input {St} (prompt answer : string) : M St string :=
  fun s => ([Input prompt answer], s, inr answer).

(** [str(x)] of an optional value inside an f-string *)
Definition show_opt (show : PyValue -> string) (v : option PyValue) : string :=
  match v with
  | Some x => show x
  | None => "None"
  end.

(** ** More of the Python runtime *)

(** [str(n)] of a length *)
Definition str_of_nat (n : nat) : string := NilEmpty.string_of_uint (Nat.to_uint n).

(** the characters [str.strip()] removes *)
Definition is_space (c : ascii) : bool :=
  let n := nat_of_ascii c in
  ((9 <=? n)%nat && (n <=? 13)%nat) || ((28 <=? n)%nat && (n <=? 32)%nat).

Fixpoint lstrip (s : string) : string :=
  match s with
  | String c s' => if is_space c then lstrip s' else s
  | EmptyString => EmptyString
  end.

(** [s.strip()] *)
Definition strip (s : string) : string := String.rev (lstrip (String.rev (lstrip s))).

(** [len(value)] *)
Definition py_len {St} (v : PyValue) : M St nat :=
  match v with
  | VStr s => ret (String.length s)
  | VPids pids => ret (length pids)
  | VCodes codes => ret (length codes)
  | VNum _ | VObj _ => raise (Exception "object has no len()")
  end.

(** the pairs that [for code, description in value:] goes through; an
    element that is not a pair makes the unpacking raise at the first round *)
Definition py_code_pairs {St} (v : PyValue) : M St (list (string * string)) :=
  match v with
  | VCodes codes => ret codes
  | VStr EmptyString => ret []
  | VStr _ => raise (Exception "not enough values to unpack (expected 2, got 1)")
  | VPids [] => ret []
  | VPids _ => raise (Exception "cannot unpack non-iterable int object")
  | VNum _ | VObj _ => raise (Exception "object is not iterable")
  end.

(** [input()] when no line is left to read *)
Definition eof : Exn := Exception "EOF when reading a line".

(** ** elm327_tsx_reader.py *)

Module elm327_tsx_reader.
Section WithConnection.
Context {St : Type}.
(** the behaviour of [connection.query] *)
Variable conn_query : OBDCommand -> St -> (Exn + option PyValue) * St.
(** [str(value)] as the f-strings render it *)
Variable show : PyValue -> string.
(** [datetime.now().strftime('%H:%M:%S')] *)
Variable clock : string.

Definition live_commands : list (OBDCommand * string) :=
  [ (commands "RPM", "Engine RPM");
    (commands "SPEED", "Vehicle Speed");
    (commands "THROTTLE_POS", "Throttle Position");
    (commands "ENGINE_LOAD", "Engine Load");
    (commands "COOLANT_TEMP", "Coolant Temperature");
    (commands "INTAKE_TEMP", "Intake Air Temperature");
    (commands "MAF", "Mass Air Flow");
    (commands "FUEL_PRESSURE", "Fuel Pressure");
    (commands "O2_B1S1", "O2 Sensor Bank 1 Sensor 1");
    (commands "SHORT_FUEL_TRIM_1", "Short Term Fuel Trim Bank 1");
    (commands "LONG_FUEL_TRIM_1", "Long Term Fuel Trim Bank 1") ].

(** the loop [for cmd, description in commands:] of [read_live_data] *)
Definition read_live_data_loop (cmds : list (OBDCommand * string)) : M St unit :=
  for_each cmds (fun '(cmd, description) =>
    try_except
      (response <- query conn_query cmd;;
       match response with
       | Some value => print (PyStr.ljust 30 description +:+ ": " +:+ show value)
       | None => print (PyStr.ljust 30 description +:+ ": Not available")
       end)
      (fun e => print (PyStr.ljust 30 description +:+ ": Error - " +:+ str_exn e))).

Definition read_live_data : M St unit :=
  print (PyStr.nl +:+ PyStr.repeat "=" 50);;
  print "LIVE DATA";;
  print (PyStr.repeat "=" 50);;
  print ("Reading at " +:+ clock);;
  print (PyStr.repeat "-" 50);;
  read_live_data_loop live_commands.

Definition clear_dtcs (answer : string) : M St unit :=
  print (PyStr.nl +:+ PyStr.repeat "=" 50);;
  print "CLEARING DTCs";;
  print (PyStr.repeat "=" 50);;
  response <- input "Are you sure you want to clear all DTCs? (y/N): " answer;;
  if String.eqb (PyStr.lower response) "y" then
    try_except
      (query conn_query (commands "CLEAR_DTC");;
       print "DTCs cleared successfully";;
       sleep 2)
      (fun e => print ("Error clearing DTCs: " +:+ str_exn e))
  else
    print "DTC clearing cancelled".

(** [hasattr(obd.commands, name)] *)
Variable has_command : string -> bool.

(** the report of a list of trouble codes: its length, then a line per code *)
Definition print_codes_found (found_line : string -> string) (value : PyValue) : M St unit :=
  n <- py_len value;;
  print (found_line (str_of_nat n));;
  codes <- py_code_pairs value;;
  for_each codes (fun '(code, description) => print ("  " +:+ code +:+ ": " +:+ description)).

(** A response object is truthy, so [pending_response] is falsy only when
    it is [None]: the outer [option] below. *)
Definition read_dtcs : M St unit :=
  print (PyStr.nl +:+ PyStr.repeat "=" 50);;
  print "DIAGNOSTIC TROUBLE CODES";;
  print (PyStr.repeat "=" 50);;
  try_except
    (response <- query conn_query (commands "GET_DTC");;
     match response with
     | Some value =>
         if truthy response then
           print_codes_found (fun n => "Found " +:+ n +:+ " stored codes:") value
         else print "No stored DTCs found"
     | None => print "No stored DTCs found"
     end;;
     try_except
       (pending_response <-
          (if has_command "GET_PENDING_DTC" then
             r <- query conn_query (commands "GET_PENDING_DTC");; ret (Some r)
           else if has_command "PENDING_DTC" then
             r <- query conn_query (commands "PENDING_DTC");; ret (Some r)
           else
             print "Pending DTC command not available in this library version";;
             ret None);;
        match pending_response with
        | Some (Some value) =>
            if truthy (Some value) then
              print_codes_found
                (fun n => PyStr.nl +:+ "Found " +:+ n +:+ " pending codes:") value
            else print "No pending DTCs found"
        | Some None => print "No pending DTCs found"
        | None => ret tt
        end)
       (fun e => print ("Could not read pending DTCs: " +:+ str_exn e)))
    (fun e => print ("Error reading DTCs: " +:+ str_exn e)).

Definition info_commands : list (OBDCommand * string) :=
  [ (commands "VIN", "VIN");
    (commands "ELM_VERSION", "ELM327 Version");
    (commands "ELM_VOLTAGE", "Battery Voltage") ].

Definition read_vehicle_info_loop (cmds : list (OBDCommand * string)) : M St unit :=
  for_each cmds (fun '(cmd, description) =>
    try_except
      (response <- query conn_query cmd;;
       match response with
       | Some value => print (PyStr.ljust 20 description +:+ ": " +:+ show value)
       | None => ret tt
       end)
      (fun e => print (PyStr.ljust 20 description +:+ ": Error - " +:+ str_exn e))).

Definition read_vehicle_info : M St unit :=
  print (PyStr.nl +:+ PyStr.repeat "=" 50);;
  print "VEHICLE INFORMATION";;
  print (PyStr.repeat "=" 50);;
  read_vehicle_info_loop info_commands.

Definition menu : list string :=
  [ PyStr.nl +:+ "Select an option:";
    "1. Read DTCs";
    "2. Read Live Data";
    "3. Clear DTCs";
    "4. Vehicle Info";
    "5. Exit" ].

(** [clear_dtcs] when no line is left to read: [input] raises after the
    banner *)
Definition clear_dtcs_at_eof : M St unit :=
  print (PyStr.nl +:+ PyStr.repeat "=" 50);;
  print "CLEARING DTCs";;
  print (PyStr.repeat "=" 50);;
  raise eof.

(** the [while True:] of [main]; [stdin] holds the lines the user types, in
    order; a round that finds no line left raises as [input] does *)
Fixpoint menu_loop (stdin : list string) {struct stdin} : M St unit :=
  for_each menu print;;
  match stdin with
  | [] => raise eof
  | line :: rest =>
      typed <- input (PyStr.nl +:+ "Enter choice (1-5): ") line;;
      let choice := strip typed in
      if String.eqb choice "1" then read_dtcs;; menu_loop rest
      else if String.eqb choice "2" then read_live_data;; menu_loop rest
      else if String.eqb choice "3" then
        match rest with
        | [] => clear_dtcs_at_eof
        | answer :: rest' => clear_dtcs answer;; menu_loop rest'
        end
      else if String.eqb choice "4" then read_vehicle_info;; menu_loop rest
      else if String.eqb choice "5" then ret tt
      else print "Invalid choice. Please enter 1-5.";; menu_loop rest
  end.

(** [main] once [connect_elm327] has returned a connection: the
    [try ... finally]; KeyboardInterrupt is outside the model *)
Definition main (stdin : list string) : M St unit :=
  try_finally (menu_loop stdin) (close;; print "Connection closed").

End WithConnection.
End elm327_tsx_reader.

(** ** po4220V2.py *)

Module po4220V2.
Section WithConnection.
Context {St : Type}.
Variable conn_query : OBDCommand -> St -> (Exn + option PyValue) * St.
Variable show : PyValue -> string.
(** [hasattr(obd.commands, name)] *)
Variable has_command : string -> bool.

Definition o2_commands : list (OBDCommand * string * string) :=
  [ (commands "O2_B1S1", "Bank 1 Sensor 1 (Upstream/Pre-Cat)", "Pre-catalytic converter");
    (commands "O2_B1S2", "Bank 1 Sensor 2 (Downstream/Post-Cat)", "Post-catalytic converter") ]
  ++ (if has_command "O2_B2S1" then
        [ (commands "O2_B2S1", "Bank 2 Sensor 1 (Upstream)", "Pre-catalytic converter");
          (commands "O2_B2S2", "Bank 2 Sensor 2 (Downstream)", "Post-catalytic converter") ]
      else []).

Definition very_lean : string := "  └─ Analysis: Very lean (possible vacuum leak)".
Definition very_rich : string := "  └─ Analysis: Very rich (possible fuel system issue)".
Definition normal_switching : string := "  └─ Analysis: Normal switching range".
Definition cat_working : string :=
  "  └─ Analysis: Cat working (voltage should be stable ~0.6-0.8V)".
Definition cat_inefficiency : string :=
  "  └─ Analysis: ⚠️ High voltage suggests cat inefficiency".

(** [# Analyze voltage patterns]: the if/else on the description and the
    voltage inside the loop of [read_o2_sensors] *)
Definition analyze_voltage (description : string) (voltage : PyValue) : M St unit :=
  if PyStr.contains "Upstream" description || PyStr.contains "Pre-Cat" description then
    lean <- py_lt voltage 0.1;;
    if lean : bool then print very_lean
    else
      rich <- py_gt voltage 0.9;;
      if rich : bool then print very_rich
      else print normal_switching
  else
    low <- py_lt voltage 0.6;;
    if low : bool then print cat_working
    else print cat_inefficiency.

Definition read_o2_sensors_loop (cmds : list (OBDCommand * string * string)) : M St unit :=
  for_each cmds (fun '(cmd, description, location) =>
    try_except
      (response <- query conn_query cmd;;
       match response with
       | Some value =>
           let voltage :=
             match py_getattr value "voltage" with
             | Some x => VNum x
             | None => value
             end in
           print (PyStr.ljust 35 description +:+ ": " +:+ show voltage);;
           analyze_voltage description voltage
       | None => print (PyStr.ljust 35 description +:+ ": Not available")
       end)
      (fun e => print (PyStr.ljust 35 description +:+ ": Error - " +:+ str_exn e))).

Definition read_o2_sensors : M St unit :=
  print (PyStr.repeat "=" 60);;
  print "OXYGEN SENSOR ANALYSIS";;
  print (PyStr.repeat "=" 60);;
  print "Reading O2 sensor voltages (engine should be warmed up and running):";;
  print (PyStr.repeat "-" 60);;
  read_o2_sensors_loop o2_commands;;
  print (PyStr.nl +:+ "IMPORTANT O2 SENSOR NOTES:");;
  print "- Upstream sensors should switch rapidly (0.1V - 0.9V)";;
  print "- Downstream sensors should be stable (~0.6-0.8V)";;
  print "- If downstream follows upstream closely = bad cat".

Definition fuel_commands : list (OBDCommand * string) :=
  [ (commands "SHORT_FUEL_TRIM_1", "Short Term Fuel Trim Bank 1");
    (commands "LONG_FUEL_TRIM_1", "Long Term Fuel Trim Bank 1") ]
  ++ (if has_command "SHORT_FUEL_TRIM_2" then
        [ (commands "SHORT_FUEL_TRIM_2", "Short Term Fuel Trim Bank 2");
          (commands "LONG_FUEL_TRIM_2", "Long Term Fuel Trim Bank 2") ]
      else []).

(** [# Analyze fuel trim]: the per-value rule of [read_fuel_trim] *)
Definition analyze_trim (trim_percent : PyValue) : M St unit :=
  a <- py_abs trim_percent;;
  high <- py_gt a 25;;
  if high : bool then print "  └─ ⚠️ HIGH TRIM: Possible fuel system or sensor issue"
  else
    a' <- py_abs trim_percent;;
    elevated <- py_gt a' 10;;
    if elevated : bool then print "  └─ ELEVATED: Monitor for trends"
    else print "  └─ NORMAL: Within acceptable range".

Definition read_fuel_trim_loop (cmds : list (OBDCommand * string)) : M St unit :=
  for_each cmds (fun '(cmd, description) =>
    try_except
      (response <- query conn_query cmd;;
       match response with
       | Some trim_percent =>
           print (PyStr.ljust 35 description +:+ ": " +:+ show trim_percent);;
           analyze_trim trim_percent
       | None => ret tt
       end)
      (fun e => print (PyStr.ljust 35 description +:+ ": Error - " +:+ str_exn e))).

Definition read_fuel_trim : M St unit :=
  print (PyStr.nl +:+ PyStr.repeat "=" 60);;
  print "FUEL TRIM ANALYSIS";;
  print (PyStr.repeat "=" 60);;
  print "Fuel trim values (+ = adding fuel, - = removing fuel):";;
  print (PyStr.repeat "-" 60);;
  read_fuel_trim_loop fuel_commands;;
  print (PyStr.nl +:+ "FUEL TRIM INTERPRETATION:");;
  print "- Normal range: -10% to +10%";;
  print "- High positive: Engine running lean (adding fuel)";;
  print "- High negative: Engine running rich (removing fuel)";;
  print "- Extreme values can damage catalytic converter".

Definition temp_commands : list string :=
  [ "CATALYST_TEMP_B1S1"; "CAT_TEMP_B1"; "CATALYST_TEMP" ].

(** the body of the loop of [read_catalyst_temp]; the local variable is
    [found_temp]; [inl] stands for [break], which the body reaches at the
    first response that has a value *)
Definition read_catalyst_temp_body (found_temp : bool) (cmd_name : string)
    : M St (bool + bool) :=
  if has_command cmd_name : bool then
    try_except
      (response <- query conn_query (commands cmd_name);;
       match response with
       | Some value =>
           print ("Catalyst Temperature (" +:+ cmd_name +:+ "): " +:+ show value);;
           match py_getattr value "celsius" with
           | Some temp_c =>
               if Qltb 800 temp_c then
                 print "  └─ ⚠️ HIGH TEMP: Possible engine running rich"
               else if Qltb temp_c 300 then
                 print "  └─ LOW TEMP: Cat may not be reaching operating temp"
               else print "  └─ NORMAL OPERATING RANGE"
           | None => ret tt
           end;;
           ret (inl true)
       | None => ret (inr found_temp)
       end)
      (fun e =>
         print ("Error reading " +:+ cmd_name +:+ ": " +:+ str_exn e);;
         ret (inr found_temp))
  else ret (inr found_temp).

Definition read_catalyst_temp_loop (names : list string) : M St bool :=
  for_break names false read_catalyst_temp_body.

Definition read_catalyst_temp : M St unit :=
  print (PyStr.nl +:+ PyStr.repeat "=" 60);;
  print "CATALYST TEMPERATURE (if available)";;
  print (PyStr.repeat "=" 60);;
  found_temp <- read_catalyst_temp_loop temp_commands;;
  if negb found_temp then
    print "Catalyst temperature data not available with this scanner";;
    print "This is normal - most basic ELM327 adapters don't support cat temp"
  else ret tt.

Definition analyze_p0420 : M St unit :=
  for_each
    [ PyStr.repeat "=" 60;
      "P0420 CATALYST EFFICIENCY DIAGNOSTIC";
      PyStr.repeat "=" 60;
      "Code: P0420 - Catalyst System Efficiency Below Threshold";
      "Location: Bank 1 (Cylinder side with #1 cylinder)";
      "";
      "WHAT THIS MEANS:";
      "- Catalytic converter not cleaning exhaust efficiently";
      "- Downstream O2 sensor detecting insufficient conversion";
      "- May cause emissions test failure";
      "- Usually not drivability issue initially";
      "" ] print.

Definition p0420_recommendations : M St unit :=
  for_each
    [ PyStr.nl +:+ PyStr.repeat "=" 60;
      "P0420 REPAIR RECOMMENDATIONS";
      PyStr.repeat "=" 60;
      "STEP 1: VERIFY THE CODE";
      "- Clear the code and drive 20-30 miles";
      "- If it returns immediately = likely bad cat";
      "- If it takes several drive cycles = possible other causes";
      "";
      "STEP 2: CHECK THESE FIRST (cheaper fixes):";
      "- Downstream O2 sensor (Bank 1, Sensor 2)";
      "- Exhaust leaks between engine and cat";
      "- Air filter (dirty filter can affect mixture)";
      "- Fuel injector cleaning";
      "";
      "STEP 3: ADVANCED DIAGNOSTICS:";
      "- O2 sensor switching test with scanner";
      "- Catalytic converter efficiency test";
      "- Check for oil consumption (blue smoke)";
      "";
      "STEP 4: IF CAT REPLACEMENT NEEDED:";
      "- OEM Honda cat: $800-1200 (best longevity)";
      "- Aftermarket CARB compliant: $300-600";
      "- Labor: 2-4 hours ($200-400)";
      "";
      "⚠️  IMPORTANT FOR 2009 TSX:";
      "- California emissions (CARB) compliant cat required";
      "- Some cheap cats will trigger P0420 again quickly";
      "- Address root cause or new cat will fail too" ] print.

(** the body of the [try] of [main]; [stdin] holds the lines the user
    types, and an [input] that finds none left raises *)
Definition live_analysis (stdin : list string) : M St unit :=
  analyze_p0420;;
  match stdin with
  | [] => raise eof
  | first :: rest =>
      input (PyStr.nl +:+ "Press Enter to continue with live data analysis...") first;;
      print (PyStr.nl +:+ "🔥 ENGINE SHOULD BE RUNNING AND WARMED UP FOR ACCURATE READINGS");;
      match rest with
      | [] => raise eof
      | second :: _ =>
          input "Start engine and let warm up for 5+ minutes, then press Enter..." second;;
          read_o2_sensors;;
          read_fuel_trim;;
          read_catalyst_temp;;
          p0420_recommendations
      end
  end.

(** [main]; [car_connected] is the outcome of the test
    [connection.status() != obd.OBDStatus.CAR_CONNECTED] on the connection
    that [obd.OBD()] returned *)
Definition main (car_connected : bool) (stdin : list string) : M St unit :=
  print "P0420 CATALYST DIAGNOSTIC FOR 2009 ACURA TSX";;
  print (PyStr.repeat "=" 60);;
  if negb car_connected then
    print "✗ Could not connect to vehicle";;
    print "Make sure engine is running and warmed up for best results"
  else
    try_finally (live_analysis stdin) close.

End WithConnection.
End po4220V2.

(** ** po420_honda_spec.py *)

Module po420_honda_spec.
Section WithConnection.
Context {St : Type}.
Variable conn_query : OBDCommand -> St -> (Exn + option PyValue) * St.
Variable show : PyValue -> string.
Variable has_command : string -> bool.

Definition standard_pids : list (string * string) :=
  [ ("O2_B1S1", "Bank 1 Sensor 1 (Standard)");
    ("O2_B1S2", "Bank 1 Sensor 2 (Standard)");
    ("O2_B2S1", "Bank 2 Sensor 1 (Standard)");
    ("O2_B2S2", "Bank 2 Sensor 2 (Standard)") ].

Definition honda_specific_pids : list (string * string) :=
  [ ("0115", "O2 Bank 1 Sensor 2 (Honda Format)");
    ("0116", "O2 Bank 1 Sensor 3 (Honda Format)");
    ("0117", "O2 Bank 1 Sensor 4 (Honda Format)");
    ("0118", "O2 Bank 2 Sensor 1 (Honda Format)");
    ("0119", "O2 Bank 2 Sensor 2 (Honda Format)") ].

(** an entry of [working_sensors] *)
Definition Sensor : Type := string * string * PyValue.

(** [# Test standard commands]: the body of the first loop of
    [test_all_o2_sensor_pids]; [working_sensors] is the list it appends to *)
Definition test_standard_body (working_sensors : list Sensor)
    (entry : string * string) : M St (list Sensor) :=
  let '(cmd_name, description) := entry in
  if has_command cmd_name : bool then
    try_except
      (let cmd := commands cmd_name in
       response <- query conn_query cmd;;
       match response with
       | Some value =>
           print ("✓ " +:+ description +:+ ": " +:+ show value);;
           ret (working_sensors ++ [(cmd_name, description, value)])
       | None =>
           print ("✗ " +:+ description +:+ ": No data");;
           ret working_sensors
       end)
      (fun e =>
         print ("✗ " +:+ description +:+ ": Error - " +:+ str_exn e);;
         ret working_sensors)
  else
    print ("✗ " +:+ description +:+ ": Command not available");;
    ret working_sensors.

Definition test_standard_loop (pids : list (string * string))
    (working_sensors : list Sensor) : M St (list Sensor) :=
  for_acc pids working_sensors test_standard_body.

(** the command built for a raw Honda PID *)
Definition honda_cmd (pid description : string) : OBDCommand :=
  OBDCommand_ ("HONDA_O2_" +:+ pid) description pid 2 decoders_percent.

(** [# Test Honda-specific raw PIDs]: the body of the second loop *)
Definition test_honda_body (working_sensors : list Sensor)
    (entry : string * string) : M St (list Sensor) :=
  let '(pid, description) := entry in
  try_except
    (let custom_cmd := honda_cmd pid description in
     response <- query conn_query custom_cmd;;
     match response with
     | Some value =>
         print ("✓ " +:+ description +:+ ": " +:+ show value);;
         ret (working_sensors ++ [(pid, description, value)])
     | None =>
         print ("✗ " +:+ description +:+ ": No response");;
         ret working_sensors
     end)
    (fun e =>
       print ("✗ " +:+ description +:+ ": Error - " +:+ str_exn e);;
       ret working_sensors).

Definition test_honda_loop (pids : list (string * string))
    (working_sensors : list Sensor) : M St (list Sensor) :=
  for_acc pids working_sensors test_honda_body.

Definition test_all_o2_sensor_pids : M St (list Sensor) :=
  print (PyStr.repeat "=" 60);;
  print "TESTING ALL POSSIBLE O2 SENSOR PIDS";;
  print (PyStr.repeat "=" 60);;
  print "TESTING STANDARD O2 SENSOR COMMANDS:";;
  print (PyStr.repeat "-" 40);;
  working_sensors <- test_standard_loop standard_pids [];;
  print (PyStr.nl +:+ "TESTING HONDA-SPECIFIC O2 PIDS:");;
  print (PyStr.repeat "-" 40);;
  working_sensors <- test_honda_loop honda_specific_pids working_sensors;;
  ret working_sensors.

Definition mixture_excellent : string := "✓ FUEL MIXTURE: Excellent - not causing P0420".
Definition mixture_acceptable : string :=
  "⚠ FUEL MIXTURE: Acceptable - probably not causing P0420".
Definition mixture_poor : string := "✗ FUEL MIXTURE: Poor - could contribute to P0420".

(** the guarded block [if stft.value is not None and ltft.value is not None:]
    of [analyze_p0420_without_o2] *)
Definition fuel_mixture (stft ltft : option PyValue) : M St unit :=
  match stft, ltft with
  | Some short, Some long =>
      a <- py_abs short;;
      b <- py_abs long;;
      total_trim <- py_add a b;;
      excellent <- py_lt total_trim 10;;
      if excellent : bool then print mixture_excellent
      else
        acceptable <- py_lt total_trim 20;;
        if acceptable : bool then print mixture_acceptable
        else print mixture_poor
  | _, _ => ret tt
  end.

Definition diagnosis_text : list string :=
  [ PyStr.nl +:+ "P0420 DIAGNOSIS WITHOUT O2 SENSOR READINGS:";
    PyStr.repeat "-" 50;
    "Since your fuel trims are excellent (-4.7% LTFT, 0% STFT):";
    "";
    "✓ Engine mixture is NOT causing P0420";
    "✓ No vacuum leaks or fuel system issues";
    "✓ Problem is likely:";
    "   1. Catalytic converter efficiency loss (most likely)";
    "   2. Downstream O2 sensor failure";
    "   3. Exhaust leak between cat and downstream sensor";
    "";
    "RECOMMENDED NEXT STEPS:";
    "1. Clear P0420 code and drive 20+ miles";
    "2. If code returns quickly = likely bad catalytic converter";
    "3. Try replacing downstream O2 sensor first (cheaper)";
    "4. If still P0420 after new sensor = replace catalytic converter" ].

Definition analyze_p0420_without_o2 : M St unit :=
  print (PyStr.nl +:+ PyStr.repeat "=" 60);;
  print "P0420 ANALYSIS WITHOUT DIRECT O2 SENSOR DATA";;
  print (PyStr.repeat "=" 60);;
  print "Since we can't read O2 sensor voltages directly, here's what we know:";;
  print "";;
  print "FUEL TRIM ANALYSIS:";;
  print (PyStr.repeat "-" 30);;
  try_except
    (stft <- query conn_query (commands "SHORT_FUEL_TRIM_1");;
     ltft <- query conn_query (commands "LONG_FUEL_TRIM_1");;
     print ("Short Term Fuel Trim: " +:+ show_opt show stft);;
     print ("Long Term Fuel Trim:  " +:+ show_opt show ltft);;
     fuel_mixture stft ltft)
    (fun e => print ("Error reading fuel trims: " +:+ str_exn e));;
  for_each diagnosis_text print.

(** the list [wideband_commands] of [test_wideband_o2_sensors]; the
    function never reads it *)
Definition wideband_commands : list (string * string) :=
  [ ("COMMANDED_EGR", "Commanded EGR");
    ("EGR_ERROR", "EGR Error") ].

Definition afr_pids : list (string * string) :=
  [ ("0124", "AFR Bank 1 Sensor 1");
    ("0125", "AFR Bank 1 Sensor 2");
    ("0126", "AFR Bank 2 Sensor 1");
    ("0127", "AFR Bank 2 Sensor 2") ].

(** the command built for an air-fuel-ratio PID *)
Definition afr_cmd (pid description : string) : OBDCommand :=
  OBDCommand_ ("AFR_" +:+ pid) description pid 2 decoders_percent.

Definition test_wideband_loop (pids : list (string * string)) : M St unit :=
  for_each pids (fun '(pid, description) =>
    try_except
      (response <- query conn_query (afr_cmd pid description);;
       match response with
       | Some value => print ("✓ " +:+ description +:+ ": " +:+ show value)
       | None => print ("✗ " +:+ description +:+ ": No data")
       end)
      (fun e => print ("✗ " +:+ description +:+ ": Error - " +:+ str_exn e))).

Definition test_wideband_o2_sensors : M St unit :=
  print (PyStr.nl +:+ PyStr.repeat "=" 60);;
  print "TESTING WIDEBAND/AFR SENSORS";;
  print (PyStr.repeat "=" 60);;
  print "Air-Fuel Ratio Sensors (if equipped):";;
  print (PyStr.repeat "-" 40);;
  test_wideband_loop afr_pids.

(** [live_o2_monitoring] loops against the wall clock for thirty seconds;
    it is a parameter of [main] here, which is embedded for whatever the
    monitoring does once it is called *)
Variable live_o2_monitoring : list Sensor -> M St unit.

(** the body of the [try] of [main]; [stdin] holds the lines the user
    types, and an [input] that finds none left raises *)
Definition diagnose (stdin : list string) : M St unit :=
  working_sensors <- test_all_o2_sensor_pids;;
  test_wideband_o2_sensors;;
  match working_sensors with
  | [] => ret tt
  | _ :: _ =>
      match stdin with
      | [] => raise eof
      | line :: _ =>
          do_live <- input (PyStr.nl +:+ "Found " +:+ str_of_nat (length working_sensors)
                              +:+ " working sensors. Do live monitoring? (y/N): ") line;;
          if String.eqb (PyStr.lower do_live) "y" then live_o2_monitoring working_sensors
          else ret tt
      end
  end;;
  analyze_p0420_without_o2.

(** [main]; [car_connected] is the outcome of the test
    [connection.status() != obd.OBDStatus.CAR_CONNECTED] on the connection
    that [obd.OBD()] returned *)
Definition main (car_connected : bool) (stdin : list string) : M St unit :=
  print "HONDA/ACURA O2 SENSOR DIAGNOSTIC FOR P0420";;
  print (PyStr.repeat "=" 60);;
  if negb car_connected then print "✗ Could not connect to vehicle"
  else try_finally (diagnose stdin) close.

End WithConnection.
End po420_honda_spec.

(** ** test_vin.py *)

Module test_vin.
Section WithConnection.
Context {St : Type}.
Variable conn_query : OBDCommand -> St -> (Exn + option PyValue) * St.
Variable show : PyValue -> string.
Variable has_command : string -> bool.

Definition test_vin_command : M St (option PyValue) :=
  print (PyStr.repeat "=" 50);;
  print "TESTING STANDARD VIN COMMAND";;
  print (PyStr.repeat "=" 50);;
  try_except
    (if has_command "VIN" then
       print "✓ VIN command exists in library";;
       print "Attempting to read VIN...";;
       response <- query conn_query (commands "VIN");;
       if truthy response then
         print ("✓ VIN Retrieved: " +:+ show_opt show response);;
         ret response
       else
         print "✗ VIN command returned no data";;
         print ("Response: " +:+ show_opt show response);;
         ret None
     else
       print "✗ VIN command not available in library";;
       ret None)
    (fun e =>
       print ("✗ Error reading VIN: " +:+ str_exn e);;
       ret None).


Definition vin_pids : list (string * string) :=
  [ ("0902", "Standard VIN Request (Mode 09, PID 02)");
    ("0904", "Calibration ID");
    ("090A", "ECU Name") ].

(** the command built for a raw Mode-09 request *)
Definition raw_vin_cmd (pid description : string) : OBDCommand :=
  OBDCommand_ "VIN_TEST" description pid 17 decoders_raw_string.

Definition test_raw_vin_loop (pids : list (string * string)) : M St unit :=
  for_each pids (fun '(pid, description) =>
    print (PyStr.nl +:+ "Testing " +:+ description +:+ ":");;
    try_except
      (response <- query conn_query (raw_vin_cmd pid description);;
       if truthy response then
         print ("✓ Response: " +:+ show_opt show response)
       else
         print ("✗ No response for " +:+ pid))
      (fun e => print ("✗ Error with " +:+ pid +:+ ": " +:+ str_exn e))).

Definition test_raw_vin_commands : M St unit :=
  print (PyStr.nl +:+ PyStr.repeat "=" 50);;
  print "TESTING RAW VIN COMMANDS";;
  print (PyStr.repeat "=" 50);;
  test_raw_vin_loop vin_pids.

Definition info_commands : list (OBDCommand * string) :=
  [ (commands "ELM_VERSION", "ELM327 Version");
    (commands "ELM_VOLTAGE", "Battery Voltage") ].

Definition protocol_cmd : OBDCommand :=
  OBDCommand_ "PROTOCOL" "Current Protocol" "ATDP" 1 decoders_raw_string.

Definition test_elm327_info : M St unit :=
  print (PyStr.nl +:+ PyStr.repeat "=" 50);;
  print "ELM327 ADAPTER INFORMATION";;
  print (PyStr.repeat "=" 50);;
  try_except
    (protocol_response <- query conn_query protocol_cmd;;
     if truthy protocol_response then
       print ("Current Protocol: " +:+ show_opt show protocol_response)
     else ret tt)
    (fun _ => print "Could not determine current protocol");;
  for_each info_commands (fun '(cmd, description) =>
    try_except
      (response <- query conn_query cmd;;
       match response with
       | Some value => print (description +:+ ": " +:+ show value)
       | None => print (description +:+ ": Not available")
       end)
      (fun e => print (description +:+ ": Error - " +:+ str_exn e))).

(** [2 in value] *)
Definition py_in (n : Z) (v : PyValue) : M St bool :=
  match v with
  | VPids pids => ret (existsb (Z.eqb n) pids)
  | VCodes _ => ret false
  | VStr _ => raise (Exception "'in <string>' requires string as left operand, not int")
  | VNum _ | VObj _ => raise (Exception "argument is not iterable")
  end.

Definition mode09_cmd : OBDCommand :=
  OBDCommand_ "MODE09_PIDS" "Mode 09 Supported PIDs" "0900" 4 decoders_pid.

Definition vin_supported : string := "✓ VIN (PID 02) is supported!".
Definition vin_not_supported : string := "✗ VIN (PID 02) is NOT supported".

Definition test_supported_pids : M St unit :=
  print (PyStr.nl +:+ PyStr.repeat "=" 50);;
  print "SUPPORTED PIDS TEST";;
  print (PyStr.repeat "=" 50);;
  try_except
    (pids_01 <- query conn_query (commands "PIDS_A");;
     (if truthy pids_01 then
        print ("Mode 01 Supported PIDs: " +:+ show_opt show pids_01)
      else ret tt);;
     print (PyStr.nl +:+ "Testing Mode 09 (Vehicle Information) support...");;
     pids_09 <- query conn_query mode09_cmd;;
     match pids_09 with
     | Some value =>
         if truthy pids_09 then
           print ("Mode 09 Supported PIDs: " +:+ show value);;
           supported <- py_in 2 value;;
           if supported : bool then print vin_supported
           else print vin_not_supported
         else print "✗ Mode 09 not supported or no response"
     | None => print "✗ Mode 09 not supported or no response"
     end)
    (fun e => print ("Error testing supported PIDs: " +:+ str_exn e)).

Definition alternative_text : list string :=
  [ PyStr.nl +:+ PyStr.repeat "=" 50;
    "ALTERNATIVE VIN RETRIEVAL METHODS";
    PyStr.repeat "=" 50;
    "Since OBD-II VIN retrieval failed, try these alternatives:";
    "";
    "1. PHYSICAL LOCATION:";
    "   - Dashboard (driver side, visible through windshield)";
    "   - Driver door jamb sticker";
    "   - Engine bay (firewall or strut tower)";
    "";
    "2. HONDA-SPECIFIC TOOLS:";
    "   - Honda HDS (Honda Diagnostic System)";
    "   - Autel scanners with Honda protocols";
    "   - Launch X431 series";
    "";
    "3. ONLINE VIN LOOKUP:";
    "   - Use license plate lookup services";
    "   - Check vehicle registration documents";
    "";
    "4. SMARTPHONE APPS:";
    "   - Some apps can scan VIN barcodes from documents";
    "   - Insurance company apps often store VIN" ].

Definition alternative_vin_methods : M St unit := for_each alternative_text print.

(** [# Run all diagnostic tests]: the body of the [try:] of [main] *)
Definition run_all_tests : M St unit :=
  vin <- test_vin_command;;
  if negb (truthy vin) then
    test_raw_vin_commands;;
    test_elm327_info;;
    test_supported_pids;;
    alternative_vin_methods
  else ret tt.

(** [main] once the connection is established: the [try ... finally] *)
Definition main : M St unit :=
  try_finally run_all_tests
    (close;;
     print (PyStr.nl +:+ PyStr.repeat "=" 60);;
     print "Diagnostic complete. Connection closed.").

End WithConnection.
End test_vin.

(** ** print_codes.py *)

Module print_codes.

(** An attribute of the [obd.commands] object: what [hasattr(v, 'name')]
    and [hasattr(v, 'desc')] see, and the description when there is one. *)
Record Attr : Type := { has_name : bool; desc : option string }.

(** [dir(obd.commands)]: the attribute names in alphabetical order *)
Definition dir (obd_commands : gmap string Attr) : list string :=
  merge_sort String.le (map_to_list obd_commands).*1.

(** the keys of the dict [categories] of [list_all_commands], in the order
    in which the dict holds them *)
Inductive Category : Type :=
| Engine | Fuel | Temperature | Pressure | Sensors | Emission | System | Other.

#[global] Instance Category_eq_dec : EqDecision Category.
Proof. solve_decision. Defined.

Definition category_keys : list Category :=
  [Engine; Fuel; Temperature; Pressure; Sensors; Emission; System; Other].

Definition category_name (category : Category) : string :=
  match category with
  | Engine => "Engine"
  | Fuel => "Fuel"
  | Temperature => "Temperature"
  | Pressure => "Pressure"
  | Sensors => "Sensors"
  | Emission => "Emission"
  | System => "System"
  | Other => "Other"
  end.

(** [any(keyword in name_lower for keyword in keywords)] *)
Definition any_in (keywords : list string) (name_lower : string) : bool :=
  existsb (fun keyword => PyStr.contains keyword name_lower) keywords.

(** the [if ... elif ... else] of [list_all_commands] on the lowered name *)
Definition categorize (name_lower : string) : Category :=
  if any_in ["rpm"; "load"; "timing"] name_lower then Engine
  else if any_in ["fuel"; "trim"] name_lower then Fuel
  else if any_in ["temp"; "coolant"; "intake_temp"] name_lower then Temperature
  else if any_in ["pressure"; "vacuum"] name_lower then Pressure
  else if any_in ["o2"; "sensor"; "maf"] name_lower then Sensors
  else if any_in ["dtc"; "monitor"; "emission"] name_lower then Emission
  else if any_in ["elm"; "status"; "vin"] name_lower then System
  else Other.

(** the order of [sorted] on the items of a dict: the keys of a dict
    differ, so two items compare as their names do *)
Definition name_le (a b : string * Attr) : Prop := String.le a.1 b.1.

#[global] Instance name_le_dec (a b : string * Attr) : Decision (name_le a b).
Proof. unfold name_le. apply _. Defined.

(** [sorted(commands_dict.items())] *)
Definition sorted_items (commands_dict : gmap string Attr) : list (string * Attr) :=
  merge_sort name_le (map_to_list commands_dict).

Section WithCommands.
Context {St : Type}.
(** the attributes of [obd.commands] by name *)
Variable obd_commands : gmap string Attr.

Definition result_line (attr_name description : string) : string :=
  "  " +:+ PyStr.ljust 25 attr_name +:+ " : " +:+ description.

(** the body of the loop of [search_commands]; the local variable is [found] *)
Definition search_body (search_term : string) (found : bool) (attr_name : string)
    : M St bool :=
  if negb (PyStr.startswith "_" attr_name) then
    match obd_commands !! attr_name with
    | Some attr_value =>
        match has_name attr_value, desc attr_value with
        | true, Some description =>
            if PyStr.contains (PyStr.upper search_term) (PyStr.upper attr_name)
               || PyStr.contains (PyStr.upper search_term) (PyStr.upper description)
            then
              print (result_line attr_name description);;
              ret true
            else ret found
        | _, _ => ret found
        end
    | None => raise (Exception ("object has no attribute '" +:+ attr_name +:+ "'"))
    end
  else ret found.

Definition search_loop (search_term : string) (names : list string) : M St bool :=
  for_acc names false (search_body search_term).

Definition search_commands (search_term : string) : M St unit :=
  print (PyStr.nl +:+ "Searching for commands containing '" +:+ search_term +:+ "':");;
  print (PyStr.repeat "-" 50);;
  found <- search_loop search_term (dir obd_commands);;
  if negb found then
    print ("  No commands found containing '" +:+ search_term +:+ "'")
  else ret tt.

(** the body of the first loop of [list_all_commands]; the local variable
    is the dict [commands_dict] *)
Definition collect_body (commands_dict : gmap string Attr) (attr_name : string)
    : M St (gmap string Attr) :=
  if negb (PyStr.startswith "_" attr_name) then
    match obd_commands !! attr_name with
    | Some attr_value =>
        match has_name attr_value, desc attr_value with
        | true, Some _ => ret (<[attr_name := attr_value]> commands_dict)
        | _, _ => ret commands_dict
        end
    | None => raise (Exception ("object has no attribute '" +:+ attr_name +:+ "'"))
    end
  else ret commands_dict.

(** the body of the second loop; the dict [categories] has the fixed keys
    [category_keys], so it is a function of the key *)
Definition categorize_body (categories : Category -> list (string * Attr))
    (item : string * Attr) : M St (Category -> list (string * Attr)) :=
  let '(cmd_name, cmd_obj) := item in
  let name_lower := PyStr.lower cmd_name in
  match desc cmd_obj with
  | Some description =>
      let desc_lower := PyStr.lower description in
      let category := categorize name_lower in
      ret (fun key => if decide (key = category) then categories key ++ [item]
                      else categories key)
  | None => raise (Exception "object has no attribute 'desc'")
  end.

(** the body of the third loop *)
Definition print_category (categories : Category -> list (string * Attr))
    (category : Category) : M St unit :=
  match categories category with
  | [] => ret tt
  | _ :: _ =>
      print (PyStr.nl +:+ PyStr.upper (category_name category) +:+ " COMMANDS:");;
      print (PyStr.repeat "-" 40);;
      for_each (categories category) (fun '(cmd_name, cmd_obj) =>
        match desc cmd_obj with
        | Some description => print (result_line cmd_name description)
        | None => raise (Exception "object has no attribute 'desc'")
        end)
  end.

Definition list_all_commands : M St unit :=
  print (PyStr.repeat "=" 60);;
  print "AVAILABLE OBD COMMANDS IN PYTHON-OBD";;
  print (PyStr.repeat "=" 60);;
  commands_dict <- for_acc (dir obd_commands) ∅ collect_body;;
  let sorted_commands := sorted_items commands_dict in
  print ("Found " +:+ str_of_nat (length sorted_commands) +:+ " OBD commands:" +:+ PyStr.nl);;
  categories <- for_acc sorted_commands (fun _ => []) categorize_body;;
  for_each category_keys (print_category categories).

End WithCommands.
End print_codes.

(** ** What is observed of a run *)

Section Observations.
Context {St : Type}.

(** a computation that never lets an exception escape *)
Definition catches {A} (m : M St A) : Prop := forall s, exists a, (m s).2 = inr a.

(** a computation that queries exactly the commands [cs], in this order *)
Definition asks {A} (m : M St A) (cs : list OBDCommand) : Prop :=
  forall s, queries (m s).1.1 = cs.

End Observations.

(** ** Concrete connections used to run the scripts *)

Module Bench.

(** the text a command puts on the wire, or the attribute name *)
Definition wire (cmd : OBDCommand) : string :=
  match cmd with
  | commands attr => attr
  | OBDCommand_ _ _ command _ _ => command
  end.

Fixpoint answer (tbl : list (string * (Exn + option PyValue))) (key : string)
    : Exn + option PyValue :=
  match tbl with
  | [] => inr None
  | (k, r) :: rest => if String.eqb k key then r else answer rest key
  end.

(** A vehicle that answers from a table (no value for a command that is
    not in the table); its state counts the queries it has received. *)
Definition vehicle (tbl : list (string * (Exn + option PyValue)))
    (cmd : OBDCommand) (n : nat) : (Exn + option PyValue) * nat :=
  (answer tbl (wire cmd), S n).

Definition show (v : PyValue) : string :=
  match v with
  | VStr s => s
  | VNum _ => "<number>"
  | VPids _ => "<pids>"
  | VCodes _ => "<codes>"
  | VObj _ => "<object>"
  end.

(** every name is an attribute of [obd.commands] *)
Definition all_commands (name : string) : bool := true.

End Bench.

(** ** The classifications named by the specification *)

Module Spec.





(** [read_o2_sensors] takes a sensor for an upstream one when its
    description says so *)
Definition is_upstream (description : string) : bool :=
  PyStr.contains "Upstream" description || PyStr.contains "Pre-Cat" description.


(** a run that announces a verdict of its own, whatever it is *)
Definition announces_a_verdict {St A} (run : list Event * St * (Exn + A)) : Prop :=
  printed run.1.1 <> [].

End Spec.

(** ** What a trace tells about successes and failures *)

(** the queries that came back with a value, in order *)
Definition is_answer (ev : Event) : option (OBDCommand * PyValue) :=
  match ev with
  | Query cmd (inr (Some value)) => Some (cmd, value)
  | _ => None
  end.

Definition answered (t : list Event) : list (OBDCommand * PyValue) := omap is_answer t.

(** a query raised somewhere in the trace *)
Definition raised (t : list Event) : Prop := exists cmd e, In (Query cmd (inl e)) t.

(** every query that raised is immediately followed by a printed line that
    [line] accepts for the command and the exception *)
Fixpoint each_failure_printed (line : OBDCommand -> Exn -> string -> Prop)
    (t : list Event) : Prop :=
  match t with
  | [] => True
  | Query cmd (inl e) :: rest =>
      (exists l, head rest = Some (Print l) /\ line cmd e l) /\
      each_failure_printed line rest
  | _ :: rest => each_failure_printed line rest
  end.

(** the error line of [test_all_o2_sensor_pids] *)
Definition o2_error_line (cmd : OBDCommand) (e : Exn) (l : string) : Prop :=
  exists description, l = "✗ " +:+ description +:+ ": Error - " +:+ str_exn e.

(** the error lines of [test_elm327_info]: the protocol probe has a bare
    [except:] and a fixed text *)
Definition elm327_error_line (cmd : OBDCommand) (e : Exn) (l : string) : Prop :=
  (cmd = test_vin.protocol_cmd /\ l = "Could not determine current protocol") \/
  (exists description, l = description +:+ ": Error - " +:+ str_exn e).

(** the entry of [working_sensors] seen as the command it came from and the
    value it holds *)
Definition standard_answer (sensor : po420_honda_spec.Sensor) : OBDCommand * PyValue :=
  (commands sensor.1.1, sensor.2).

Definition honda_answer (sensor : po420_honda_spec.Sensor) : OBDCommand * PyValue :=
  (po420_honda_spec.honda_cmd sensor.1.1 sensor.1.2, sensor.2).

(** what one round of a probing loop of [test_all_o2_sensor_pids] leaves
    behind: the commands it asked, an error line after each failure, and the
    list [working] extended by the answers it got *)
Record round_ok {St} (answer_of : po420_honda_spec.Sensor -> OBDCommand * PyValue)
    (asked : list OBDCommand) (working : list po420_honda_spec.Sensor)
    (run : list Event * St * (Exn + list po420_honda_spec.Sensor)) : Prop :=
  { round_queries : queries run.1.1 = asked;
    round_failures : each_failure_printed o2_error_line run.1.1;
    round_result : exists found,
        run.2 = inr (working ++ found) /\ map answer_of found = answered run.1.1 }.


(** ** The sentences of the specification that the scripts do not follow *)

Module Claimed.

(** "stopping at the first result that is not Unsupported": once a query
    has come back with a value, no further query is sent *)
Definition stops_at_first_supported (t : list Event) : Prop :=
  forall t1 cmd value t2,
    t = t1 ++ Query cmd (inr (Some value)) :: t2 -> queries t2 = [].

(** "returned to the caller, never discarded without representation in the
    result": a run in which a query failed never returns what a run
    without any failure returns *)
Definition failures_represented {St A} (failing clean : list Event * St * (Exn + A))
    : Prop :=
  raised failing.1.1 -> ~ raised clean.1.1 -> failing.2 <> clean.2.


End Claimed.

(** ** Searching the command catalogue, in the words of the specification *)

Module Catalogue.

(** two characters that are the same letter up to case *)
Definition same_letter (a b : ascii) : Prop := PyStr.lower_char a = PyStr.lower_char b.

(** [piece] is [term] up to the case of its letters *)
Inductive matches : string -> string -> Prop :=
| matches_empty : matches EmptyString EmptyString
| matches_letter a b term piece :
    same_letter a b -> matches term piece -> matches (String a term) (String b piece).

(** [text] contains [term] case-insensitively *)
Definition contains_ignoring_case (term text : string) : Prop :=
  exists before piece after, text = before +:+ piece +:+ after /\ matches term piece.

(** the attributes of [obd.commands] that [search_commands] takes for
    commands: public ones that have a name and a description *)
Definition is_command (obd_commands : gmap string print_codes.Attr)
    (identity description : string) : Prop :=
  exists attr, obd_commands !! identity = Some attr /\
               PyStr.startswith "_" identity = false /\
               print_codes.has_name attr = true /\
               print_codes.desc attr = Some description.

(** the printed lines between the two header lines and the closing line *)
Definition report (results : list (string * string)) (search_term : string) : list string :=
  match results with
  | [] => [ "  No commands found containing '" +:+ search_term +:+ "'" ]
  | _ => map (fun r => print_codes.result_line r.1 r.2) results
  end.

(** the description [search_commands] prints for a name, the test its
    loop applies to a name, and the names and descriptions it prints *)
Definition description_of (obd_commands : gmap string print_codes.Attr)
    (name : string) : string :=
  match obd_commands !! name with
  | Some attr => default "" (print_codes.desc attr)
  | None => ""
  end.

Definition is_hit (obd_commands : gmap string print_codes.Attr)
    (search_term name : string) : bool :=
  negb (PyStr.startswith "_" name) &&
  match obd_commands !! name with
  | Some attr =>
      print_codes.has_name attr &&
      match print_codes.desc attr with
      | Some description =>
          PyStr.contains (PyStr.upper search_term) (PyStr.upper name)
          || PyStr.contains (PyStr.upper search_term) (PyStr.upper description)
      | None => false
      end
  | None => false
  end.

Definition hits (obd_commands : gmap string print_codes.Attr)
    (search_term : string) (names : list string) : list (string * string) :=
  map (fun name => (name, description_of obd_commands name))
      (List.filter (is_hit obd_commands search_term) names).

(** the lines [list_all_commands] prints for a category: nothing when it
    is empty, otherwise its title, a rule and one line per command *)
Definition section_lines (category : print_codes.Category)
    (rows : list (string * string)) : list string :=
  match rows with
  | [] => []
  | _ => (PyStr.nl +:+ PyStr.upper (print_codes.category_name category) +:+ " COMMANDS:")
         :: PyStr.repeat "-" 40
         :: map (fun r => print_codes.result_line r.1 r.2) rows
  end.

(** the name and the description of an item of [commands_dict] *)
Definition row (item : string * print_codes.Attr) : string * string :=
  (item.1, default "" (print_codes.desc item.2)).

End Catalogue.

(** ** The percent decoder *)

Module Decoders.

Inductive Decoded : Type :=
| Percent (value : float)
| DecodeError.

(** the integer value of a byte as a binary64 number (exact) *)
Definition float_of_byte (b : byte) : float :=
  PrimFloat.of_uint63 (Uint63.of_Z (Z.of_N (Byte.to_N b))).

(** Modelled from the spec: the percent decoder is [obd.decoders.percent]
    of the python-OBD library, which the scripts only name when they build
    a command; its code is not among the sources.  The specification gives
    the single-byte percent field the scaling value*100/255, in floating
    point, and makes a decoder fail with DecodeError when the payload does
    not have the expected length. *)
Definition decodePercent (payload : list byte) : Decoded :=
  match payload with
  | [b] => Percent (float_of_byte b * 100 / 255)%float
  | _ => DecodeError
  end.

(** the rational number a finite binary64 number stands for *)
Definition float_value (f : float) : option Q :=
  match Prim2SF f with
  | S754_zero _ => Some 0%Q
  | S754_finite sign m e =>
      let magnitude :=
        match e with
        | Z0 => Z.pos m # 1
        | Zpos p => Z.pos m * 2 ^ Z.pos p # 1
        | Zneg p => Z.pos m # 2 ^ p
        end in
      Some (if sign then Qopp magnitude else magnitude)
  | S754_infinity _ | S754_nan => None
  end.

(** b*100/255 as an exact rational *)
Definition exact_percent (b : byte) : Q := Z.of_N (Byte.to_N b) * 100 # 255.

(** the floating tolerance of the comparison *)
Definition tolerance : Q := 1 # 1000000000000.

End Decoders.

(** ** Proof automation *)

(** case analysis on a membership in a literal list, and the search for a
    member of a literal list *)
Ltac decompose_in H :=
  repeat (destruct H as [H|H]; [try discriminate H|]); try (destruct H; fail).

Ltac find_in := cbn [In]; repeat first [left; reflexivity | right].

Create HintDb py.
Create HintDb trace.

(** ** Events a run never causes *)

Section Always.
Context {St : Type}.

(** every event of every run of [m] satisfies [P], also when [m] raises *)
Definition always {A} (P : Event -> Prop) (m : M St A) : Prop :=
  forall s, Forall P (m s).1.1.

End Always.

(** the event is not a query of [cmd] *)
Definition not_query_of (cmd : OBDCommand) (ev : Event) : Prop :=
  forall outcome, ev <> Query cmd outcome.

(** the event is at most a query of one of [cmds] *)
Definition query_among (cmds : list OBDCommand) (ev : Event) : Prop :=
  forall cmd outcome, ev = Query cmd outcome -> In cmd cmds.

(** the queries that came back without a value *)
Definition is_silent (ev : Event) : option OBDCommand :=
  match ev with
  | Query cmd (inr None) => Some cmd
  | _ => None
  end.

Definition unanswered (t : list Event) : list OBDCommand := omap is_silent t.

(** the line of a trouble code in the reports of [read_dtcs] *)
Definition code_line (code : string * string) : string :=
  "  " +:+ code.1 +:+ ": " +:+ code.2.

(** the pending-codes command [read_dtcs] picks, if the library has one *)
Definition pending_command (has_command : string -> bool) : list OBDCommand :=
  if has_command "GET_PENDING_DTC" then [commands "GET_PENDING_DTC"]
  else if has_command "PENDING_DTC" then [commands "PENDING_DTC"]
  else [].

(** the lines [read_dtcs] prints for a list of trouble codes: a count and
    one line per code, or the line that says there are none *)
Definition codes_report (found_line : string -> string) (none_line : string)
    (codes : list (string * string)) : list string :=
  match codes with
  | [] => [none_line]
  | _ => found_line (str_of_nat (length codes)) :: map code_line codes
  end.

(** * Properties *)

(** ** Running computations *)

Section MonadFacts.
Context {St : Type}.
Implicit Types s : St.

Lemma queries_app (t1 t2 : list Event) : queries (t1 ++ t2) = queries t1 ++ queries t2.
Proof. apply omap_app. Qed.

Lemma printed_app (t1 t2 : list Event) : printed (t1 ++ t2) = printed t1 ++ printed t2.
Proof. apply omap_app. Qed.

Lemma bind_run {A B} (m : M St A) (f : A -> M St B) s :
  bind m f s =
    match (m s).2 with
    | inl e => ((m s).1.1, (m s).1.2, inl e)
    | inr a => ((m s).1.1 ++ (f a (m s).1.2).1.1, (f a (m s).1.2).1.2, (f a (m s).1.2).2)
    end.
Proof.
  unfold bind. destruct (m s) as [[t1 s1] [e|a]]; simpl; [reflexivity|].
  destruct (f a s1) as [[t2 s2] r]; reflexivity.
Qed.

Lemma try_except_run {A} (m : M St A) (h : Exn -> M St A) s :
  try_except m h s =
    match (m s).2 with
    | inl e => ((m s).1.1 ++ (h e (m s).1.2).1.1, (h e (m s).1.2).1.2, (h e (m s).1.2).2)
    | inr a => ((m s).1.1, (m s).1.2, inr a)
    end.
Proof.
  unfold try_except. destruct (m s) as [[t1 s1] [e|a]]; simpl; [|reflexivity].
  destruct (h e s1) as [[t2 s2] r]; reflexivity.
Qed.

Lemma catches_ret {A} (a : A) : catches (ret (St:=St) a).
Proof. intros s. exists a. reflexivity. Qed.

Lemma catches_emit ev : catches (emit (St:=St) ev).
Proof. intros s. exists tt. reflexivity. Qed.

Lemma catches_bind {A B} (m : M St A) (f : A -> M St B) :
  catches m -> (forall a, catches (f a)) -> catches (bind m f).
Proof.
  intros Hm Hf s. rewrite bind_run. destruct (Hm s) as [a Ha]. rewrite Ha.
  destruct (Hf a (m s).1.2) as [b Hb]. exists b. exact Hb.
Qed.

Lemma catches_try_except {A} (m : M St A) (h : Exn -> M St A) :
  (forall e, catches (h e)) -> catches (try_except m h).
Proof.
  intros Hh s. rewrite try_except_run. destruct (m s).2 as [e|a].
  - destruct (Hh e (m s).1.2) as [b Hb]. exists b. exact Hb.
  - exists a. reflexivity.
Qed.

Lemma catches_for_each {A} (l : list A) (body : A -> M St unit) :
  (forall x, catches (body x)) -> catches (for_each l body).
Proof.
  intros Hb. induction l as [|x l IH]; simpl.
  - apply catches_ret.
  - apply catches_bind; [apply Hb | intros _; exact IH].
Qed.

Lemma catches_for_acc {A B} (l : list A) (body : B -> A -> M St B) acc :
  (forall b x, catches (body b x)) -> catches (for_acc l acc body).
Proof.
  intros Hb. revert acc. induction l as [|x l IH]; intros acc; simpl.
  - apply catches_ret.
  - apply catches_bind; [apply Hb | intros acc'; apply IH].
Qed.

Lemma catches_for_break {A B} (l : list A) (body : B -> A -> M St (B + B)) acc :
  (forall b x, catches (body b x)) -> catches (for_break l acc body).
Proof.
  intros Hb. revert acc. induction l as [|x l IH]; intros acc; simpl.
  - apply catches_ret.
  - apply catches_bind; [apply Hb | intros [acc'|acc']; [apply catches_ret | apply IH]].
Qed.

Lemma asks_ret {A} (a : A) : asks (ret (St:=St) a) [].
Proof. intros s. reflexivity. Qed.

Lemma asks_print line : asks (print (St:=St) line) [].
Proof. intros s. reflexivity. Qed.

Lemma asks_bind {A B} (m : M St A) (f : A -> M St B) cs1 cs2 :
  asks m cs1 -> catches m -> (forall a, asks (f a) cs2) -> asks (bind m f) (cs1 ++ cs2).
Proof.
  intros Hm Hc Hf s. rewrite bind_run. destruct (Hc s) as [a Ha]. rewrite Ha. simpl.
  rewrite queries_app, Hm, Hf. reflexivity.
Qed.

Lemma asks_for_each {A} (l : list A) (body : A -> M St unit) (q : A -> list OBDCommand) :
  (forall x, asks (body x) (q x)) -> (forall x, catches (body x)) ->
  asks (for_each l body) (concat (map q l)).
Proof.
  intros Hq Hc. induction l as [|x l IH]; simpl.
  - apply asks_ret.
  - apply asks_bind; [apply Hq | apply Hc | intros _; exact IH].
Qed.

Lemma asks_for_acc {A B} (l : list A) (body : B -> A -> M St B)
    (q : A -> list OBDCommand) acc :
  (forall b x, asks (body b x) (q x)) -> (forall b x, catches (body b x)) ->
  asks (for_acc l acc body) (concat (map q l)).
Proof.
  intros Hq Hc. revert acc. induction l as [|x l IH]; intros acc; simpl.
  - apply asks_ret.
  - apply asks_bind; [apply Hq | apply Hc | intros acc'; apply IH].
Qed.

(** a guarded query: whatever the outcome, the command is sent once *)
Lemma asks_try_query {A} conn_query cmd (rest : option PyValue -> M St A)
    (h : Exn -> M St A) :
  (forall r, asks (rest r) []) -> (forall e, asks (h e) []) ->
  asks (try_except (bind (query conn_query cmd) rest) h) [cmd].
Proof.
  intros Hr Hh s. rewrite try_except_run, bind_run. unfold query.
  destruct (conn_query cmd s) as [[e|v] s']; cbn [fst snd].
  - rewrite queries_app, Hh. reflexivity.
  - pose proof (Hr v s') as Hq.
    destruct (rest v s') as [[t2 s2] [e|a]]; cbn [fst snd] in *.
    + rewrite !queries_app, Hh, Hq. reflexivity.
    + rewrite queries_app, Hq. reflexivity.
Qed.

Lemma concat_map_singleton {A B} (f : A -> B) (l : list A) :
  concat (map (fun x => [f x]) l) = map f l.
Proof. induction l as [|x l IH]; simpl; [reflexivity | rewrite IH; reflexivity]. Qed.

Lemma asks_py_lt v y : asks (py_lt (St:=St) v y) [].
Proof. intros s. destruct v; reflexivity. Qed.

Lemma asks_py_gt v y : asks (py_gt (St:=St) v y) [].
Proof. intros s. destruct v; reflexivity. Qed.

Lemma asks_py_abs v : asks (py_abs (St:=St) v) [].
Proof. intros s. destruct v; reflexivity. Qed.

(** a computation free of queries leaves an empty list of queries even
    when it is cut short by an exception *)
Lemma asks_bind_nil {A B} (m : M St A) (f : A -> M St B) :
  asks m [] -> (forall a, asks (f a) []) -> asks (bind m f) [].
Proof.
  intros Hm Hf s. rewrite bind_run. pose proof (Hm s) as Hq.
  destruct (m s).2 as [e|a]; simpl; [exact Hq|].
  rewrite queries_app, Hq, Hf. reflexivity.
Qed.

End MonadFacts.

#[local] Hint Resolve catches_ret catches_emit catches_bind catches_try_except
  catches_for_each catches_for_acc catches_for_break : py.
#[local] Hint Resolve asks_ret asks_print asks_py_lt asks_py_gt asks_py_abs
  asks_bind_nil : py.
#[local] Hint Extern 1 (catches (print _)) => apply catches_emit : py.
#[local] Hint Extern 1 (catches (sleep _)) => apply catches_emit : py.
#[local] Hint Extern 1 (catches close) => apply catches_emit : py.
#[local] Hint Extern 2 (catches (match ?x with _ => _ end)) => destruct x : py.
#[local] Hint Extern 2 (asks (match ?x with _ => _ end) _) => destruct x : py.
#[local] Hint Extern 3 (catches _) => progress intros : py.
#[local] Hint Extern 3 (asks _ _) => progress intros : py.

(** ** One pass over a list of commands (read_live_data, read_o2_sensors) *)

Section Passes.
Context {St : Type}.
Variable conn_query : OBDCommand -> St -> (Exn + option PyValue) * St.
Variable show : PyValue -> string.
Variable clock : string.
Variable has_command : string -> bool.

Lemma asks_analyze_voltage description voltage :
  asks (po4220V2.analyze_voltage (St:=St) description voltage) [].
Proof.
  unfold po4220V2.analyze_voltage.
  destruct (_ || _); auto 10 with py.
Qed.


Lemma read_live_data_loop_catches cmds :
  catches (elm327_tsx_reader.read_live_data_loop conn_query show cmds).
Proof.
  apply catches_for_each. intros [cmd description]. auto with py.
Qed.

Lemma read_o2_sensors_loop_asks cmds :
  asks (po4220V2.read_o2_sensors_loop conn_query show cmds) (map (fun c => c.1.1) cmds).
Proof.
  unfold po4220V2.read_o2_sensors_loop.
  rewrite <- concat_map_singleton.
  apply asks_for_each; intros [[cmd description] location].
  - apply asks_try_query; [|auto with py].
    intros [value|]; [|auto with py].
    apply asks_bind_nil; [auto with py|]. intros _. apply asks_analyze_voltage.
  - auto with py.
Qed.

Lemma read_o2_sensors_loop_catches cmds :
  catches (po4220V2.read_o2_sensors_loop conn_query show cmds).
Proof.
  apply catches_for_each. intros [[cmd description] location]. auto with py.
Qed.

(** the banner lines around a loop do not add or drop queries *)
Lemma asks_after_print {A} line (m : M St A) cs :
  asks m cs -> asks (print line;; m) cs.
Proof.
  intros Hm. change cs with ([] ++ cs).
  apply asks_bind; [apply asks_print | apply catches_emit | intros _; exact Hm].
Qed.

Lemma asks_before_print {A} (m : M St A) (k : M St unit) cs :
  asks m cs -> catches m -> asks k [] -> asks (m;; k) cs.
Proof.
  intros Hm Hc Hk. rewrite <- (app_nil_r cs).
  apply asks_bind; [exact Hm | exact Hc | intros _; exact Hk].
Qed.


Lemma read_o2_sensors_asks :
  asks (po4220V2.read_o2_sensors conn_query show has_command)
       (map (fun c => c.1.1) (po4220V2.o2_commands has_command)).
Proof.
  unfold po4220V2.read_o2_sensors.
  do 5 apply asks_after_print.
  apply asks_before_print;
    [apply read_o2_sensors_loop_asks | apply read_o2_sensors_loop_catches | auto 10 with py].
Qed.


End Passes.

(** a vehicle on which SPEED times out and nothing but RPM has a value:
    every command of the list is still queried, and the failure and the
    missing values are printed where they occurred *)
Example read_live_data_with_failures :
  let vehicle := Bench.vehicle [ ("RPM", inr (Some (VStr "850 rpm")));
                                 ("SPEED", inl (Exception "timeout")) ] in
  let run := elm327_tsx_reader.read_live_data vehicle Bench.show "12:00:00" 0%nat in
  queries run.1.1 = map fst elm327_tsx_reader.live_commands /\
  run.1.2 = 11%nat /\
  firstn 3 (skipn 5 (printed run.1.1))
  = [ "Engine RPM                    : 850 rpm";
      "Vehicle Speed                 : Error - timeout";
      "Throttle Position             : Not available" ].
Proof. cbn zeta. repeat split; vm_compute; reflexivity. Qed.

(** ** clear_dtcs *)

Section ClearDtcs.
Context {St : Type}.
Variable conn_query : OBDCommand -> St -> (Exn + option PyValue) * St.


End ClearDtcs.

Lemma lower_is_y (answer : string) :
  PyStr.lower answer = "y" <-> answer = "y" \/ answer = "Y".
Proof.
  split.
  - destruct answer as [|c [|c' rest]]; simpl; try discriminate.
    intros H. injection H as H.
    destruct c as [[] [] [] [] [] [] [] []]; vm_compute in H; try discriminate; auto.
  - intros [->| ->]; reflexivity.
Qed.


(** ** Comparisons of exact numbers *)

Lemma Qltb_lt (x y : Q) : Qltb x y = true <-> (x < y)%Q.
Proof.
  unfold Qltb. rewrite negb_true_iff. split.
  - intros H. apply Qnot_le_lt. intros Hle. apply Qle_bool_iff in Hle. congruence.
  - intros H. destruct (Qle_bool y x) eqn:E; [|reflexivity].
    apply Qle_bool_iff in E. exfalso. exact (Qlt_not_le _ _ H E).
Qed.

Lemma Qltb_ge (x y : Q) : Qltb x y = false <-> (y <= x)%Q.
Proof.
  unfold Qltb. rewrite negb_false_iff. apply Qle_bool_iff.
Qed.

(** ** The fuel-trim verdict of analyze_p0420_without_o2 *)

Section FuelTrim.
Context {St : Type}.
Variable conn_query : OBDCommand -> St -> (Exn + option PyValue) * St.
Variable show : PyValue -> string.

Lemma print_then_run {A} line (m : M St A) s :
  (print line;; m) s = (Print line :: (m s).1.1, (m s).1.2, (m s).2).
Proof.
  unfold bind, print, emit. destruct (m s) as [[t s'] [e|a]]; reflexivity.
Qed.

Lemma printed_print line (t : list Event) : printed (Print line :: t) = line :: printed t.
Proof. reflexivity. Qed.

Lemma printed_prints {A} (line : A -> string) (l : list A) :
  printed (map (fun x => Print (line x)) l) = map line l.
Proof. induction l as [|x l IH]; [reflexivity|]. cbn. f_equal. exact IH. Qed.

Lemma for_each_print_run (lines : list string) (s : St) :
  for_each lines print s = (map Print lines, s, inr tt).
Proof.
  induction lines as [|l lines IH]; [reflexivity|].
  cbn [for_each]. rewrite print_then_run, IH. reflexivity.
Qed.

(** the verdict block on two numbers: one line, by the two thresholds *)
Lemma fuel_mixture_run (short long : Q) (s : St) :
  po420_honda_spec.fuel_mixture (Some (VNum short)) (Some (VNum long)) s
  = ([Print (if Qltb (Qabs short + Qabs long) 10 then po420_honda_spec.mixture_excellent
             else if Qltb (Qabs short + Qabs long) 20 then po420_honda_spec.mixture_acceptable
             else po420_honda_spec.mixture_poor)], s, inr tt).
Proof.
  unfold po420_honda_spec.fuel_mixture, py_abs, py_add, py_lt, bind, ret, print, emit. cbn.
  destruct (Qltb (Qabs short + Qabs long) 10); cbn; [reflexivity|].
  destruct (Qltb (Qabs short + Qabs long) 20); reflexivity.
Qed.

(** the whole function, on any connection that answers the two trim
    queries with numbers: the readings, the verdict of the block, the
    closing text *)
Lemma analyze_p0420_without_o2_present (short long : Q) (s s1 s2 : St) :
  conn_query (commands "SHORT_FUEL_TRIM_1") s = (inr (Some (VNum short)), s1) ->
  conn_query (commands "LONG_FUEL_TRIM_1") s1 = (inr (Some (VNum long)), s2) ->
  let run := po420_honda_spec.analyze_p0420_without_o2 conn_query show s in
  run.2 = inr tt /\
  queries run.1.1 = [commands "SHORT_FUEL_TRIM_1"; commands "LONG_FUEL_TRIM_1"] /\
  skipn 7 (printed run.1.1)
  = [ "Short Term Fuel Trim: " +:+ show (VNum short);
      "Long Term Fuel Trim:  " +:+ show (VNum long) ]
    ++ printed (po420_honda_spec.fuel_mixture
                  (Some (VNum short)) (Some (VNum long)) s2).1.1
    ++ po420_honda_spec.diagnosis_text.
Proof.
  intros Hshort Hlong. cbn zeta. unfold po420_honda_spec.analyze_p0420_without_o2.
  rewrite !print_then_run. cbn [fst snd].
  unfold bind, try_except, query. rewrite Hshort, Hlong.
  unfold print, emit. rewrite fuel_mixture_run, for_each_print_run.
  cbn [fst snd app show_opt].
  split; [reflexivity | split; [reflexivity|]].
  rewrite !printed_print. cbn [skipn].
  do 2 change (printed (Query ?c ?r :: ?t)) with (printed t).
  rewrite !printed_print, (printed_prints (fun l => l)), map_id. reflexivity.
Qed.



End FuelTrim.


(** the whole function on a vehicle reporting 0% and -4.7% prints the
    Normal line between the two readings and the closing text *)
Example analyze_p0420_without_o2_excellent :
  let vehicle := Bench.vehicle [ ("SHORT_FUEL_TRIM_1", inr (Some (VNum 0)));
                                 ("LONG_FUEL_TRIM_1", inr (Some (VNum (-4.7)))) ] in
  let run := po420_honda_spec.analyze_p0420_without_o2 vehicle Bench.show 0%nat in
  queries run.1.1 = [commands "SHORT_FUEL_TRIM_1"; commands "LONG_FUEL_TRIM_1"] /\
  skipn 7 (printed run.1.1)
    = [ "Short Term Fuel Trim: <number>"; "Long Term Fuel Trim:  <number>";
        po420_honda_spec.mixture_excellent ] ++ po420_honda_spec.diagnosis_text.
Proof. split; vm_compute; reflexivity. Qed.

(** ** Absent and partial inputs *)

Section AbsentInputs.
Context {St : Type}.
Variable conn_query : OBDCommand -> St -> (Exn + option PyValue) * St.
Variable show : PyValue -> string.
Variable has_command : string -> bool.

Lemma analyze_p0420_without_o2_catches :
  catches (po420_honda_spec.analyze_p0420_without_o2 conn_query show).
Proof. unfold po420_honda_spec.analyze_p0420_without_o2. auto 20 with py. Qed.

Lemma read_fuel_trim_loop_catches cmds :
  catches (po4220V2.read_fuel_trim_loop conn_query show cmds).
Proof.
  apply catches_for_each. intros [cmd description]. auto with py.
Qed.

Lemma read_fuel_trim_catches :
  catches (po4220V2.read_fuel_trim conn_query show has_command).
Proof.
  unfold po4220V2.read_fuel_trim.
  auto 30 using read_fuel_trim_loop_catches with py.
Qed.

Lemma read_o2_sensors_catches :
  catches (po4220V2.read_o2_sensors conn_query show has_command).
Proof.
  unfold po4220V2.read_o2_sensors.
  auto 30 using read_o2_sensors_loop_catches with py.
Qed.

Lemma read_catalyst_temp_loop_catches names :
  catches (po4220V2.read_catalyst_temp_loop conn_query show has_command names).
Proof.
  apply catches_for_break. intros found cmd_name.
  unfold po4220V2.read_catalyst_temp_body.
  destruct (has_command cmd_name); auto with py.
Qed.

Lemma read_catalyst_temp_catches :
  catches (po4220V2.read_catalyst_temp conn_query show has_command).
Proof.
  unfold po4220V2.read_catalyst_temp.
  auto 30 using read_catalyst_temp_loop_catches with py.
Qed.

(** C7, as the code has it. No classifier lets an exception escape,
    whatever the connection answers (values of the wrong kind included):
    [analyze_p0420_without_o2], [read_fuel_trim], [read_o2_sensors] and
    [read_catalyst_temp] always return normally.  When a trim is absent the
    verdict block of [analyze_p0420_without_o2] prints nothing at all and
    [read_fuel_trim] prints nothing for that trim: the classification is
    skipped, no Unknown is announced.  When an O2 response has no value
    [read_o2_sensors] prints "Not available" for that sensor. *)
Theorem classifiers_never_raise :
  (catches (po420_honda_spec.analyze_p0420_without_o2 conn_query show) /\
   catches (po4220V2.read_fuel_trim conn_query show has_command) /\
   catches (po4220V2.read_o2_sensors conn_query show has_command) /\
   catches (po4220V2.read_catalyst_temp conn_query show has_command)) /\
  (forall stft ltft (s : St), stft = None \/ ltft = None ->
     po420_honda_spec.fuel_mixture stft ltft s = ([], s, inr tt)) /\
  (forall cmd description s s', conn_query cmd s = (inr None, s') ->
     po4220V2.read_fuel_trim_loop conn_query show [(cmd, description)] s
     = ([Query cmd (inr None)], s', inr tt)) /\
  (forall cmd description location s s', conn_query cmd s = (inr None, s') ->
     po4220V2.read_o2_sensors_loop conn_query show [(cmd, description, location)] s
     = ([Query cmd (inr None);
         Print (PyStr.ljust 35 description +:+ ": Not available")], s', inr tt)).
Proof.
  split; [|split; [|split]].
  - auto using analyze_p0420_without_o2_catches, read_fuel_trim_catches,
      read_o2_sensors_catches, read_catalyst_temp_catches.
  - intros stft ltft s [-> | ->]; [reflexivity | destruct stft; reflexivity].
  - intros cmd description s s' H.
    unfold po4220V2.read_fuel_trim_loop, for_each, bind, try_except, query.
    rewrite H. reflexivity.
  - intros cmd description location s s' H.
    unfold po4220V2.read_o2_sensors_loop, for_each, bind, try_except, query.
    rewrite H. reflexivity.
Qed.

End AbsentInputs.

(** a vehicle without any answer: nothing escapes and nothing is classified *)
Lemma classifiers_never_raise_witness :
  po420_honda_spec.fuel_mixture None (Some (VNum (-3))) 0%nat = ([], 0%nat, inr tt) /\
  po4220V2.read_fuel_trim_loop (Bench.vehicle []) Bench.show
    [(commands "SHORT_FUEL_TRIM_1", "Short Term Fuel Trim Bank 1")] 0%nat
  = ([Query (commands "SHORT_FUEL_TRIM_1") (inr None)], 1%nat, inr tt) /\
  po4220V2.read_o2_sensors_loop (Bench.vehicle []) Bench.show
    [(commands "O2_B1S1", "Bank 1 Sensor 1 (Upstream/Pre-Cat)", "Pre-catalytic converter")]
    0%nat
  = ([Query (commands "O2_B1S1") (inr None);
      Print (PyStr.ljust 35 "Bank 1 Sensor 1 (Upstream/Pre-Cat)" +:+ ": Not available")],
     1%nat, inr tt).
Proof.
  pose proof (classifiers_never_raise (Bench.vehicle []) Bench.show Bench.all_commands)
    as [_ [Htrim [Hfuel Ho2]]].
  split; [|split].
  - apply Htrim. left. reflexivity.
  - apply Hfuel. reflexivity.
  - apply Ho2. reflexivity.
Defined.

(** C7 as stated fails: with the short-term trim absent and the long-term
    trim at -3 the verdict block announces nothing, and the whole function
    goes from the two readings straight to its closing text. *)
Lemma absent_trim_announces_no_unknown :
  ~ Spec.announces_a_verdict
      (po420_honda_spec.fuel_mixture (St:=nat) None (Some (VNum (-3))) 0%nat) /\
  (let vehicle := Bench.vehicle [ ("LONG_FUEL_TRIM_1", inr (Some (VNum (-3)))) ] in
   skipn 7 (printed
              (po420_honda_spec.analyze_p0420_without_o2 vehicle Bench.show 0%nat).1.1)
   = [ "Short Term Fuel Trim: None"; "Long Term Fuel Trim:  <number>" ]
     ++ po420_honda_spec.diagnosis_text).
Proof.
  split.
  - intros H. apply H. reflexivity.
  - vm_compute. reflexivity.
Qed.

(** ** The O2 voltage analysis of read_o2_sensors *)


(** the descriptions [read_o2_sensors] uses put sensor 1 upstream and
    sensor 2 downstream *)
Example o2_positions :
  map (fun c => Spec.is_upstream c.1.2) (po4220V2.o2_commands Bench.all_commands)
  = [true; false; true; false].
Proof. vm_compute. reflexivity. Qed.

Section O2Voltage.
Context {St : Type}.





End O2Voltage.



(** ** Probing the O2 sensor candidates (test_all_o2_sensor_pids) *)

Lemma answered_app (t1 t2 : list Event) : answered (t1 ++ t2) = answered t1 ++ answered t2.
Proof. apply omap_app. Qed.

Lemma each_failure_printed_app line (t1 t2 : list Event) :
  each_failure_printed line t1 -> each_failure_printed line t2 ->
  each_failure_printed line (t1 ++ t2).
Proof.
  intros H1 H2. induction t1 as [|ev t1 IH]; [exact H2|].
  destruct ev as [cmd [e|v]| | | |]; simpl in *; auto.
  destruct H1 as [(l & Hl & Hline) H1]. split; [|auto].
  exists l. split; [|exact Hline].
  destruct t1; [discriminate | exact Hl].
Qed.

Lemma queries_print line (t : list Event) : queries (Print line :: t) = queries t.
Proof. reflexivity. Qed.

Lemma answered_print line (t : list Event) : answered (Print line :: t) = answered t.
Proof. reflexivity. Qed.

Section O2Probe.
Context {St : Type}.
Variable conn_query : OBDCommand -> St -> (Exn + option PyValue) * St.
Variable show : PyValue -> string.
Variable has_command : string -> bool.

Local Abbreviation honda_body := (po420_honda_spec.test_honda_body conn_query show).
Local Abbreviation honda_loop := (po420_honda_spec.test_honda_loop conn_query show).
Local Abbreviation standard_body := (po420_honda_spec.test_standard_body conn_query show has_command).
Local Abbreviation standard_loop := (po420_honda_spec.test_standard_loop conn_query show has_command).

Lemma test_honda_body_ok working pid description s :
  round_ok honda_answer [po420_honda_spec.honda_cmd pid description] working
    (honda_body working (pid, description) s).
Proof.
  unfold po420_honda_spec.test_honda_body, try_except, bind, query, print, emit, ret.
  destruct (conn_query _ s) as [[e|[value|]] s']; cbn.
  - split; cbn; [reflexivity | | exists []; rewrite app_nil_r; split; reflexivity].
    split; [|exact I]. eexists. split; [reflexivity|]. eexists. reflexivity.
  - split; cbn; [reflexivity | exact I |].
    exists [(pid, description, value)]. split; reflexivity.
  - split; cbn; [reflexivity | exact I |].
    exists []. rewrite app_nil_r. split; reflexivity.
Qed.

Lemma test_standard_body_ok working cmd_name description s :
  round_ok standard_answer
    (if has_command cmd_name then [commands cmd_name] else []) working
    (standard_body working (cmd_name, description) s).
Proof.
  unfold po420_honda_spec.test_standard_body, try_except, bind, query, print, emit, ret.
  destruct (has_command cmd_name).
  - destruct (conn_query _ s) as [[e|[value|]] s']; cbn.
    + split; cbn; [reflexivity | | exists []; rewrite app_nil_r; split; reflexivity].
      split; [|exact I]. eexists. split; [reflexivity|]. eexists. reflexivity.
    + split; cbn; [reflexivity | exact I |].
      exists [(cmd_name, description, value)]. split; reflexivity.
    + split; cbn; [reflexivity | exact I |].
      exists []. rewrite app_nil_r. split; reflexivity.
  - cbn. split; cbn; [reflexivity | exact I |].
    exists []. rewrite app_nil_r. split; reflexivity.
Qed.

(** rounds compose: a loop whose every round is well behaved is well
    behaved as a whole *)
Lemma for_acc_rounds answer_of (body : list po420_honda_spec.Sensor -> string * string ->
                                       M St (list po420_honda_spec.Sensor))
    (asked : string * string -> list OBDCommand) :
  (forall working entry s, round_ok answer_of (asked entry) working (body working entry s)) ->
  forall pids working s,
    round_ok answer_of (concat (map asked pids)) working (for_acc pids working body s).
Proof.
  intros Hbody pids. induction pids as [|entry pids IH]; intros working s.
  - split; cbn; [reflexivity | exact I |].
    exists []. rewrite app_nil_r. split; reflexivity.
  - cbn [for_acc map concat]. rewrite bind_run.
    destruct (Hbody working entry s) as [Hq Hf (found & Hr & Ha)].
    rewrite Hr.
    destruct (IH (working ++ found) (body working entry s).1.2)
      as [Hq' Hf' (found' & Hr' & Ha')].
    split; cbn [fst snd].
    + rewrite queries_app, Hq, Hq'. reflexivity.
    + apply each_failure_printed_app; assumption.
    + exists (found ++ found'). rewrite Hr', answered_app, map_app, Ha, Ha', app_assoc.
      split; reflexivity.
Qed.

Lemma test_honda_loop_ok pids working s :
  round_ok honda_answer (map (fun p => po420_honda_spec.honda_cmd p.1 p.2) pids) working
    (honda_loop pids working s).
Proof.
  rewrite <- concat_map_singleton.
  apply for_acc_rounds. intros w [pid description] s'. apply test_honda_body_ok.
Qed.

Lemma test_standard_loop_ok pids working s :
  round_ok standard_answer (map commands (filter (fun n => has_command n) (map fst pids)))
    working (standard_loop pids working s).
Proof.
  replace (map commands (filter (fun n => has_command n) (map fst pids)))
    with (concat (map (fun p : string * string =>
                         if has_command p.1 then [commands p.1] else []) pids)).
  - apply for_acc_rounds. intros w [cmd_name description] s'.
    apply test_standard_body_ok.
  - induction pids as [|[n d] pids IH]; [reflexivity|].
    cbn [map concat fst]. rewrite IH, filter_cons.
    destruct (has_command n) eqn:E; cbn.
    + destruct (decide (true)) as [_|[]]; [reflexivity | exact I].
    + destruct (decide (false)) as [[]|_]. reflexivity.
Qed.

Lemma test_all_o2_sensor_pids_ok s :
  let run := po420_honda_spec.test_all_o2_sensor_pids conn_query show has_command s in
  queries run.1.1
  = map commands (filter (fun n => has_command n)
                         (map fst po420_honda_spec.standard_pids))
    ++ map (fun p => po420_honda_spec.honda_cmd p.1 p.2)
           po420_honda_spec.honda_specific_pids /\
  each_failure_printed o2_error_line run.1.1 /\
  exists standard honda,
    run.2 = inr (standard ++ honda) /\
    map standard_answer standard ++ map honda_answer honda = answered run.1.1.
Proof.
  cbn zeta. unfold po420_honda_spec.test_all_o2_sensor_pids.
  rewrite !print_then_run. cbn [fst snd].
  rewrite bind_run.
  destruct (test_standard_loop_ok po420_honda_spec.standard_pids [] s)
    as [Hq Hf (standard & Hr & Ha)].
  rewrite Hr, !print_then_run. cbn [fst snd app].
  rewrite bind_run.
  match goal with
  | |- context [po420_honda_spec.test_honda_loop _ _ ?pids ?w ?s'] =>
      destruct (test_honda_loop_ok pids w s') as [Hq' Hf' (honda & Hr' & Ha')]
  end.
  rewrite Hr'. cbn [fst snd ret]. rewrite app_nil_r.
  split; [|split].
  - rewrite !queries_print, queries_app, !queries_print, Hq, Hq'. reflexivity.
  - cbn [each_failure_printed].
    apply each_failure_printed_app; [exact Hf | exact Hf'].
  - exists standard, honda. split; [reflexivity|].
    rewrite !answered_print, answered_app, !answered_print, Ha, Ha'. reflexivity.
Qed.

Lemma nothing_answered_nothing_found
    (answer_of : po420_honda_spec.Sensor -> OBDCommand * PyValue) asked working
    (run : list Event * St * (Exn + list po420_honda_spec.Sensor)) :
  round_ok answer_of asked working run -> answered run.1.1 = [] -> run.2 = inr working.
Proof.
  intros [_ _ (found & Hr & Ha)] Hnone. rewrite Hnone in Ha.
  apply map_eq_nil in Ha. subst found. rewrite app_nil_r in Hr. exact Hr.
Qed.

(** C3, as the code has it. For every ordered candidate list the probing
    loops of [test_all_o2_sensor_pids] send a query for every candidate, in
    the given order, whatever the earlier results (a standard name is
    skipped only when [obd.commands] lacks it): a candidate that answers
    does not stop the later ones.  What is returned is the list of all
    candidates whose response carried a value, in query order, so its first
    entry is the first candidate that answered; when no candidate answered
    the list comes back as it was, empty for the function itself. *)
Theorem probing_queries_every_candidate :
  (forall pids working s,
     let run := honda_loop pids working s in
     queries run.1.1 = map (fun p => po420_honda_spec.honda_cmd p.1 p.2) pids /\
     (exists found, run.2 = inr (working ++ found) /\
                    map honda_answer found = answered run.1.1) /\
     (answered run.1.1 = [] -> run.2 = inr working)) /\
  (forall pids working s,
     let run := standard_loop pids working s in
     queries run.1.1
     = map commands (filter (fun n => has_command n) (map fst pids)) /\
     (exists found, run.2 = inr (working ++ found) /\
                    map standard_answer found = answered run.1.1) /\
     (answered run.1.1 = [] -> run.2 = inr working)) /\
  (forall s,
     let run := po420_honda_spec.test_all_o2_sensor_pids conn_query show has_command s in
     queries run.1.1
     = map commands (filter (fun n => has_command n)
                            (map fst po420_honda_spec.standard_pids))
       ++ map (fun p => po420_honda_spec.honda_cmd p.1 p.2)
              po420_honda_spec.honda_specific_pids /\
     (exists standard honda,
         run.2 = inr (standard ++ honda) /\
         map standard_answer standard ++ map honda_answer honda = answered run.1.1) /\
     (answered run.1.1 = [] -> run.2 = inr [])).
Proof.
  split; [|split].
  - intros pids working s. pose proof (test_honda_loop_ok pids working s) as H.
    cbn zeta. split; [apply H | split; [apply H|]].
    eapply nothing_answered_nothing_found, H.
  - intros pids working s. pose proof (test_standard_loop_ok pids working s) as H.
    cbn zeta. split; [apply H | split; [apply H|]].
    eapply nothing_answered_nothing_found, H.
  - intros s. destruct (test_all_o2_sensor_pids_ok s) as (Hq & _ & standard & honda & Hr & Ha).
    cbn zeta. split; [exact Hq | split; [eauto|]].
    intros Hnone. rewrite Hnone in Ha. apply app_eq_nil in Ha as [Hs Hh].
    apply map_eq_nil in Hs, Hh. subst. exact Hr.
Qed.

End O2Probe.

(** the candidates A, B, C of the specification's example: A has no value,
    B answers 5 and C answers 9 *)
Lemma probing_queries_every_candidate_witness :
  (po420_honda_spec.test_honda_loop (Bench.vehicle []) Bench.show
     [("A", "candidate A"); ("B", "candidate B")] [] 0%nat).2 = inr [] /\
  (po420_honda_spec.test_standard_loop (Bench.vehicle []) Bench.show Bench.all_commands
     po420_honda_spec.standard_pids [] 0%nat).2 = inr [] /\
  (po420_honda_spec.test_all_o2_sensor_pids (Bench.vehicle []) Bench.show
     Bench.all_commands 0%nat).2 = inr [].
Proof.
  pose proof (probing_queries_every_candidate (Bench.vehicle []) Bench.show
                Bench.all_commands) as [Hhonda [Hstandard Hall]].
  split; [|split].
  - apply (Hhonda [("A", "candidate A"); ("B", "candidate B")] [] 0%nat). reflexivity.
  - apply (Hstandard po420_honda_spec.standard_pids [] 0%nat). reflexivity.
  - apply (Hall 0%nat). reflexivity.
Defined.

(** C3 as stated fails: over the candidates A (no value), B (5), C (9) the
    loop does not stop at B; it queries C as well and returns both B and C. *)
Lemma probing_does_not_stop_at_first :
  let vehicle := Bench.vehicle [ ("B", inr (Some (VNum 5))); ("C", inr (Some (VNum 9))) ] in
  let run := po420_honda_spec.test_honda_loop vehicle Bench.show
               [("A", "candidate A"); ("B", "candidate B"); ("C", "candidate C")] [] 0%nat in
  ~ Claimed.stops_at_first_supported run.1.1 /\
  queries run.1.1 = [ po420_honda_spec.honda_cmd "A" "candidate A";
                      po420_honda_spec.honda_cmd "B" "candidate B";
                      po420_honda_spec.honda_cmd "C" "candidate C" ] /\
  run.2 = inr [ ("B", "candidate B", VNum 5); ("C", "candidate C", VNum 9) ].
Proof.
  cbn zeta. split; [|split; vm_compute; reflexivity].
  intros H.
  specialize (H [ Query (po420_honda_spec.honda_cmd "A" "candidate A") (inr None);
                  Print "✗ candidate A: No response" ]
                (po420_honda_spec.honda_cmd "B" "candidate B") (VNum 5)
                [ Print "✓ candidate B: <number>";
                  Query (po420_honda_spec.honda_cmd "C" "candidate C") (inr (Some (VNum 9)));
                  Print "✓ candidate C: <number>" ]).
  discriminate H. vm_compute. reflexivity.
Qed.

(** ** The VIN diagnostic (test_vin.py) *)



Section VinProbe.
Context {St : Type}.
Variable conn_query : OBDCommand -> St -> (Exn + option PyValue) * St.
Variable show : PyValue -> string.
Variable has_command : string -> bool.

Local Abbreviation raw_requests :=
  (map (fun p => test_vin.raw_vin_cmd p.1 p.2) test_vin.vin_pids).
Local Abbreviation adapter_requests :=
  [test_vin.protocol_cmd; commands "ELM_VERSION"; commands "ELM_VOLTAGE"].





Lemma test_elm327_info_catches : catches (test_vin.test_elm327_info conn_query show).
Proof.
  unfold test_vin.test_elm327_info. auto 20 with py.
Qed.




Lemma test_elm327_info_failures s :
  each_failure_printed elm327_error_line (test_vin.test_elm327_info conn_query show s).1.1.
Proof.
  unfold test_vin.test_elm327_info.
  rewrite !print_then_run. cbn [fst snd each_failure_printed].
  unfold test_vin.info_commands, for_each.
  unfold bind, try_except, query, print, emit, ret.
  destruct (conn_query test_vin.protocol_cmd s) as [[e0|v0] s0];
    [|destruct (truthy v0)]; cbn;
    destruct (conn_query (commands "ELM_VERSION") s0) as [[e1|[v1|]] s1]; cbn;
    destruct (conn_query (commands "ELM_VOLTAGE") s1) as [[e2|[v2|]] s2]; cbn;
    repeat first
      [ exact I
      | split
      | eexists; split; [reflexivity|];
        first [ left; split; reflexivity | right; eexists; reflexivity ] ].
Qed.


Lemma catches_unit (m : M St unit) s : catches m -> (m s).2 = inr tt.
Proof. intros H. destruct (H s) as [[] Ha]. exact Ha. Qed.

Lemma try_finally_run {A} (m : M St A) (final : M St unit) s :
  catches final ->
  try_finally m final s
  = ((m s).1.1 ++ (final (m s).1.2).1.1, (final (m s).1.2).1.2, (m s).2).
Proof.
  intros Hf. unfold try_finally. destruct (m s) as [[t1 s1] r]. cbn [fst snd].
  pose proof (catches_unit final s1 Hf) as H.
  destruct (final s1) as [[t2 s2] [e|[]]]; [discriminate H | reflexivity].
Qed.





End VinProbe.



(** ** Failures during a query *)

Section Failures.
Context {St : Type}.
Variable conn_query : OBDCommand -> St -> (Exn + option PyValue) * St.
Variable show : PyValue -> string.
Variable has_command : string -> bool.

(** C8, as the code has it. A failure of a query never leaves the
    function that issued it: [test_all_o2_sensor_pids] and
    [test_elm327_info] always return normally.  The failure is reported on
    the console only: each query that raised is immediately followed by a
    printed line, which carries the text of the exception except for the
    protocol probe of [test_elm327_info], whose bare [except:] prints a
    fixed text.  The value [test_all_o2_sensor_pids] returns lists the
    answered queries and nothing else. *)
Theorem failures_printed_not_returned :
  (forall s,
     let run := po420_honda_spec.test_all_o2_sensor_pids conn_query show has_command s in
     each_failure_printed o2_error_line run.1.1 /\
     exists standard honda,
       run.2 = inr (standard ++ honda) /\
       map standard_answer standard ++ map honda_answer honda = answered run.1.1) /\
  (forall s,
     let run := test_vin.test_elm327_info conn_query show s in
     each_failure_printed elm327_error_line run.1.1 /\ run.2 = inr tt).
Proof.
  split; intros s; cbn zeta.
  - destruct (test_all_o2_sensor_pids_ok conn_query show has_command s) as (_ & Hf & Hr).
    split; assumption.
  - split; [apply test_elm327_info_failures|].
    apply catches_unit, test_elm327_info_catches.
Qed.

End Failures.

(** C8 as stated fails: a vehicle on which the raw request 0115 times out
    and a vehicle that merely has no value for it make
    [test_all_o2_sensor_pids] return the same thing, so the failure is not
    represented in what the caller gets; and [test_elm327_info] prints the
    same lines whatever exception the protocol probe raised. *)
Lemma failure_absent_from_result :
  let failing := Bench.vehicle [ ("0115", inl (Exception "timeout")) ] in
  let clean := Bench.vehicle [] in
  ~ Claimed.failures_represented
      (po420_honda_spec.test_all_o2_sensor_pids failing Bench.show Bench.all_commands 0%nat)
      (po420_honda_spec.test_all_o2_sensor_pids clean Bench.show Bench.all_commands 0%nat) /\
  printed (test_vin.test_elm327_info
             (Bench.vehicle [ ("ATDP", inl (Exception "timeout")) ]) Bench.show 0%nat).1.1
  = printed (test_vin.test_elm327_info
               (Bench.vehicle [ ("ATDP", inl (Exception "port closed")) ]) Bench.show 0%nat).1.1.
Proof.
  cbn zeta. split; [|vm_compute; reflexivity].
  intros H. apply H.
  - exists (po420_honda_spec.honda_cmd "0115" "O2 Bank 1 Sensor 2 (Honda Format)"),
      (Exception "timeout").
    vm_compute. find_in.
  - intros (cmd & e & Hin). vm_compute in Hin. decompose_in Hin.
  - vm_compute. reflexivity.
Qed.

(** ** Strings: containment and case *)

Lemma append_cons (c : ascii) (a b : string) : String c a +:+ b = String c (a +:+ b).
Proof. reflexivity. Qed.

Lemma append_assoc (a b c : string) : (a +:+ b) +:+ c = a +:+ (b +:+ c).
Proof.
  induction a as [|x a IH]; [reflexivity|]. rewrite !append_cons, IH. reflexivity.
Qed.

Lemma startswith_spec (p s : string) :
  PyStr.startswith p s = true <-> exists rest, s = p +:+ rest.
Proof.
  revert s. induction p as [|a p IH]; intros s; simpl.
  - split; [intros _; exists s; reflexivity | reflexivity].
  - destruct s as [|b s]; [split; [discriminate | intros [rest H]; discriminate H]|].
    destruct (Ascii.eqb_spec a b) as [->|Hne].
    + rewrite IH. split; intros [rest H]; exists rest; [rewrite H; reflexivity|].
      injection H as H. exact H.
    + split; [discriminate | intros [rest H]; injection H as H1 H2; congruence].
Qed.

Lemma contains_spec (needle hay : string) :
  PyStr.contains needle hay = true <-> exists before after, hay = before +:+ needle +:+ after.
Proof.
  induction hay as [|c hay IH].
  - cbn [PyStr.contains]. rewrite orb_false_r, startswith_spec. split.
    + intros [rest H]. exists EmptyString, rest. exact H.
    + intros (before & after & H). destruct before as [|x before]; [|discriminate H].
      exists after. exact H.
  - cbn [PyStr.contains]. rewrite orb_true_iff, startswith_spec, IH. split.
    + intros [[rest H] | (before & after & H)].
      * exists EmptyString, rest. exact H.
      * exists (String c before), after. rewrite H. reflexivity.
    + intros (before & after & H). destruct before as [|x before].
      * left. exists after. exact H.
      * right. injection H as _ H. exists before, after. exact H.
Qed.

Lemma lower_upper_char (a : ascii) : PyStr.lower_char (PyStr.upper_char a) = PyStr.lower_char a.
Proof. destruct a as [[] [] [] [] [] [] [] []]; reflexivity. Qed.

Lemma upper_lower_char (a : ascii) : PyStr.upper_char (PyStr.lower_char a) = PyStr.upper_char a.
Proof. destruct a as [[] [] [] [] [] [] [] []]; reflexivity. Qed.

Lemma same_letter_upper (a b : ascii) :
  Catalogue.same_letter a b <-> PyStr.upper_char a = PyStr.upper_char b.
Proof.
  unfold Catalogue.same_letter. split; intros H.
  - rewrite <- (upper_lower_char a), <- (upper_lower_char b), H. reflexivity.
  - rewrite <- (lower_upper_char a), <- (lower_upper_char b), H. reflexivity.
Qed.

Lemma matches_upper (term piece : string) :
  Catalogue.matches term piece <-> PyStr.upper piece = PyStr.upper term.
Proof.
  split.
  - induction 1 as [|a b term piece Hab _ IH]; [reflexivity|].
    simpl. apply same_letter_upper in Hab. rewrite IH, Hab. reflexivity.
  - revert piece. induction term as [|a term IH]; intros [|b piece] H; simpl in H;
      try discriminate H; [constructor|].
    injection H as Hab H. constructor; [apply same_letter_upper; auto | auto].
Qed.

Lemma upper_append (a b : string) : PyStr.upper (a +:+ b) = PyStr.upper a +:+ PyStr.upper b.
Proof.
  induction a as [|x a IH]; [reflexivity|].
  rewrite append_cons. simpl. rewrite IH. reflexivity.
Qed.

Lemma upper_split (text x y : string) :
  PyStr.upper text = x +:+ y ->
  exists t1 t2, text = t1 +:+ t2 /\ PyStr.upper t1 = x /\ PyStr.upper t2 = y.
Proof.
  revert text. induction x as [|c x IH]; intros text H.
  - exists EmptyString, text. auto.
  - destruct text as [|d text]; [discriminate H|]. simpl in H. injection H as Hc H.
    destruct (IH text H) as (t1 & t2 & -> & H1 & H2).
    exists (String d t1), t2. simpl. rewrite H1, Hc. auto.
Qed.

(** the test [search_term.upper() in text.upper()] is containment up to case *)
Lemma contains_upper_spec (term text : string) :
  PyStr.contains (PyStr.upper term) (PyStr.upper text) = true
  <-> Catalogue.contains_ignoring_case term text.
Proof.
  rewrite contains_spec. unfold Catalogue.contains_ignoring_case. split.
  - intros (before & after & H).
    apply upper_split in H as (t1 & rest & -> & H1 & H).
    apply upper_split in H as (piece & t3 & -> & H2 & H3).
    exists t1, piece, t3. split; [reflexivity | apply matches_upper; exact H2].
  - intros (before & piece & after & -> & H%matches_upper).
    exists (PyStr.upper before), (PyStr.upper after).
    rewrite !upper_append, H. reflexivity.
Qed.

(** ** search_commands *)

Section Search.
Context {St : Type}.
Variable obd_commands : gmap string print_codes.Attr.
Variable search_term : string.



Lemma dir_lookup (name : string) :
  name ∈ print_codes.dir obd_commands <-> is_Some (obd_commands !! name).
Proof.
  unfold print_codes.dir. rewrite merge_sort_Permutation, list_elem_of_fmap. split.
  - intros ([k attr] & -> & H%elem_of_map_to_list). exists attr. exact H.
  - intros [attr H]. exists (name, attr). split; [reflexivity|].
    apply elem_of_map_to_list. exact H.
Qed.

Local Abbreviation description_of := (Catalogue.description_of obd_commands).
Local Abbreviation is_hit := (Catalogue.is_hit obd_commands search_term).
Local Abbreviation hits := (Catalogue.hits obd_commands search_term).

Lemma search_body_run (name : string) (found : bool) (s : St) :
  is_Some (obd_commands !! name) ->
  print_codes.search_body obd_commands search_term found name s
  = ((if is_hit name
      then [Print (print_codes.result_line name (description_of name))] else []),
     s, inr (found || is_hit name)).
Proof.
  intros [attr Hattr].
  unfold print_codes.search_body, is_hit, description_of. rewrite Hattr.
  destruct (PyStr.startswith "_" name); cbn [negb andb];
    [rewrite orb_false_r; reflexivity|].
  destruct (print_codes.has_name attr); cbn [andb];
    [|rewrite orb_false_r; reflexivity].
  destruct (print_codes.desc attr) as [description|];
    [|rewrite orb_false_r; reflexivity].
  destruct (_ || _); [|rewrite orb_false_r; reflexivity].
  rewrite orb_true_r. reflexivity.
Qed.

Lemma search_loop_run (names : list string) (found : bool) (s : St) :
  Forall (fun name => is_Some (obd_commands !! name)) names ->
  for_acc names found (print_codes.search_body obd_commands search_term) s
  = (map (fun r => Print (print_codes.result_line r.1 r.2)) (hits names), s,
     inr (found || existsb is_hit names)).
Proof.
  intros Hall. revert found. induction Hall as [|name names Hname _ IH]; intros found.
  - cbn. rewrite orb_false_r. reflexivity.
  - cbn [for_acc]. rewrite bind_run, (search_body_run _ _ _ Hname). cbn [fst snd].
    rewrite IH. unfold hits. cbn [List.filter existsb].
    destruct (is_hit name); cbn [map app fst snd];
      rewrite ?orb_true_r, ?orb_false_r; reflexivity.
Qed.

Lemma existsb_filter {A} (f : A -> bool) (l : list A) :
  existsb f l = match List.filter f l with [] => false | _ => true end.
Proof.
  induction l as [|x l IH]; [reflexivity|]. cbn. destruct (f x); [reflexivity | exact IH].
Qed.

Lemma StronglySorted_filter {A} (R : A -> A -> Prop) (f : A -> bool) (l : list A) :
  StronglySorted R l -> StronglySorted R (List.filter f l).
Proof.
  induction 1 as [|x l _ IH Hx]; [constructor|]. cbn.
  destruct (f x); [|exact IH]. constructor; [exact IH|].
  rewrite List.Forall_forall in Hx |- *. intros y Hy. apply Hx.
  apply List.filter_In in Hy. tauto.
Qed.


Lemma is_hit_spec (name : string) :
  is_hit name = true <->
  Catalogue.is_command obd_commands name (description_of name) /\
  (Catalogue.contains_ignoring_case search_term name \/
   Catalogue.contains_ignoring_case search_term (description_of name)).
Proof.
  unfold is_hit, Catalogue.is_command, description_of.
  destruct (obd_commands !! name) as [attr|].
  - rewrite !andb_true_iff, negb_true_iff.
    destruct (print_codes.desc attr) as [description|] eqn:Hdesc; cbn [default].
    + rewrite orb_true_iff, !contains_upper_spec. split.
      * intros (Hpub & Hname & Hmatch). split; [|exact Hmatch].
        exists attr. auto.
      * intros [(attr' & [= <-] & Hpub & Hname & _) Hmatch]. auto.
    + split; [intros (_ & _ & H); discriminate H|].
      intros [(attr' & [= <-] & _ & _ & H) _]. congruence.
  - rewrite andb_false_r. split; [discriminate|].
    intros [(attr' & H & _) _]. discriminate H.
Qed.

Lemma is_command_description (identity description : string) :
  Catalogue.is_command obd_commands identity description ->
  description = description_of identity.
Proof.
  intros (attr & Hattr & _ & _ & Hdesc). unfold description_of.
  rewrite Hattr, Hdesc. reflexivity.
Qed.


End Search.

(** the catalogue of a small library: searching "rpm" finds the command by
    its identity, searching "SPEED" finds two commands by identity or
    description, in alphabetical order, and the private attribute and the
    helper without description never show up *)
Example search_commands_small :
  let catalogue : gmap string print_codes.Attr :=
    list_to_map
      [ ("SPEED", {| print_codes.has_name := true; print_codes.desc := Some "Vehicle Speed" |});
        ("RPM", {| print_codes.has_name := true; print_codes.desc := Some "Engine RPM" |});
        ("MAF", {| print_codes.has_name := true; print_codes.desc := Some "Air flow (speed density)" |});
        ("_speed", {| print_codes.has_name := true; print_codes.desc := Some "speed" |});
        ("has_speed", {| print_codes.has_name := false; print_codes.desc := None |}) ] in
  printed (print_codes.search_commands catalogue "rpm" tt).1.1
  = [ PyStr.nl +:+ "Searching for commands containing 'rpm':"; PyStr.repeat "-" 50;
      "  RPM                       : Engine RPM" ] /\
  printed (print_codes.search_commands catalogue "SPEED" tt).1.1
  = [ PyStr.nl +:+ "Searching for commands containing 'SPEED':"; PyStr.repeat "-" 50;
      "  MAF                       : Air flow (speed density)";
      "  SPEED                     : Vehicle Speed" ] /\
  printed (print_codes.search_commands catalogue "egr" tt).1.1
  = [ PyStr.nl +:+ "Searching for commands containing 'egr':"; PyStr.repeat "-" 50;
      "  No commands found containing 'egr'" ].
Proof. cbn zeta. repeat split; vm_compute; reflexivity. Qed.

(** ** The percent decoder *)

(** C5. For every byte b, decoding the one-byte payload [b] succeeds with a
    finite binary64 number whose exact value is within the floating tolerance
    of b*100/255; and the decoder is a function of its input alone: decoding
    an identical payload again gives the identical result. *)
Theorem decodePercent_single_byte (b : byte) :
  (exists value exact,
      Decoders.decodePercent [b] = Decoders.Percent value /\
      Decoders.float_value value = Some exact /\
      (Qabs (exact - Decoders.exact_percent b) <= Decoders.tolerance)%Q) /\
  (forall payload, payload = [b] -> Decoders.decodePercent payload = Decoders.decodePercent [b]).
Proof.
  split; [|intros payload ->; reflexivity].
  destruct b;
    (eexists; eexists; split; [reflexivity|];
     split; [vm_compute; reflexivity | vm_compute; discriminate]).
Qed.

(** the byte 0x80 decodes to about 50.196 *)
Lemma decodePercent_single_byte_witness :
  Decoders.decodePercent [x80] = Decoders.decodePercent [x80] /\
  exists value, Decoders.decodePercent [x80] = Decoders.Percent value.
Proof.
  destruct (decodePercent_single_byte x80) as [(value & exact & Hvalue & _) Hagain].
  split.
  - apply Hagain. reflexivity.
  - exists value. exact Hvalue.
Defined.

(** ** The one loop that stops at the first answer (read_catalyst_temp) *)

Lemma stops_after_unanswered (pre rest : list Event) :
  answered pre = [] -> Claimed.stops_at_first_supported rest ->
  Claimed.stops_at_first_supported (pre ++ rest).
Proof.
  intros Hpre Hrest. induction pre as [|ev pre IH]; [exact Hrest|].
  intros t1 cmd value t2 H. destruct t1 as [|ev' t1].
  - injection H as -> _. discriminate Hpre.
  - injection H as _ H. apply (IH) with (t1 := t1) (cmd := cmd) (value := value).
    + destruct ev as [c [e|[v|]]| | | |]; try exact Hpre. discriminate Hpre.
    + exact H.
Qed.

Lemma stops_when_no_query_follows (ev : Event) (rest : list Event) :
  queries rest = [] -> Claimed.stops_at_first_supported (ev :: rest).
Proof.
  intros Hrest t1 cmd value t2 H. destruct t1 as [|ev' t1].
  - injection H as _ <-. exact Hrest.
  - injection H as _ H. rewrite H, queries_app in Hrest.
    apply app_eq_nil in Hrest as [_ Hrest]. discriminate Hrest.
Qed.

Section CatalystTemp.
Context {St : Type}.
Variable conn_query : OBDCommand -> St -> (Exn + option PyValue) * St.
Variable show : PyValue -> string.
Variable has_command : string -> bool.

(** one round of the loop either goes on without an answer or breaks on an
    answer after which it sends nothing *)
Lemma read_catalyst_temp_body_cases (found : bool) (cmd_name : string) (s : St) :
  let run := po4220V2.read_catalyst_temp_body conn_query show has_command found cmd_name s in
  (run.2 = inr (inr found) /\ answered run.1.1 = []) \/
  (run.2 = inr (inl true) /\ exists ev rest, run.1.1 = ev :: rest /\ queries rest = []).
Proof.
  cbn zeta. unfold po4220V2.read_catalyst_temp_body.
  destruct (has_command cmd_name); [|left; split; reflexivity].
  unfold try_except, bind, query.
  destruct (conn_query (commands cmd_name) s) as [[e|[value|]] s'];
    [left; split; reflexivity | | left; split; reflexivity].
  right. unfold print, emit, ret.
  destruct (py_getattr value "celsius") as [temp_c|];
    [destruct (Qltb 800 temp_c); [|destruct (Qltb temp_c 300)]|];
    (split; [reflexivity | do 2 eexists; split; reflexivity]).
Qed.

(** Unlike the probing loops of [test_all_o2_sensor_pids], the loop of
    [read_catalyst_temp] does what the specification says of
    queryFirstSupported: once a candidate has answered with a value, no
    later candidate is queried. *)
Lemma read_catalyst_temp_stops_at_first_value (names : list string) (s : St) :
  Claimed.stops_at_first_supported
    (po4220V2.read_catalyst_temp_loop conn_query show has_command names s).1.1.
Proof.
  unfold po4220V2.read_catalyst_temp_loop. generalize false. revert s.
  induction names as [|cmd_name names IH]; intros s found.
  - intros [|ev t1] cmd value t2 H; discriminate H.
  - cbn [for_break]. rewrite bind_run.
    destruct (read_catalyst_temp_body_cases found cmd_name s)
      as [[-> Hnone] | [-> (ev & rest & Ht & Hrest)]]; cbn [fst snd].
    + apply stops_after_unanswered; [exact Hnone | apply IH].
    + rewrite Ht, app_nil_r. apply stops_when_no_query_follows, Hrest.
Qed.

End CatalystTemp.

(** * Further properties of the scripts *)

(** ** read_catalyst_temp *)

Section CatalystReport.
Context {St : Type}.
Variable conn_query : OBDCommand -> St -> (Exn + option PyValue) * St.
Variable show : PyValue -> string.
Variable has_command : string -> bool.

Local Abbreviation temp_body := (po4220V2.read_catalyst_temp_body conn_query show has_command).
Local Abbreviation temp_loop := (po4220V2.read_catalyst_temp_loop conn_query show has_command).

(** a round of the loop, by the outcome of its query *)
Lemma read_catalyst_temp_body_run (found : bool) (cmd_name : string) (s : St) :
  temp_body found cmd_name s
  = if has_command cmd_name then
      match conn_query (commands cmd_name) s with
      | (inl e, s') =>
          ([Query (commands cmd_name) (inl e);
            Print ("Error reading " +:+ cmd_name +:+ ": " +:+ str_exn e)], s', inr (inr found))
      | (inr None, s') => ([Query (commands cmd_name) (inr None)], s', inr (inr found))
      | (inr (Some value), s') =>
          (Query (commands cmd_name) (inr (Some value))
           :: Print ("Catalyst Temperature (" +:+ cmd_name +:+ "): " +:+ show value)
           :: match py_getattr value "celsius" with
              | Some temp_c =>
                  [Print (if Qltb 800 temp_c
                          then "  └─ ⚠️ HIGH TEMP: Possible engine running rich"
                          else if Qltb temp_c 300
                          then "  └─ LOW TEMP: Cat may not be reaching operating temp"
                          else "  └─ NORMAL OPERATING RANGE")]
              | None => []
              end, s', inr (inl true))
      end
    else ([], s, inr (inr found)).
Proof.
  unfold po4220V2.read_catalyst_temp_body.
  destruct (has_command cmd_name); [|reflexivity].
  unfold try_except, bind, query, print, emit, ret.
  destruct (conn_query (commands cmd_name) s) as [[e|[value|]] s']; try reflexivity.
  destruct (py_getattr value "celsius") as [temp_c|]; [|reflexivity].
  destruct (Qltb 800 temp_c); [reflexivity|]. destruct (Qltb temp_c 300); reflexivity.
Qed.

(** the loop: nothing escapes; the flag is raised exactly when a query was
    answered; at most one query is answered; the queries are the
    available candidates up to the one that answered *)
Lemma read_catalyst_temp_loop_run (names : list string) (found : bool) (s : St) :
  let run := for_break names found temp_body s in
  exists flag later,
    run.2 = inr flag /\
    flag = (found || match answered run.1.1 with [] => false | _ => true end) /\
    length (answered run.1.1) <= 1 /\
    queries run.1.1 ++ later
    = map commands (List.filter has_command names) /\
    (answered run.1.1 = [] -> later = []).
Proof.
  cbn zeta. revert found s. induction names as [|name names IH]; intros found s.
  - exists found, []. cbn. rewrite orb_false_r. repeat split; auto.
  - cbn [for_break List.filter]. rewrite bind_run, read_catalyst_temp_body_run.
    destruct (has_command name).
    + destruct (conn_query (commands name) s) as [[e|[value|]] s']; cbn [fst snd].
      * destruct (IH found s') as (flag & later & Hr & Hflag & Hlen & Hq & Hnone).
        exists flag, later. rewrite Hr, answered_app, queries_app.
        change (answered [Query ?c (inl ?x); Print ?l]) with (@nil (OBDCommand * PyValue)).
        change (queries [Query ?c (inl ?x); Print ?l]) with [c].
        cbn [app map]. rewrite Hq. auto.
      * exists true, (map commands (List.filter has_command names)).
        cbn [ret fst snd]. rewrite app_nil_r, orb_true_r.
        destruct (py_getattr value "celsius"); cbn; repeat split; auto; discriminate.
      * destruct (IH found s') as (flag & later & Hr & Hflag & Hlen & Hq & Hnone).
        exists flag, later. rewrite Hr, answered_app, queries_app.
        change (answered [Query ?c (inr None)]) with (@nil (OBDCommand * PyValue)).
        change (queries [Query ?c (inr None)]) with [c].
        cbn [app map]. rewrite Hq. auto.
    + cbn [fst snd app]. apply IH.
Qed.

(** X1. [read_catalyst_temp] never lets an exception escape and tries the
    candidate commands in order, skipping the ones the library lacks, until
    the first response that has a value: at most one query is answered and
    nothing is queried after it, so the queries are an initial part of the
    available candidates; when no candidate answered, every available
    candidate was queried and the two "not available" lines close the
    report, which they do in no other case. *)
Theorem read_catalyst_temp_report (s : St) :
  let run := po4220V2.read_catalyst_temp conn_query show has_command s in
  let candidates := map commands (List.filter has_command po4220V2.temp_commands) in
  run.2 = inr tt /\
  exists t,
    run.1.1
    = [ Print (PyStr.nl +:+ PyStr.repeat "=" 60);
        Print "CATALYST TEMPERATURE (if available)";
        Print (PyStr.repeat "=" 60) ]
      ++ t
      ++ match answered t with
         | [] => [ Print "Catalyst temperature data not available with this scanner";
                   Print "This is normal - most basic ELM327 adapters don't support cat temp" ]
         | _ => []
         end /\
    length (answered t) <= 1 /\
    Claimed.stops_at_first_supported t /\
    match answered t with
    | [] => queries t = candidates
    | _ => exists later, queries t ++ later = candidates
    end.
Proof.
  cbn zeta. unfold po4220V2.read_catalyst_temp.
  rewrite !print_then_run, bind_run. cbn [fst snd].
  pose proof (read_catalyst_temp_stops_at_first_value conn_query show has_command
                po4220V2.temp_commands s) as Hstop.
  unfold po4220V2.read_catalyst_temp_loop in *.
  destruct (read_catalyst_temp_loop_run po4220V2.temp_commands false s)
    as (flag & later & Hr & Hflag & Hlen & Hq & Hnone).
  rewrite Hr. cbn [orb] in Hflag. subst flag.
  set (t := (for_break po4220V2.temp_commands false temp_body s).1.1) in *.
  destruct (answered t) as [|a rest] eqn:Ha; cbn [negb];
    (split; [reflexivity|]); exists t; rewrite Ha;
    (split; [rewrite ?app_nil_r; reflexivity|]);
    (split; [exact Hlen|]); (split; [exact Hstop|]).
  - rewrite (Hnone eq_refl), app_nil_r in Hq. exact Hq.
  - exists later. exact Hq.
Qed.

(** X2. When a candidate answers with a value that has a [celsius]
    attribute, [read_catalyst_temp] prints the reading and one line for the
    temperature: HIGH above 800, LOW below 300, NORMAL from 300 to 800, both
    ends included. *)
Theorem catalyst_temperature_bands (cmd_name : string) (value : PyValue) (temp_c : Q)
    (found : bool) (s s' : St) :
  has_command cmd_name = true ->
  conn_query (commands cmd_name) s = (inr (Some value), s') ->
  py_getattr value "celsius" = Some temp_c ->
  let lines := printed (temp_body found cmd_name s).1.1 in
  let reading := "Catalyst Temperature (" +:+ cmd_name +:+ "): " +:+ show value in
  ((800 < temp_c)%Q ->
     lines = [reading; "  └─ ⚠️ HIGH TEMP: Possible engine running rich"]) /\
  ((temp_c < 300)%Q ->
     lines = [reading; "  └─ LOW TEMP: Cat may not be reaching operating temp"]) /\
  ((300 <= temp_c)%Q /\ (temp_c <= 800)%Q ->
     lines = [reading; "  └─ NORMAL OPERATING RANGE"]).
Proof.
  intros Hhas Hanswer Hattr. cbn zeta.
  rewrite read_catalyst_temp_body_run, Hhas, Hanswer, Hattr. cbn [fst snd].
  change (printed (Query ?c ?r :: Print ?a :: [Print ?b])) with [a; b].
  destruct (Qltb 800 temp_c) eqn:E8;
    [apply Qltb_lt in E8 | apply Qltb_ge in E8;
     destruct (Qltb temp_c 300) eqn:E3;
     [apply Qltb_lt in E3 | apply Qltb_ge in E3]];
    (split; [|split]); intros H; try reflexivity; exfalso; lra.
Qed.

End CatalystReport.

(** a catalyst at 850 degrees, one at 300 and one at 120 *)
Lemma catalyst_temperature_bands_witness :
  let reading := "Catalyst Temperature (CATALYST_TEMP): <object>" in
  let at_ (temp_c : Q) :=
    printed (po4220V2.read_catalyst_temp_body
               (Bench.vehicle [ ("CATALYST_TEMP", inr (Some (VObj [("celsius", temp_c)]))) ])
               Bench.show Bench.all_commands false "CATALYST_TEMP" 0%nat).1.1 in
  at_ 850%Q = [reading; "  └─ ⚠️ HIGH TEMP: Possible engine running rich"] /\
  at_ 120%Q = [reading; "  └─ LOW TEMP: Cat may not be reaching operating temp"] /\
  at_ 300%Q = [reading; "  └─ NORMAL OPERATING RANGE"].
Proof.
  cbn zeta. split; [|split].
  - apply (proj1 (catalyst_temperature_bands
             (Bench.vehicle [ ("CATALYST_TEMP", inr (Some (VObj [("celsius", 850%Q)]))) ])
             Bench.show Bench.all_commands "CATALYST_TEMP" (VObj [("celsius", 850%Q)]) 850%Q
             false 0%nat 1%nat eq_refl eq_refl eq_refl)).
    vm_compute. reflexivity.
  - apply (proj1 (proj2 (catalyst_temperature_bands
             (Bench.vehicle [ ("CATALYST_TEMP", inr (Some (VObj [("celsius", 120%Q)]))) ])
             Bench.show Bench.all_commands "CATALYST_TEMP" (VObj [("celsius", 120%Q)]) 120%Q
             false 0%nat 1%nat eq_refl eq_refl eq_refl))).
    vm_compute. reflexivity.
  - apply (proj2 (proj2 (catalyst_temperature_bands
             (Bench.vehicle [ ("CATALYST_TEMP", inr (Some (VObj [("celsius", 300%Q)]))) ])
             Bench.show Bench.all_commands "CATALYST_TEMP" (VObj [("celsius", 300%Q)]) 300%Q
             false 0%nat 1%nat eq_refl eq_refl eq_refl))).
    split; vm_compute; discriminate.
Defined.

(** ** read_fuel_trim *)


Section TrimRules.
Context {St : Type}.



End TrimRules.



Example two_normal_trims_poor_pair :
  po4220V2.analyze_trim (VNum 10) 0%nat
  = ([Print "  └─ NORMAL: Within acceptable range"], 0%nat, inr tt) /\
  po420_honda_spec.fuel_mixture (Some (VNum 10)) (Some (VNum (-10))) 0%nat
  = ([Print po420_honda_spec.mixture_poor], 0%nat, inr tt).
Proof. split; vm_compute; reflexivity. Qed.

(** ** test_supported_pids, test_vin_command, clear_dtcs *)

Section VinPieces.
Context {St : Type}.
Variable conn_query : OBDCommand -> St -> (Exn + option PyValue) * St.
Variable show : PyValue -> string.
Variable has_command : string -> bool.

(** X5. In [test_supported_pids] one [try] covers both requests: when the
    PIDS_A query raises, the Mode-09 bitmask is never asked for and only the
    error is printed; when it does not raise, the bitmask is asked for exactly
    once, whatever PIDS_A returned. *)
Theorem supported_pids_one_try (s : St) :
  let run := test_vin.test_supported_pids conn_query show s in
  match conn_query (commands "PIDS_A") s with
  | (inl e, s') =>
      run = ([ Print (PyStr.nl +:+ PyStr.repeat "=" 50);
               Print "SUPPORTED PIDS TEST";
               Print (PyStr.repeat "=" 50);
               Query (commands "PIDS_A") (inl e);
               Print ("Error testing supported PIDs: " +:+ str_exn e) ], s', inr tt)
  | (inr _, _) =>
      run.2 = inr tt /\ queries run.1.1 = [commands "PIDS_A"; test_vin.mode09_cmd]
  end.
Proof.
  cbn zeta. unfold test_vin.test_supported_pids.
  rewrite !print_then_run. cbn [fst snd].
  unfold bind, try_except, query, test_vin.py_in, print, emit, ret, raise.
  destruct (conn_query (commands "PIDS_A") s) as [[e0|v0] s0]; [reflexivity|].
  destruct (truthy v0); cbn -[PyStr.repeat existsb];
    destruct (conn_query test_vin.mode09_cmd s0) as [[e1|[v1|]] s1];
    cbn -[PyStr.repeat existsb];
    try (destruct v1 as [x|str|[|pid pids']|[|code codes]|attrs]; cbn -[PyStr.repeat existsb];
         try destruct (negb (Qeq_bool x 0)); try destruct (negb (str =? "")%string);
         try destruct (existsb (Z.eqb 2) (pid :: pids')); cbn -[PyStr.repeat existsb]);
    split; reflexivity.
Qed.


(** X7. [test_vin_command] never lets an exception escape, sends at most
    one query, and returns a value only in one case: the library has the VIN
    command, the query came back with a value and that value is truthy; it
    then returns exactly that value.  A missing command, a raised exception, an
    absent or an empty value all make it return None. *)
Theorem test_vin_command_contract (s : St) :
  let run := test_vin.test_vin_command conn_query show has_command s in
  exists vin,
    run.2 = inr vin /\
    length (queries run.1.1) <= 1 /\
    (forall value, vin = Some value <->
       has_command "VIN" = true /\
       (conn_query (commands "VIN") s).1 = inr (Some value) /\
       truthy (Some value) = true).
Proof.
  cbn zeta. unfold test_vin.test_vin_command.
  rewrite !print_then_run. cbn [fst snd].
  unfold bind, try_except, query, print, emit, ret.
  destruct (has_command "VIN"); cbn -[PyStr.repeat truthy].
  - destruct (conn_query (commands "VIN") s) as [[e|vin] s']; cbn -[PyStr.repeat truthy].
    + exists None. repeat split; auto; try discriminate. intros (_ & H & _). discriminate H.
    + destruct (truthy vin) eqn:E; cbn -[PyStr.repeat truthy].
      * exists vin. repeat split; auto.
        -- congruence.
        -- subst vin. exact E.
        -- intros (_ & [= ->] & _). reflexivity.
      * exists None. repeat split; auto; try discriminate.
        intros (_ & [= ->] & H). congruence.
  - exists None. repeat split; auto; try discriminate. intros (H & _). discriminate H.
Qed.

(** X8. [clear_dtcs] never lets an exception escape.  Once the user has
    confirmed, it announces success and waits two seconds exactly when the
    CLEAR_DTC query did not raise, whether or not the response carries a
    value; when the query raised it prints the error instead, and neither
    announces success nor waits. *)
Theorem clear_dtcs_reports (answer : string) (s : St) :
  PyStr.lower answer = "y" ->
  let run := elm327_tsx_reader.clear_dtcs conn_query answer s in
  let banner := [ Print (PyStr.nl +:+ PyStr.repeat "=" 50); Print "CLEARING DTCs";
                  Print (PyStr.repeat "=" 50);
                  Input "Are you sure you want to clear all DTCs? (y/N): " answer ] in
  match conn_query (commands "CLEAR_DTC") s with
  | (inl e, s') =>
      run = (banner ++ [ Query (commands "CLEAR_DTC") (inl e);
                         Print ("Error clearing DTCs: " +:+ str_exn e) ], s', inr tt)
  | (inr response, s') =>
      run = (banner ++ [ Query (commands "CLEAR_DTC") (inr response);
                         Print "DTCs cleared successfully"; Sleep 2 ], s', inr tt)
  end.
Proof.
  intros Hy. cbn zeta. unfold elm327_tsx_reader.clear_dtcs.
  unfold bind, try_except, query, print, sleep, emit, ret, input. cbn -[PyStr.repeat].
  rewrite Hy. cbn -[PyStr.repeat].
  destruct (conn_query (commands "CLEAR_DTC") s) as [[e|v] s']; reflexivity.
Qed.

End VinPieces.


(** a vehicle that refuses CLEAR_DTC, and one that accepts it without data *)
Lemma clear_dtcs_reports_witness :
  printed (elm327_tsx_reader.clear_dtcs
             (Bench.vehicle [ ("CLEAR_DTC", inl (Exception "not supported")) ]) "y" 0%nat).1.1
  = [ PyStr.nl +:+ PyStr.repeat "=" 50; "CLEARING DTCs"; PyStr.repeat "=" 50;
      "Error clearing DTCs: not supported" ] /\
  printed (elm327_tsx_reader.clear_dtcs (Bench.vehicle []) "Y" 0%nat).1.1
  = [ PyStr.nl +:+ PyStr.repeat "=" 50; "CLEARING DTCs"; PyStr.repeat "=" 50;
      "DTCs cleared successfully" ].
Proof.
  split.
  - rewrite (clear_dtcs_reports
               (Bench.vehicle [ ("CLEAR_DTC", inl (Exception "not supported")) ])
               "y" 0%nat eq_refl).
    reflexivity.
  - rewrite (clear_dtcs_reports (Bench.vehicle []) "Y" 0%nat eq_refl). reflexivity.
Defined.

(** ** read_live_data: the report *)

Section LiveReport.
Context {St : Type}.
Variable conn_query : OBDCommand -> St -> (Exn + option PyValue) * St.
Variable show : PyValue -> string.
Variable clock : string.

Lemma printed_query cmd outcome (t : list Event) : printed (Query cmd outcome :: t) = printed t.
Proof. reflexivity. Qed.

(** the line of a command: its description padded to 30 columns, a colon,
    and what was learnt *)
Lemma read_live_data_loop_lines (cmds : list (OBDCommand * string)) (s : St) :
  Forall2 (fun (c : OBDCommand * string) line =>
             exists rest, line = PyStr.ljust 30 c.2 +:+ ": " +:+ rest)
          cmds (printed (elm327_tsx_reader.read_live_data_loop conn_query show cmds s).1.1).
Proof.
  unfold elm327_tsx_reader.read_live_data_loop. revert s.
  induction cmds as [|[cmd description] cmds IH]; intros s; [constructor|].
  cbn [for_each]. rewrite bind_run.
  unfold try_except at 1 2 3 4 5, bind at 1 2 3 4 5, query, print, emit.
  destruct (conn_query cmd s) as [[e|[value|]] s']; cbn [fst snd app];
    rewrite printed_query, printed_print;
    (constructor; [eexists; reflexivity | apply IH]).
Qed.

(** X9. Whatever the connection answers, [read_live_data] prints, after
    its five header lines, exactly one line per command of its list, in list
    order, and each line starts with the description of its command padded to
    30 columns: a value, "Not available" or the error never takes more or
    less than that one line. *)
Theorem read_live_data_one_line_each (s : St) :
  let lines := printed (elm327_tsx_reader.read_live_data conn_query show clock s).1.1 in
  length lines = (5 + length elm327_tsx_reader.live_commands)%nat /\
  Forall2 (fun (c : OBDCommand * string) line =>
             exists rest, line = PyStr.ljust 30 c.2 +:+ ": " +:+ rest)
          elm327_tsx_reader.live_commands (skipn 5 lines).
Proof.
  cbn zeta. unfold elm327_tsx_reader.read_live_data.
  rewrite !print_then_run. cbn [fst snd]. rewrite !printed_print.
  pose proof (read_live_data_loop_lines elm327_tsx_reader.live_commands s) as H.
  split; [|exact H].
  apply Forall2_length in H. cbn [length]. rewrite <- H. reflexivity.
Qed.

End LiveReport.

(** ** search_commands: the search term *)

Lemma contains_trans (a b c : string) :
  PyStr.contains a b = true -> PyStr.contains b c = true -> PyStr.contains a c = true.
Proof.
  rewrite !contains_spec. intros (p & q & ->) (p' & q' & ->).
  exists (p' +:+ p), (q +:+ q'). rewrite !append_assoc. reflexivity.
Qed.

Section SearchTerm.
Context {St : Type}.
Variable obd_commands : gmap string print_codes.Attr.

Lemma search_commands_printed (search_term : string) (s : St) :
  let run := print_codes.search_commands obd_commands search_term s in
  run.2 = inr tt /\
  printed run.1.1
  = [ PyStr.nl +:+ "Searching for commands containing '" +:+ search_term +:+ "':";
      PyStr.repeat "-" 50 ]
    ++ Catalogue.report
         (Catalogue.hits obd_commands search_term (print_codes.dir obd_commands))
         search_term.
Proof.
  cbn zeta.
  assert (Forall (fun name => is_Some (obd_commands !! name))
                 (print_codes.dir obd_commands)) as Hall.
  { apply Forall_forall. intros name. apply dir_lookup. }
  unfold print_codes.search_commands, print_codes.search_loop.
  rewrite !print_then_run, bind_run, (search_loop_run _ _ _ _ _ Hall). cbn [fst snd orb].
  rewrite existsb_filter. unfold Catalogue.hits.
  destruct (List.filter _ _) as [|name names]; cbn [negb]; (split; [reflexivity|]).
  - reflexivity.
  - cbn [fst snd ret app]. rewrite app_nil_r, !printed_print, printed_prints. reflexivity.
Qed.

Lemma hits_ext (term1 term2 : string) (names : list string) :
  (forall name, Catalogue.is_hit obd_commands term1 name
                = Catalogue.is_hit obd_commands term2 name) ->
  Catalogue.hits obd_commands term1 names = Catalogue.hits obd_commands term2 names.
Proof.
  intros H. unfold Catalogue.hits. f_equal.
  induction names as [|n names IH]; [reflexivity|]. cbn. rewrite H, IH. reflexivity.
Qed.

(** X10. The case of the search term does not matter: two terms that
    differ only in the case of their letters make [search_commands] report the
    same commands, in the same order. *)
Theorem search_ignores_case_of_term (term1 term2 : string) (s : St) :
  PyStr.upper term1 = PyStr.upper term2 ->
  exists results,
    printed (print_codes.search_commands obd_commands term1 s).1.1
    = [ PyStr.nl +:+ "Searching for commands containing '" +:+ term1 +:+ "':";
        PyStr.repeat "-" 50 ] ++ Catalogue.report results term1 /\
    printed (print_codes.search_commands obd_commands term2 s).1.1
    = [ PyStr.nl +:+ "Searching for commands containing '" +:+ term2 +:+ "':";
        PyStr.repeat "-" 50 ] ++ Catalogue.report results term2.
Proof.
  intros Hcase.
  exists (Catalogue.hits obd_commands term1 (print_codes.dir obd_commands)).
  split; [apply search_commands_printed|].
  rewrite (hits_ext term1 term2); [apply search_commands_printed|].
  intros name. unfold Catalogue.is_hit. rewrite Hcase. reflexivity.
Qed.

(** X11. Refining a search term never adds results: when [narrow]
    contains [wide] up to case, every command that [search_commands] reports
    for [narrow] is also reported for [wide]; in particular the empty term
    reports every command. *)
Theorem search_refinement (wide narrow : string) (s : St) :
  PyStr.contains (PyStr.upper wide) (PyStr.upper narrow) = true ->
  exists results_wide results_narrow,
    printed (print_codes.search_commands obd_commands wide s).1.1
    = [ PyStr.nl +:+ "Searching for commands containing '" +:+ wide +:+ "':";
        PyStr.repeat "-" 50 ] ++ Catalogue.report results_wide wide /\
    printed (print_codes.search_commands obd_commands narrow s).1.1
    = [ PyStr.nl +:+ "Searching for commands containing '" +:+ narrow +:+ "':";
        PyStr.repeat "-" 50 ] ++ Catalogue.report results_narrow narrow /\
    (forall r, In r results_narrow -> In r results_wide) /\
    (wide = "" ->
     forall identity description,
       Catalogue.is_command obd_commands identity description ->
       In (identity, description) results_wide).
Proof.
  intros Hsub.
  exists (Catalogue.hits obd_commands wide (print_codes.dir obd_commands)),
    (Catalogue.hits obd_commands narrow (print_codes.dir obd_commands)).
  split; [apply search_commands_printed|]. split; [apply search_commands_printed|].
  split.
  - intros r. unfold Catalogue.hits. rewrite !in_map_iff.
    intros (name & <- & Hin). exists name. split; [reflexivity|].
    apply List.filter_In in Hin as [Hdir Hhit]. apply List.filter_In. split; [exact Hdir|].
    unfold Catalogue.is_hit in *.
    destruct (negb (PyStr.startswith "_" name)); [|discriminate Hhit].
    destruct (obd_commands !! name) as [attr|]; [|discriminate Hhit].
    destruct (print_codes.has_name attr); [|discriminate Hhit].
    destruct (print_codes.desc attr) as [description|]; [|discriminate Hhit].
    cbn [andb] in *. apply orb_true_iff in Hhit. apply orb_true_iff.
    destruct Hhit as [H|H]; [left | right]; exact (contains_trans _ _ _ Hsub H).
  - intros -> identity description Hcmd.
    pose proof (is_command_description _ _ _ Hcmd) as ->.
    unfold Catalogue.hits. apply in_map_iff. exists identity. split; [reflexivity|].
    apply List.filter_In. split.
    + apply list_elem_of_In, dir_lookup. destruct Hcmd as (attr & -> & _). eauto.
    + apply is_hit_spec. split; [exact Hcmd|]. left.
      exists "", "", identity. split; [reflexivity | constructor].
Qed.

End SearchTerm.

(** the terms "rpm" and "RPM"; the term "speed" refined to "speed d" *)
Lemma search_ignores_case_of_term_witness :
  exists results,
    printed (print_codes.search_commands
               (list_to_map [ ("RPM", {| print_codes.has_name := true;
                                         print_codes.desc := Some "Engine RPM" |}) ])
               "rpm" tt).1.1
    = [ PyStr.nl +:+ "Searching for commands containing 'rpm':"; PyStr.repeat "-" 50 ]
      ++ Catalogue.report results "rpm" /\
    printed (print_codes.search_commands
               (list_to_map [ ("RPM", {| print_codes.has_name := true;
                                         print_codes.desc := Some "Engine RPM" |}) ])
               "RPM" tt).1.1
    = [ PyStr.nl +:+ "Searching for commands containing 'RPM':"; PyStr.repeat "-" 50 ]
      ++ Catalogue.report results "RPM".
Proof.
  apply (search_ignores_case_of_term
           (list_to_map [ ("RPM", {| print_codes.has_name := true;
                                     print_codes.desc := Some "Engine RPM" |}) ])
           "rpm" "RPM" tt).
  reflexivity.
Defined.

Lemma search_refinement_witness :
  exists results_wide results_narrow : list (string * string),
    (forall r, In r results_narrow -> In r results_wide) /\
    (forall identity description,
        Catalogue.is_command
          (list_to_map [ ("RPM", {| print_codes.has_name := true;
                                    print_codes.desc := Some "Engine RPM" |}) ])
          identity description ->
        In (identity, description) results_wide).
Proof.
  destruct (search_refinement
              (list_to_map [ ("RPM", {| print_codes.has_name := true;
                                        print_codes.desc := Some "Engine RPM" |}) ])
              "" "rp" tt eq_refl)
    as (results_wide & results_narrow & _ & _ & Hsub & Hall).
  exists results_wide, results_narrow. split; [exact Hsub | exact (Hall eq_refl)].
Defined.

(** ** Events a run never causes *)

Section AlwaysFacts.
Context {St : Type}.
Variable P : Event -> Prop.

Lemma always_ret {A} (a : A) : always (St:=St) P (ret a).
Proof. intros s. constructor. Qed.

Lemma always_raise {A} e : always (St:=St) (A:=A) P (raise e).
Proof. intros s. constructor. Qed.

Lemma always_emit ev : P ev -> always (St:=St) P (emit ev).
Proof. intros H s. repeat constructor. exact H. Qed.

Lemma always_input prompt answer : P (Input prompt answer) -> always (St:=St) P (input prompt answer).
Proof. intros H s. repeat constructor. exact H. Qed.

Lemma always_query conn_query cmd :
  (forall outcome, P (Query cmd outcome)) -> always (St:=St) P (query conn_query cmd).
Proof.
  intros H s. unfold query. destruct (conn_query cmd s) as [r s']. repeat constructor. apply H.
Qed.

Lemma always_bind {A B} (m : M St A) (f : A -> M St B) :
  always P m -> (forall a, always P (f a)) -> always P (bind m f).
Proof.
  intros Hm Hf s. rewrite bind_run. specialize (Hm s).
  destruct (m s).2 as [e|a]; cbn [fst snd]; [exact Hm|].
  apply Forall_app. split; [exact Hm | apply Hf].
Qed.

Lemma always_try_except {A} (m : M St A) (h : Exn -> M St A) :
  always P m -> (forall e, always P (h e)) -> always P (try_except m h).
Proof.
  intros Hm Hh s. rewrite try_except_run. specialize (Hm s).
  destruct (m s).2 as [e|a]; cbn [fst snd]; [|exact Hm].
  apply Forall_app. split; [exact Hm | apply Hh].
Qed.

Lemma always_for_each {A} (l : list A) (body : A -> M St unit) :
  (forall x, always P (body x)) -> always P (for_each l body).
Proof.
  intros Hb. induction l as [|x l IH]; cbn [for_each].
  - apply always_ret.
  - apply always_bind; [apply Hb | intros _; exact IH].
Qed.

Lemma always_for_acc {A B} (l : list A) (body : B -> A -> M St B) acc :
  (forall b x, always P (body b x)) -> always P (for_acc l acc body).
Proof.
  intros Hb. revert acc. induction l as [|x l IH]; intros acc; cbn [for_acc].
  - apply always_ret.
  - apply always_bind; [apply Hb | intros acc'; apply IH].
Qed.

Lemma always_for_break {A B} (l : list A) (body : B -> A -> M St (B + B)) acc :
  (forall b x, always P (body b x)) -> always P (for_break l acc body).
Proof.
  intros Hb. revert acc. induction l as [|x l IH]; intros acc; cbn [for_break].
  - apply always_ret.
  - apply always_bind; [apply Hb | intros [acc'|acc']; [apply always_ret | apply IH]].
Qed.

Lemma always_py_len v : always (St:=St) P (py_len v).
Proof. destruct v; first [apply always_ret | apply always_raise]. Qed.

Lemma always_py_code_pairs v : always (St:=St) P (py_code_pairs v).
Proof.
  destruct v as [x|[|c str]|[|pid pids]|codes|attrs];
    first [apply always_ret | apply always_raise].
Qed.

Lemma always_py_lt v y : always (St:=St) P (py_lt v y).
Proof. destruct v; first [apply always_ret | apply always_raise]. Qed.

Lemma always_py_gt v y : always (St:=St) P (py_gt v y).
Proof. destruct v; first [apply always_ret | apply always_raise]. Qed.

Lemma always_py_abs v : always (St:=St) P (py_abs v).
Proof. destruct v; first [apply always_ret | apply always_raise]. Qed.

Lemma always_py_add v w : always (St:=St) P (py_add v w).
Proof. destruct v, w; first [apply always_ret | apply always_raise]. Qed.

End AlwaysFacts.

#[local] Hint Resolve always_ret always_raise always_bind always_try_except
  always_for_each always_for_acc always_for_break always_py_len always_py_code_pairs
  always_py_lt always_py_gt always_py_abs always_py_add : trace.
#[local] Hint Extern 1 (always _ (print _)) => apply always_emit : trace.
#[local] Hint Extern 1 (always _ (sleep _)) => apply always_emit : trace.
#[local] Hint Extern 1 (always _ close) => apply always_emit : trace.
#[local] Hint Extern 1 (always _ (input _ _)) => apply always_input : trace.
#[local] Hint Extern 1 (always _ (query _ _)) => apply always_query : trace.
#[local] Hint Extern 2 (always _ (match ?x with _ => _ end)) => destruct x : trace.
#[local] Hint Extern 3 (always _ _) => progress intros : trace.
#[local] Hint Extern 1 (not_query_of _ _) => (intros ? ?; discriminate) : trace.
#[local] Hint Extern 1 (_ <> _) => discriminate : trace.

(** ** elm327_tsx_reader.py: read_dtcs, read_vehicle_info, main *)

Lemma not_among_queries (cmd : OBDCommand) (t : list Event) :
  Forall (not_query_of cmd) t -> ~ In cmd (queries t).
Proof.
  induction 1 as [|ev t Hev _ IH]; [intros []|].
  destruct ev as [c r| | | |]; cbn; auto.
  intros [->|H]; [exact (Hev r eq_refl) | auto].
Qed.

Section Elm327.
Context {St : Type}.
Variable conn_query : OBDCommand -> St -> (Exn + option PyValue) * St.
Variable show : PyValue -> string.
Variable clock : string.
Variable has_command : string -> bool.

Local Abbreviation read_dtcs := (elm327_tsx_reader.read_dtcs conn_query has_command).
Local Abbreviation read_vehicle_info := (elm327_tsx_reader.read_vehicle_info conn_query show).
Local Abbreviation read_live_data := (elm327_tsx_reader.read_live_data conn_query show clock).
Local Abbreviation clear_dtcs := (elm327_tsx_reader.clear_dtcs conn_query).
Local Abbreviation menu_loop :=
  (elm327_tsx_reader.menu_loop conn_query show clock has_command).
Local Abbreviation main := (elm327_tsx_reader.main conn_query show clock has_command).

Lemma read_dtcs_catches : catches read_dtcs.
Proof. unfold elm327_tsx_reader.read_dtcs. auto 10 with py. Qed.

Lemma read_vehicle_info_catches : catches read_vehicle_info.
Proof.
  unfold elm327_tsx_reader.read_vehicle_info, elm327_tsx_reader.read_vehicle_info_loop.
  auto 20 with py.
Qed.

Lemma read_live_data_catches : catches read_live_data.
Proof.
  unfold elm327_tsx_reader.read_live_data.
  auto 20 using read_live_data_loop_catches with py.
Qed.

Lemma clear_dtcs_catches answer : catches (clear_dtcs answer).
Proof.
  unfold elm327_tsx_reader.clear_dtcs.
  do 3 (apply catches_bind; [auto with py | intros ?]).
  apply catches_bind; [intros s; eexists; reflexivity | intros ?].
  destruct (String.eqb _ _); auto 10 with py.
Qed.

Section Events.
Variable P : Event -> Prop.
Hypothesis P_print : forall line, P (Print line).
Hypothesis P_input : forall prompt answer, P (Input prompt answer).
Hypothesis P_sleep : forall seconds, P (Sleep seconds).

Lemma read_dtcs_always :
  (forall cmd outcome,
      In cmd [commands "GET_DTC"; commands "GET_PENDING_DTC"; commands "PENDING_DTC"] ->
      P (Query cmd outcome)) ->
  always P read_dtcs.
Proof.
  intros HQ. unfold elm327_tsx_reader.read_dtcs, elm327_tsx_reader.print_codes_found.
  assert (forall outcome, P (Query (commands "GET_DTC") outcome)) by (intros; apply HQ; cbn; auto).
  assert (forall outcome, P (Query (commands "GET_PENDING_DTC") outcome))
    by (intros; apply HQ; cbn; auto).
  assert (forall outcome, P (Query (commands "PENDING_DTC") outcome))
    by (intros; apply HQ; cbn; auto).
  auto 30 with trace.
Qed.

Lemma read_vehicle_info_always :
  (forall cmd outcome, In cmd (map fst elm327_tsx_reader.info_commands) -> P (Query cmd outcome)) ->
  always P read_vehicle_info.
Proof.
  intros HQ. unfold elm327_tsx_reader.read_vehicle_info.
  do 3 (apply always_bind; [auto with trace | intros _]).
  unfold elm327_tsx_reader.read_vehicle_info_loop.
  generalize elm327_tsx_reader.info_commands HQ. clear HQ.
  intros cmds HQ. induction cmds as [|[cmd d] cmds IH]; cbn [for_each]; [apply always_ret|].
  apply always_bind; [|intros _; apply IH; intros; apply HQ; right; assumption].
  assert (forall outcome, P (Query cmd outcome)) by (intros; apply HQ; left; reflexivity).
  auto 10 with trace.
Qed.

Lemma read_live_data_always :
  (forall cmd outcome, In cmd (map fst elm327_tsx_reader.live_commands) -> P (Query cmd outcome)) ->
  always P read_live_data.
Proof.
  intros HQ. unfold elm327_tsx_reader.read_live_data.
  do 5 (apply always_bind; [auto with trace | intros _]).
  unfold elm327_tsx_reader.read_live_data_loop.
  generalize elm327_tsx_reader.live_commands HQ. clear HQ.
  intros cmds HQ. induction cmds as [|[cmd d] cmds IH]; cbn [for_each]; [apply always_ret|].
  apply always_bind; [|intros _; apply IH; intros; apply HQ; right; assumption].
  assert (forall outcome, P (Query cmd outcome)) by (intros; apply HQ; left; reflexivity).
  auto 10 with trace.
Qed.

Lemma clear_dtcs_always answer :
  (forall outcome, P (Query (commands "CLEAR_DTC") outcome)) ->
  always P (clear_dtcs answer).
Proof.
  intros HQ. unfold elm327_tsx_reader.clear_dtcs.
  do 4 (apply always_bind; [auto with trace | intros ?]).
  destruct (String.eqb _ _); auto 10 with trace.
Qed.

End Events.

(** stepping through a guarded computation *)
Lemma try_query_raised {A} cmd (rest : option PyValue -> M St A) (h : Exn -> M St A)
    e (s s' : St) :
  conn_query cmd s = (inl e, s') ->
  try_except (bind (query conn_query cmd) rest) h s
  = (Query cmd (inl e) :: (h e s').1.1, (h e s').1.2, (h e s').2).
Proof.
  intros H. unfold try_except, bind, query. rewrite H.
  destruct (h e s') as [[t2 s2] r2]. reflexivity.
Qed.

Lemma try_query_returned {A} cmd (rest : option PyValue -> M St A) (h : Exn -> M St A)
    r (s s' : St) :
  conn_query cmd s = (inr r, s') ->
  try_except (bind (query conn_query cmd) rest) h s
  = (Query cmd (inr r) :: (try_except (rest r) h s').1.1,
     (try_except (rest r) h s').1.2, (try_except (rest r) h s').2).
Proof.
  intros H. unfold try_except, bind, query. rewrite H.
  destruct (rest r s') as [[t2 s2] [e2|a2]]; [|reflexivity].
  destruct (h e2 s2) as [[t3 s3] r3]. reflexivity.
Qed.

Lemma try_bind_returned {A B} (m : M St A) (f : A -> M St B) (h : Exn -> M St B)
    t a (s s1 : St) :
  m s = (t, s1, inr a) ->
  try_except (bind m f) h s
  = (t ++ (try_except (f a) h s1).1.1,
     (try_except (f a) h s1).1.2, (try_except (f a) h s1).2).
Proof.
  intros H. unfold try_except, bind. rewrite H.
  destruct (f a s1) as [[t2 s2] [e2|a2]]; [|reflexivity].
  destruct (h e2 s2) as [[t3 s3] r3]. cbn [fst snd]. rewrite <- app_assoc. reflexivity.
Qed.

Lemma try_except_caught {A} (m : M St A) (h : Exn -> M St A) (s : St) :
  catches m -> try_except m h s = m s.
Proof.
  intros Hc. unfold try_except. destruct (Hc s) as [a Ha].
  destruct (m s) as [[t s'] r]. cbn in Ha. subst r. reflexivity.
Qed.

Lemma asks_query cmd : asks (St:=St) (query conn_query cmd) [cmd].
Proof. intros s. unfold query. destruct (conn_query cmd s). reflexivity. Qed.

Lemma asks_raise {A} e : asks (St:=St) (A:=A) (raise e) [].
Proof. intros s. reflexivity. Qed.

Lemma asks_bind_tail {A B} (m : M St A) (f : A -> M St B) cs :
  asks m cs -> (forall a, asks (f a) []) -> asks (bind m f) cs.
Proof.
  intros Hm Hf s. rewrite bind_run. pose proof (Hm s) as Hq.
  destruct (m s).2 as [e|a]; cbn [fst snd]; [exact Hq|].
  rewrite queries_app, Hq, Hf, app_nil_r. reflexivity.
Qed.

Lemma asks_try_except_tail {A} (m : M St A) (h : Exn -> M St A) cs :
  asks m cs -> (forall e, asks (h e) []) -> asks (try_except m h) cs.
Proof.
  intros Hm Hh s. rewrite try_except_run. pose proof (Hm s) as Hq.
  destruct (m s).2 as [e|a]; cbn [fst snd]; [|exact Hq].
  rewrite queries_app, Hq, Hh, app_nil_r. reflexivity.
Qed.

Lemma asks_for_each_print {A} (l : list A) (line : A -> string) :
  asks (St:=St) (for_each l (fun x => print (line x))) [].
Proof.
  induction l as [|x l IH]; cbn [for_each]; [apply asks_ret|].
  apply asks_bind_tail; [apply asks_print | intros _; exact IH].
Qed.

Lemma asks_print_codes_found found_line value :
  asks (St:=St) (elm327_tsx_reader.print_codes_found found_line value) [].
Proof.
  unfold elm327_tsx_reader.print_codes_found.
  apply asks_bind_tail; [destruct value; first [apply asks_ret | apply asks_raise]|].
  intros n. apply asks_bind_tail; [apply asks_print|]. intros _.
  apply asks_bind_tail.
  - destruct value as [x|[|c str]|[|pid pids]|codes|attrs];
      first [apply asks_ret | apply asks_raise].
  - intros codes. induction codes as [|[code d] codes IH]; cbn [for_each]; [apply asks_ret|].
    apply asks_bind_tail; [apply asks_print | intros _; exact IH].
Qed.

(** the stored-codes part of [read_dtcs] and its pending-codes part *)
Local Abbreviation stored_part := (fun response : option PyValue =>
  match response with
  | Some value =>
      if truthy response then
        elm327_tsx_reader.print_codes_found (St:=St)
          (fun n => "Found " +:+ n +:+ " stored codes:") value
      else print "No stored DTCs found"
  | None => print "No stored DTCs found"
  end).

Lemma print_codes_found_run found_line (codes : list (string * string)) (s : St) :
  elm327_tsx_reader.print_codes_found found_line (VCodes codes) s
  = (Print (found_line (str_of_nat (length codes))) :: map (fun c => Print (code_line c)) codes,
     s, inr tt).
Proof.
  unfold elm327_tsx_reader.print_codes_found, py_len, py_code_pairs.
  unfold bind at 1 2, ret at 1. cbn [fst snd].
  unfold print at 1, emit. cbn [app]. unfold bind at 1, ret at 1. cbn [app].
  assert (forall l : list (string * string),
             for_each l (fun '(code, description) =>
                           print ("  " +:+ code +:+ ": " +:+ description)) s
             = (map (fun c => Print (code_line c)) l, s, inr tt)) as Hloop.
  { induction l as [|[code d] l IH]; [reflexivity|].
    cbn [for_each]. rewrite print_then_run, IH. reflexivity. }
  rewrite Hloop. reflexivity.
Qed.

Local Abbreviation pending_part :=
  (try_except
     (pending_response <-
        (if has_command "GET_PENDING_DTC" then
           r <- query conn_query (commands "GET_PENDING_DTC");; ret (Some r)
         else if has_command "PENDING_DTC" then
           r <- query conn_query (commands "PENDING_DTC");; ret (Some r)
         else
           print "Pending DTC command not available in this library version";;
           ret None);;
      match pending_response with
      | Some (Some value) =>
          if truthy (Some value) then
            elm327_tsx_reader.print_codes_found
              (fun n => PyStr.nl +:+ "Found " +:+ n +:+ " pending codes:") value
          else print "No pending DTCs found"
      | Some None => print "No pending DTCs found"
      | None => ret tt
      end)
     (fun e => print ("Could not read pending DTCs: " +:+ str_exn e))).

Lemma read_dtcs_unfold :
  read_dtcs
  = (print (PyStr.nl +:+ PyStr.repeat "=" 50);;
     print "DIAGNOSTIC TROUBLE CODES";;
     print (PyStr.repeat "=" 50);;
     try_except
       (response <- query conn_query (commands "GET_DTC");;
        stored_part response;; pending_part)
       (fun e => print ("Error reading DTCs: " +:+ str_exn e))).
Proof. reflexivity. Qed.

Lemma pending_part_catches : catches pending_part.
Proof. auto with py. Qed.

Lemma pending_part_asks : asks pending_part (pending_command has_command).
Proof.
  unfold pending_command. apply asks_try_except_tail; [|intros; apply asks_print].
  assert (forall r : option (option PyValue),
             asks (St:=St)
               match r with
               | Some (Some value) =>
                   if truthy (Some value) then
                     elm327_tsx_reader.print_codes_found
                       (fun n => PyStr.nl +:+ "Found " +:+ n +:+ " pending codes:") value
                   else print "No pending DTCs found"
               | Some None => print "No pending DTCs found"
               | None => ret tt
               end []) as Hrest.
  { intros [[value|]|]; [|apply asks_print | apply asks_ret].
    destruct (truthy (Some value)); [apply asks_print_codes_found | apply asks_print]. }
  destruct (has_command "GET_PENDING_DTC"); [|destruct (has_command "PENDING_DTC")].
  - apply asks_bind_tail; [|exact Hrest].
    apply asks_bind_tail; [apply asks_query | intros; apply asks_ret].
  - apply asks_bind_tail; [|exact Hrest].
    apply asks_bind_tail; [apply asks_query | intros; apply asks_ret].
  - apply asks_bind_tail; [|exact Hrest].
    apply asks_bind_tail; [apply asks_print | intros; apply asks_ret].
Qed.

(** X12. [read_dtcs] never lets an exception escape and only ever sends
    GET_DTC and one pending-codes command.  When the GET_DTC query raises, the
    pending codes are not asked for at all: the error is printed and the
    function ends.  When GET_DTC comes back without value or with a list of
    codes, the pending codes are asked for once, with GET_PENDING_DTC if the
    library has it, else with PENDING_DTC if it has that, else not at all. *)
Theorem read_dtcs_queries (s : St) :
  let run := read_dtcs s in
  run.2 = inr tt /\
  (forall cmd, In cmd (queries run.1.1) ->
     In cmd [commands "GET_DTC"; commands "GET_PENDING_DTC"; commands "PENDING_DTC"]) /\
  match conn_query (commands "GET_DTC") s with
  | (inl e, s') =>
      run = ([ Print (PyStr.nl +:+ PyStr.repeat "=" 50);
               Print "DIAGNOSTIC TROUBLE CODES";
               Print (PyStr.repeat "=" 50);
               Query (commands "GET_DTC") (inl e);
               Print ("Error reading DTCs: " +:+ str_exn e) ], s', inr tt)
  | (inr None, _) | (inr (Some (VCodes _)), _) =>
      queries run.1.1 = commands "GET_DTC" :: pending_command has_command
  | _ => True
  end.
Proof.
  cbn zeta. split; [apply catches_unit, read_dtcs_catches|]. split.
  - intros cmd Hin.
    destruct (In_dec (fun a b : OBDCommand => ltac:(decide equality; solve [apply string_dec | apply Z.eq_dec | decide equality]))
                cmd [commands "GET_DTC"; commands "GET_PENDING_DTC"; commands "PENDING_DTC"])
      as [Hyes|Hno]; [exact Hyes|].
    exfalso. revert Hin. apply not_among_queries.
    apply read_dtcs_always; try (intros; intros ? ?; discriminate).
    intros c outcome Hc outcome' [= -> _]. contradiction.
  - rewrite read_dtcs_unfold, !print_then_run. cbn [fst snd].
    destruct (conn_query (commands "GET_DTC") s) as [[e|[[x|str|pids|codes|attrs]|]] s'] eqn:Hget;
      try exact I.
    + rewrite (try_query_raised _ _ _ _ _ _ Hget). reflexivity.
    + rewrite (try_query_returned _ _ _ _ _ _ Hget). cbn [fst snd].
      rewrite !queries_print. change (queries (Query ?c ?r :: ?t)) with (c :: queries t).
      f_equal.
      assert (exists t s1, stored_part (Some (VCodes codes)) s' = (t, s1, inr tt) /\ queries t = [])
        as (t & s1 & Hstored & Hq).
      { cbn beta iota. destruct (truthy (Some (VCodes codes))).
        - rewrite print_codes_found_run. do 2 eexists. split; [reflexivity|].
          change (queries (Print ?l :: ?t)) with (queries t).
          clear Hget. induction codes as [|c codes IH]; [reflexivity | exact IH].
        - do 2 eexists. split; reflexivity. }
      rewrite (try_bind_returned _ _ _ _ _ _ _ Hstored). cbn [fst snd].
      rewrite queries_app, Hq, try_except_caught by apply pending_part_catches.
      apply pending_part_asks.
    + rewrite (try_query_returned _ _ _ _ _ _ Hget). cbn [fst snd].
      rewrite !queries_print. change (queries (Query ?c ?r :: ?t)) with (c :: queries t).
      f_equal.
      rewrite (try_bind_returned (print "No stored DTCs found") _ _ _ tt s' s' eq_refl).
      cbn [fst snd]. rewrite queries_app, try_except_caught by apply pending_part_catches.
      apply pending_part_asks.
Qed.

Lemma stored_part_run (codes : list (string * string)) (s : St) :
  exists t, stored_part (Some (VCodes codes)) s = (t, s, inr tt) /\
    queries t = [] /\
    printed t = codes_report (fun n => "Found " +:+ n +:+ " stored codes:")
                  "No stored DTCs found" codes.
Proof.
  destruct codes as [|c codes].
  - eexists. split; [reflexivity|]. split; reflexivity.
  - cbn beta iota. change (truthy (Some (VCodes (c :: codes)))) with true. cbn iota.
    rewrite print_codes_found_run. eexists. split; [reflexivity|]. split.
    + rewrite queries_print. generalize (c :: codes). intros l.
      induction l as [|x l IH]; [reflexivity | exact IH].
    + rewrite printed_print, printed_prints. reflexivity.
Qed.

Lemma pending_part_run cmd (codes : list (string * string)) (s s' : St) :
  pending_command has_command = [cmd] ->
  conn_query cmd s = (inr (Some (VCodes codes)), s') ->
  exists t, pending_part s = (Query cmd (inr (Some (VCodes codes))) :: t, s', inr tt) /\
    printed t = codes_report (fun n => PyStr.nl +:+ "Found " +:+ n +:+ " pending codes:")
                  "No pending DTCs found" codes.
Proof.
  intros Hcmd Hq.
  assert (forall c, c = cmd ->
            exists t,
              try_except
                (pending_response <- (r <- query conn_query c;; ret (Some r));;
                 match pending_response with
                 | Some (Some value) =>
                     if truthy (Some value) then
                       elm327_tsx_reader.print_codes_found
                         (fun n => PyStr.nl +:+ "Found " +:+ n +:+ " pending codes:") value
                     else print "No pending DTCs found"
                 | Some None => print "No pending DTCs found"
                 | None => ret tt
                 end)
                (fun e => print ("Could not read pending DTCs: " +:+ str_exn e)) s
              = (Query cmd (inr (Some (VCodes codes))) :: t, s', inr tt) /\
              printed t = codes_report
                            (fun n => PyStr.nl +:+ "Found " +:+ n +:+ " pending codes:")
                            "No pending DTCs found" codes) as Hrun.
  { intros c ->. unfold try_except at 1, bind at 1 2, query at 1, ret at 1.
    rewrite Hq. cbn [fst snd app].
    destruct codes as [|c codes].
    - eexists. split; [reflexivity|]. reflexivity.
    - change (truthy (Some (VCodes (c :: codes)))) with true. cbn iota.
      rewrite print_codes_found_run. eexists. split; [reflexivity|].
      rewrite printed_print, printed_prints. reflexivity. }
  unfold pending_command in Hcmd.
  destruct (has_command "GET_PENDING_DTC"); [|destruct (has_command "PENDING_DTC")].
  - apply Hrun. congruence.
  - apply Hrun. congruence.
  - discriminate.
Qed.

(** X13. When GET_DTC answers with a list of stored codes and the pending
    command the library offers answers with a list of pending codes,
    [read_dtcs] sends exactly these two queries, returns normally and prints,
    after the banner, the stored report and then the pending report: for a
    list without codes the line that says none were found, otherwise the
    number of codes and one line per code, in the order received. *)
Theorem read_dtcs_report cmd (stored pending : list (string * string)) (s s1 s2 : St) :
  conn_query (commands "GET_DTC") s = (inr (Some (VCodes stored)), s1) ->
  pending_command has_command = [cmd] ->
  conn_query cmd s1 = (inr (Some (VCodes pending)), s2) ->
  let run := read_dtcs s in
  run.2 = inr tt /\ run.1.2 = s2 /\
  queries run.1.1 = [commands "GET_DTC"; cmd] /\
  printed run.1.1
  = [ PyStr.nl +:+ PyStr.repeat "=" 50; "DIAGNOSTIC TROUBLE CODES"; PyStr.repeat "=" 50 ]
    ++ codes_report (fun n => "Found " +:+ n +:+ " stored codes:")
         "No stored DTCs found" stored
    ++ codes_report (fun n => PyStr.nl +:+ "Found " +:+ n +:+ " pending codes:")
         "No pending DTCs found" pending.
Proof.
  intros Hget Hcmd Hpending. cbn zeta.
  destruct (stored_part_run stored s1) as (t1 & Hstored & Hq1 & Hp1).
  destruct (pending_part_run cmd pending s1 s2 Hcmd Hpending) as (t2 & Hrun & Hp2).
  rewrite read_dtcs_unfold, !print_then_run. cbn [fst snd].
  rewrite (try_query_returned _ _ _ _ _ _ Hget). cbn [fst snd].
  rewrite (try_bind_returned _ _ _ _ _ _ _ Hstored). cbn [fst snd].
  rewrite try_except_caught by apply pending_part_catches.
  rewrite Hrun. cbn [fst snd].
  split; [reflexivity|]. split; [reflexivity|]. split.
  - rewrite !queries_print. change (queries (Query ?c ?r :: ?t)) with (c :: queries t).
    rewrite queries_app, Hq1. cbn [app].
    change (queries (Query ?c ?r :: ?t)) with (c :: queries t).
    f_equal. f_equal.
    pose proof (pending_part_asks s1) as Hasks. rewrite Hrun, Hcmd in Hasks.
    cbn [fst snd] in Hasks. change (queries (Query ?c ?r :: ?t)) with (c :: queries t) in Hasks.
    congruence.
  - rewrite !printed_print, printed_query, printed_app, printed_query, Hp1, Hp2.
    reflexivity.
Qed.

Lemma unanswered_app (t1 t2 : list Event) : unanswered (t1 ++ t2) = unanswered t1 ++ unanswered t2.
Proof. apply omap_app. Qed.

Lemma read_vehicle_info_loop_run (cmds : list (OBDCommand * string)) (s : St) :
  let run := elm327_tsx_reader.read_vehicle_info_loop conn_query show cmds s in
  run.2 = inr tt /\
  queries run.1.1 = map fst cmds /\
  length (printed run.1.1) + length (unanswered run.1.1) = length cmds.
Proof.
  cbn zeta. revert s. induction cmds as [|[cmd d] cmds IH]; intros s.
  - repeat split.
  - unfold elm327_tsx_reader.read_vehicle_info_loop. cbn [for_each].
    fold (elm327_tsx_reader.read_vehicle_info_loop conn_query show cmds).
    rewrite bind_run.
    assert (exists t s', 
      try_except
        (response <- query conn_query cmd;;
         match response with
         | Some value => print (PyStr.ljust 20 d +:+ ": " +:+ show value)
         | None => ret tt
         end)
        (fun e => print (PyStr.ljust 20 d +:+ ": Error - " +:+ str_exn e)) s
      = (t, s', inr tt) /\ queries t = [cmd] /\
        length (printed t) + length (unanswered t) = 1) as (t & s' & -> & Hq & Hn).
    { unfold try_except, bind, query, ret, print, emit.
      destruct (conn_query cmd s) as [[e|[v|]] s']; cbn [fst snd app];
        do 2 eexists; (split; [reflexivity|]); split; reflexivity. }
    cbn [fst snd]. destruct (IH s') as (Hr & Hqs & Hns).
    split; [exact Hr|]. split.
    + rewrite queries_app, Hq, Hqs. reflexivity.
    + rewrite printed_app, unanswered_app, !length_app. cbn [length map fst]. lia.
Qed.

(** X14. [read_vehicle_info] never lets an exception escape and asks for
    the VIN, the adapter version and the battery voltage, in this order and
    once each, whatever the answers.  A request that comes back without a
    value is passed over in silence: after the three lines of the banner
    there is one line for every request but those without a value. *)
Theorem read_vehicle_info_lines (s : St) :
  let run := read_vehicle_info s in
  run.2 = inr tt /\
  queries run.1.1 = [commands "VIN"; commands "ELM_VERSION"; commands "ELM_VOLTAGE"] /\
  length (printed run.1.1) + length (unanswered run.1.1) = 3 + 3.
Proof.
  cbn zeta. unfold elm327_tsx_reader.read_vehicle_info. rewrite !print_then_run.
  cbn [fst snd].
  destruct (read_vehicle_info_loop_run elm327_tsx_reader.info_commands s) as (Hr & Hq & Hn).
  split; [exact Hr|]. split.
  - rewrite !queries_print. exact Hq.
  - rewrite !printed_print. cbn [length] in *. 
    change (unanswered (Print ?a :: Print ?b :: Print ?c :: ?t)) with (unanswered t).
    change (length elm327_tsx_reader.info_commands) with 3%nat in Hn. lia.
Qed.

(** *** main: the menu *)

Lemma two_step_ind (Q : list string -> Prop) :
  Q [] ->
  (forall line rest,
      Q rest -> (forall answer rest', rest = answer :: rest' -> Q rest') -> Q (line :: rest)) ->
  forall stdin, Q stdin.
Proof.
  intros Hnil Hstep stdin.
  enough (Q stdin /\ forall x l, stdin = x :: l -> Q l) as [H _] by exact H.
  induction stdin as [|x l [IH1 IH2]].
  - split; [exact Hnil | discriminate].
  - split; [apply Hstep; assumption|]. intros y l' [= _ <-]. exact IH1.
Qed.

(** what a round of the menu does once the choice has been typed *)
Local Abbreviation round_of line rest :=
  (let choice := strip line in
   if String.eqb choice "1" then read_dtcs;; menu_loop rest
   else if String.eqb choice "2" then read_live_data;; menu_loop rest
   else if String.eqb choice "3" then
     match rest%list with
     | [] => elm327_tsx_reader.clear_dtcs_at_eof
     | answer :: rest' => clear_dtcs answer;; menu_loop rest'
     end
   else if String.eqb choice "4" then read_vehicle_info;; menu_loop rest
   else if String.eqb choice "5" then ret tt
   else print "Invalid choice. Please enter 1-5.";; menu_loop rest).

Lemma input_then_run {A} prompt answer (f : string -> M St A) (s : St) :
  (typed <- input prompt answer;; f typed) s
  = (Input prompt answer :: (f answer s).1.1, (f answer s).1.2, (f answer s).2).
Proof. unfold bind, input. destruct (f answer s) as [[t s'] [e|a]]; reflexivity. Qed.

Lemma menu_loop_nil (s : St) :
  menu_loop [] s = (map Print elm327_tsx_reader.menu, s, inl eof).
Proof. reflexivity. Qed.

Lemma menu_loop_step line rest (s : St) :
  menu_loop (line :: rest) s
  = (map Print elm327_tsx_reader.menu
       ++ Input (PyStr.nl +:+ "Enter choice (1-5): ") line :: (round_of line rest s).1.1,
     (round_of line rest s).1.2, (round_of line rest s).2).
Proof.
  cbn [elm327_tsx_reader.menu_loop]. rewrite bind_run, for_each_print_run. cbn [fst snd].
  rewrite input_then_run. reflexivity.
Qed.

Lemma then_run {A} (m : M St unit) (k : M St A) (s : St) :
  catches m ->
  (m;; k) s = ((m s).1.1 ++ (k (m s).1.2).1.1, (k (m s).1.2).1.2, (k (m s).1.2).2).
Proof. intros Hm. rewrite bind_run, (catches_unit m s Hm). reflexivity. Qed.

Lemma clear_dtcs_at_eof_run (s : St) :
  elm327_tsx_reader.clear_dtcs_at_eof s
  = ([ Print (PyStr.nl +:+ PyStr.repeat "=" 50); Print "CLEARING DTCs";
       Print (PyStr.repeat "=" 50) ], s, inl eof).
Proof. reflexivity. Qed.


Lemma menu_loop_always (P : Event -> Prop) (stdin : list string) :
  (forall line, P (Print line)) ->
  (forall prompt answer, P (Input prompt answer)) ->
  (forall seconds, P (Sleep seconds)) ->
  (forall cmd outcome, P (Query cmd outcome)) ->
  always P (menu_loop stdin).
Proof.
  intros P_print P_input P_sleep P_query.
  induction stdin as [|line rest IH IH2] using two_step_ind.
  - intros s. rewrite menu_loop_nil. cbn [fst snd].
    induction elm327_tsx_reader.menu; constructor; auto.
  - cbn [elm327_tsx_reader.menu_loop].
    apply always_bind; [apply always_for_each; intros; apply always_emit, P_print|].
    intros _. apply always_bind; [apply always_input, P_input|]. intros typed.
    cbn zeta.
    destruct (String.eqb (strip typed) "1");
      [apply always_bind; [apply read_dtcs_always; auto | intros _; exact IH]|].
    destruct (String.eqb (strip typed) "2");
      [apply always_bind; [apply read_live_data_always; auto | intros _; exact IH]|].
    destruct (String.eqb (strip typed) "3").
    { destruct rest as [|answer rest'].
      - intros s. rewrite clear_dtcs_at_eof_run. cbn [fst snd]. repeat constructor; apply P_print.
      - apply always_bind; [apply clear_dtcs_always; auto|].
        intros _. exact (IH2 answer rest' eq_refl). }
    destruct (String.eqb (strip typed) "4");
      [apply always_bind; [apply read_vehicle_info_always; auto | intros _; exact IH]|].
    destruct (String.eqb (strip typed) "5"); [apply always_ret|].
    apply always_bind; [apply always_emit, P_print | intros _; exact IH].
Qed.

Lemma final_catches : catches (St:=St) (close;; print "Connection closed").
Proof. intros s. exists tt. reflexivity. Qed.

Lemma main_run (stdin : list string) (s : St) :
  main stdin s
  = ((menu_loop stdin s).1.1 ++ [Close; Print "Connection closed"],
     (menu_loop stdin s).1.2, (menu_loop stdin s).2).
Proof.
  unfold elm327_tsx_reader.main. rewrite try_finally_run by apply final_catches.
  reflexivity.
Qed.

(** X15. Whatever the user types and whatever the connection answers,
    [main] closes the connection exactly once, at the very end: its trace is
    the trace of the menu, which holds no close, followed by the close and
    the line that reports it.  This is so when the menu ends by choice 5 and
    also when the input ends before that. *)
Theorem main_closes_connection_last (stdin : list string) (s : St) :
  exists t,
    (main stdin s).1.1 = t ++ [Close; Print "Connection closed"] /\
    Forall (fun ev => ev <> Close) t.
Proof.
  exists (menu_loop stdin s).1.1. split; [rewrite main_run; reflexivity|].
  apply menu_loop_always; discriminate.
Qed.


Lemma in_queries_then {A} (cmd : OBDCommand) (m : M St unit) (k : M St A) (s : St) :
  catches m ->
  In cmd (queries ((m;; k) s).1.1) ->
  In cmd (queries (m s).1.1) \/ In cmd (queries (k (m s).1.2).1.1).
Proof.
  intros Hm. rewrite then_run by exact Hm. cbn [fst snd].
  rewrite queries_app, in_app_iff. tauto.
Qed.

Lemma queries_prints (lines : list string) : queries (map Print lines) = [].
Proof. induction lines as [|l lines IH]; [reflexivity | exact IH]. Qed.

Lemma clear_dtcs_asked answer (s : St) :
  In (commands "CLEAR_DTC") (queries (clear_dtcs answer s).1.1) ->
  PyStr.lower answer = "y".
Proof.
  unfold elm327_tsx_reader.clear_dtcs. rewrite !print_then_run. cbn [fst snd].
  rewrite !queries_print, input_then_run. cbn [fst snd].
  destruct (String.eqb (PyStr.lower answer) "y") eqn:Hy.
  - intros _. apply String.eqb_eq. exact Hy.
  - cbn. intros [].
Qed.

Lemma menu_loop_clears (stdin : list string) :
  forall s : St,
    In (commands "CLEAR_DTC") (queries (menu_loop stdin s).1.1) ->
    exists before choice answer after,
      stdin = before ++ choice :: answer :: after /\
      strip choice = "3" /\ PyStr.lower answer = "y".
Proof.
  induction stdin as [|line rest IH IH2] using two_step_ind; intros s.
  - rewrite menu_loop_nil. cbn [fst snd]. rewrite queries_prints. intros [].
  - assert (forall s',
               In (commands "CLEAR_DTC") (queries (menu_loop rest s').1.1) ->
               exists before choice answer after,
                 line :: rest = before ++ choice :: answer :: after /\
                 strip choice = "3" /\ PyStr.lower answer = "y") as IH'.
    { intros s' H. destruct (IH s' H) as (before & choice & answer & after & -> & H3 & Hy).
      exists (line :: before), choice, answer, after. repeat split; assumption. }
    assert (forall (m : M St unit),
               catches m ->
               always (not_query_of (commands "CLEAR_DTC")) m ->
               In (commands "CLEAR_DTC") (queries ((m;; menu_loop rest) s).1.1) ->
               exists before choice answer after,
                 line :: rest = before ++ choice :: answer :: after /\
                 strip choice = "3" /\ PyStr.lower answer = "y") as Hother.
    { intros m Hc Hnever [H|H]%in_queries_then; [|exact (IH' _ H) | exact Hc].
      exfalso. revert H. apply not_among_queries, Hnever. }
    assert (forall cmd cmds, In cmd cmds -> cmd <> commands "CLEAR_DTC" ->
               forall outcome, not_query_of (commands "CLEAR_DTC") (Query cmd outcome)) as Hq.
    { intros cmd cmds _ Hne outcome outcome' [= ->]. congruence. }
    rewrite menu_loop_step. cbn [fst snd]. cbn zeta.
    rewrite queries_app, queries_prints. cbn [app].
    change (queries (Input ?p ?a :: ?t)) with (queries t).
    destruct (String.eqb (strip line) "1").
    { apply Hother; [apply read_dtcs_catches|].
      apply read_dtcs_always; try (intros; intros ? ?; discriminate).
      intros cmd outcome Hin. apply (Hq cmd _ Hin).
      cbn in Hin. intuition (subst; discriminate). }
    destruct (String.eqb (strip line) "2").
    { apply Hother; [apply read_live_data_catches|].
      apply read_live_data_always; try (intros; intros ? ?; discriminate).
      intros cmd outcome Hin. apply (Hq cmd _ Hin).
      cbn in Hin. intuition (subst; discriminate). }
    destruct (String.eqb (strip line) "3") eqn:Hthree.
    { destruct rest as [|answer rest'].
      - rewrite clear_dtcs_at_eof_run. cbn. intros [].
      - intros [H|H]%in_queries_then; [| |apply clear_dtcs_catches].
        + exists [], line, answer, rest'. split; [reflexivity|].
          split; [apply String.eqb_eq; exact Hthree | exact (clear_dtcs_asked _ _ H)].
        + destruct (IH2 answer rest' eq_refl _ H)
            as (before & choice & answer' & after & -> & H3 & Hy).
          exists (line :: answer :: before), choice, answer', after.
          repeat split; assumption. }
    destruct (String.eqb (strip line) "4").
    { apply Hother; [apply read_vehicle_info_catches|].
      apply read_vehicle_info_always; try (intros; intros ? ?; discriminate).
      intros cmd outcome Hin. apply (Hq cmd _ Hin).
      cbn in Hin. intuition (subst; discriminate). }
    destruct (String.eqb (strip line) "5"); [cbn; intros []|].
    rewrite print_then_run. cbn [fst snd]. rewrite queries_print. apply IH'.
Qed.

(** X17. The menu never erases the trouble codes on its own: [main] sends
    CLEAR_DTC only when the typed lines hold a choice that is 3 up to
    surrounding white space, directly followed by an answer that is y or Y.
    None of the other menu actions sends it, whatever the connection
    answers. *)
Theorem main_clears_only_on_confirmation (stdin : list string) (s : St) :
  In (commands "CLEAR_DTC") (queries (main stdin s).1.1) ->
  exists before choice answer after,
    stdin = before ++ choice :: answer :: after /\
    strip choice = "3" /\ PyStr.lower answer = "y".
Proof.
  rewrite main_run. cbn [fst snd]. rewrite queries_app. cbn [queries app].
  change (queries [Close; Print "Connection closed"]) with (@nil OBDCommand).
  rewrite app_nil_r. apply menu_loop_clears.
Qed.

End Elm327.

(** two stored codes and no pending one, read through GET_PENDING_DTC *)
Lemma read_dtcs_report_witness :
  printed (elm327_tsx_reader.read_dtcs
             (Bench.vehicle
                [ ("GET_DTC", inr (Some (VCodes [ ("P0420", "Catalyst System Efficiency Below Threshold");
                                                 ("P0171", "System Too Lean") ])));
                  ("GET_PENDING_DTC", inr (Some (VCodes []))) ])
             Bench.all_commands 0%nat).1.1
  = [ PyStr.nl +:+ PyStr.repeat "=" 50; "DIAGNOSTIC TROUBLE CODES"; PyStr.repeat "=" 50;
      "Found 2 stored codes:";
      "  P0420: Catalyst System Efficiency Below Threshold";
      "  P0171: System Too Lean";
      "No pending DTCs found" ].
Proof.
  pose proof (read_dtcs_report
                (Bench.vehicle
                   [ ("GET_DTC", inr (Some (VCodes [ ("P0420", "Catalyst System Efficiency Below Threshold");
                                                    ("P0171", "System Too Lean") ])));
                     ("GET_PENDING_DTC", inr (Some (VCodes []))) ])
                Bench.all_commands (commands "GET_PENDING_DTC") _ _ 0%nat 1%nat 2%nat
                eq_refl eq_refl eq_refl) as H.
  cbn zeta in H. destruct H as (_ & _ & _ & H). rewrite H. reflexivity.
Defined.

(** the user reads the codes, clears them and leaves *)
Lemma main_clears_only_on_confirmation_witness :
  exists before choice answer after,
    ["1"; " 3 "; "Y"; "5"] = before ++ choice :: answer :: after /\
    strip choice = "3" /\ PyStr.lower answer = "y".
Proof.
  apply (main_clears_only_on_confirmation (Bench.vehicle []) Bench.show "12:00:00"
           Bench.all_commands ["1"; " 3 "; "Y"; "5"] 0%nat).
  vm_compute. auto.
Defined.

(** ** po4220V2.py: main *)

Section P0420Main.
Context {St : Type}.
Variable conn_query : OBDCommand -> St -> (Exn + option PyValue) * St.
Variable show : PyValue -> string.
Variable has_command : string -> bool.

Local Abbreviation read_o2_sensors := (po4220V2.read_o2_sensors conn_query show has_command).
Local Abbreviation read_fuel_trim := (po4220V2.read_fuel_trim conn_query show has_command).
Local Abbreviation read_catalyst_temp :=
  (po4220V2.read_catalyst_temp conn_query show has_command).
Local Abbreviation live_analysis := (po4220V2.live_analysis conn_query show has_command).
Local Abbreviation p0420_main := (po4220V2.main conn_query show has_command).

Lemma asks_analyze_trim (trim_percent : PyValue) :
  asks (St:=St) (po4220V2.analyze_trim trim_percent) [].
Proof. unfold po4220V2.analyze_trim. auto 20 with py. Qed.

Lemma read_fuel_trim_loop_asks cmds :
  asks (po4220V2.read_fuel_trim_loop conn_query show cmds) (map fst cmds).
Proof.
  unfold po4220V2.read_fuel_trim_loop.
  rewrite <- concat_map_singleton.
  apply asks_for_each; intros [cmd description].
  - apply asks_try_query; [|auto with py].
    intros [value|]; [|auto with py].
    apply asks_bind_nil; [auto with py|]. intros _. apply asks_analyze_trim.
  - auto with py.
Qed.

Lemma read_fuel_trim_asks :
  asks read_fuel_trim (map fst (po4220V2.fuel_commands has_command)).
Proof.
  unfold po4220V2.read_fuel_trim.
  do 5 apply asks_after_print.
  apply asks_before_print;
    [apply read_fuel_trim_loop_asks | apply read_fuel_trim_loop_catches | auto 10 with py].
Qed.

Lemma read_catalyst_temp_queries (s : St) :
  exists later,
    queries (read_catalyst_temp s).1.1 ++ later
    = map commands (List.filter has_command po4220V2.temp_commands).
Proof.
  unfold po4220V2.read_catalyst_temp. rewrite !print_then_run, bind_run. cbn [fst snd].
  rewrite !queries_print. unfold po4220V2.read_catalyst_temp_loop.
  destruct (read_catalyst_temp_loop_run conn_query show has_command
              po4220V2.temp_commands false s)
    as (flag & later & Hr & _ & _ & Hq & _).
  exists later. rewrite Hr, <- Hq. f_equal.
  destruct (negb flag); cbn [fst snd]; rewrite queries_app; cbn; apply app_nil_r.
Qed.

Lemma analyze_p0420_run (s : St) :
  exists lines, po4220V2.analyze_p0420 s = (map Print lines, s, inr tt).
Proof. eexists. apply for_each_print_run. Qed.

Lemma p0420_recommendations_run (s : St) :
  exists lines, po4220V2.p0420_recommendations s = (map Print lines, s, inr tt).
Proof. eexists. apply for_each_print_run. Qed.

Section Events.
Variable P : Event -> Prop.
Hypothesis P_print : forall line, P (Print line).
Hypothesis P_input : forall prompt answer, P (Input prompt answer).
Hypothesis P_query : forall cmd outcome, P (Query cmd outcome).

Lemma live_analysis_always (stdin : list string) : always P (live_analysis stdin).
Proof.
  unfold po4220V2.live_analysis, po4220V2.analyze_p0420, po4220V2.p0420_recommendations,
    po4220V2.read_o2_sensors, po4220V2.read_fuel_trim, po4220V2.read_catalyst_temp,
    po4220V2.read_o2_sensors_loop, po4220V2.read_fuel_trim_loop,
    po4220V2.read_catalyst_temp_loop, po4220V2.read_catalyst_temp_body,
    po4220V2.analyze_voltage, po4220V2.analyze_trim.
  apply always_bind; [apply always_for_each; intros; apply always_emit, P_print|].
  intros _. destruct stdin as [|first [|second rest]]; [apply always_raise| |].
  - auto 10 with trace.
  - do 3 (apply always_bind; [auto with trace | intros _]).
    apply always_bind.
    { do 5 (apply always_bind; [auto with trace | intros _]).
      apply always_bind; [|auto 10 with trace].
      apply always_for_each. intros [[cmd description] location].
      apply always_try_except; [|auto with trace].
      apply always_bind; [auto with trace|]. intros [value|]; [|auto with trace].
      apply always_bind; [auto with trace|]. intros _.
      destruct (_ || _); auto 10 with trace. }
    intros _. apply always_bind.
    { do 5 (apply always_bind; [auto with trace | intros _]).
      apply always_bind; [|auto 10 with trace].
      apply always_for_each. intros [cmd description].
      apply always_try_except; [|auto with trace].
      apply always_bind; [auto with trace|]. intros [value|]; [|auto with trace].
      auto 20 with trace. }
    intros _. apply always_bind.
    { do 3 (apply always_bind; [auto with trace | intros _]).
      apply always_bind.
      - apply always_for_break. intros found cmd_name.
        destruct (has_command cmd_name); [|auto with trace].
        apply always_try_except; [|auto with trace].
        apply always_bind; [auto with trace|]. intros [value|]; [|auto with trace].
        apply always_bind; [auto with trace|]. intros _.
        apply always_bind; [|auto with trace].
        destruct (py_getattr value "celsius"); [|auto with trace].
        destruct (Qltb 800 q); [auto with trace|].
        destruct (Qltb q 300); auto with trace.
      - intros found. destruct (negb found); auto with trace. }
    intros _. apply always_for_each; intros; apply always_emit, P_print.
Qed.

End Events.

Lemma live_analysis_started (first second : string) (rest : list string) (s : St) :
  let run := live_analysis (first :: second :: rest) s in
  run.2 = inr tt /\
  exists temp_asked later,
    queries run.1.1
    = map (fun c => c.1.1) (po4220V2.o2_commands has_command)
      ++ map fst (po4220V2.fuel_commands has_command) ++ temp_asked /\
    temp_asked ++ later = map commands (List.filter has_command po4220V2.temp_commands).
Proof.
  cbn zeta. unfold po4220V2.live_analysis.
  destruct (analyze_p0420_run s) as [lines1 H1].
  rewrite bind_run, H1. cbn [fst snd].
  rewrite input_then_run, print_then_run, input_then_run. cbn [fst snd].
  rewrite (then_run read_o2_sensors) by apply read_o2_sensors_catches. cbn [fst snd].
  set (s1 := (read_o2_sensors s).1.2).
  rewrite (then_run read_fuel_trim) by apply read_fuel_trim_catches. cbn [fst snd].
  set (s2 := (read_fuel_trim s1).1.2).
  rewrite (then_run read_catalyst_temp) by apply read_catalyst_temp_catches.
  cbn [fst snd]. set (s3 := (read_catalyst_temp s2).1.2).
  destruct (p0420_recommendations_run s3) as [lines2 H2]. rewrite H2. cbn [fst snd].
  split; [reflexivity|].
  destruct (read_catalyst_temp_queries s2) as [later Hlater].
  exists (queries (read_catalyst_temp s2).1.1), later. split; [|exact Hlater].
  rewrite queries_app, queries_prints. cbn [app].
  change (queries (Input ?p ?a :: ?t)) with (queries t). rewrite queries_print.
  change (queries (Input ?p ?a :: ?t)) with (queries t).
  rewrite !queries_app, queries_prints, app_nil_r.
  rewrite (read_o2_sensors_asks conn_query show has_command s).
  unfold s1. rewrite (read_fuel_trim_asks _). reflexivity.
Qed.

Lemma p0420_main_run (stdin : list string) (s : St) :
  p0420_main true stdin s
  = (Print "P0420 CATALYST DIAGNOSTIC FOR 2009 ACURA TSX" :: Print (PyStr.repeat "=" 60)
       :: (live_analysis stdin s).1.1 ++ [Close],
     (live_analysis stdin s).1.2, (live_analysis stdin s).2).
Proof.
  unfold po4220V2.main. rewrite !print_then_run. cbn [negb fst snd].
  rewrite try_finally_run by (intros s'; exists tt; reflexivity). reflexivity.
Qed.

(** X18. With the car connected and both prompts answered, [main] of the
    P0420 tool returns normally and only reads: it queries the oxygen
    sensors in list order, then the fuel trims in list order, then an initial
    part of the catalyst-temperature candidates the library has, and nothing
    else; the last thing it does is close the connection. *)
Theorem p0420_session_only_reads (first second : string) (rest : list string) (s : St) :
  let run := p0420_main true (first :: second :: rest) s in
  run.2 = inr tt /\
  exists t temp_asked later,
    run.1.1 = t ++ [Close] /\
    queries t
    = map (fun c => c.1.1) (po4220V2.o2_commands has_command)
      ++ map fst (po4220V2.fuel_commands has_command) ++ temp_asked /\
    temp_asked ++ later = map commands (List.filter has_command po4220V2.temp_commands).
Proof.
  cbn zeta. rewrite p0420_main_run. cbn [fst snd].
  destruct (live_analysis_started first second rest s) as (Hr & asked & later & Hq & Hlater).
  split; [exact Hr|].
  exists (Print "P0420 CATALYST DIAGNOSTIC FOR 2009 ACURA TSX" :: Print (PyStr.repeat "=" 60)
            :: (live_analysis (first :: second :: rest) s).1.1), asked, later.
  split; [reflexivity|]. split; [|exact Hlater].
  rewrite !queries_print. exact Hq.
Qed.

(** X19. [main] of the P0420 tool closes the connection exactly when the
    car was connected, and then exactly once, as its last action, whatever
    the connection answers.  When the input ends before both prompts are
    answered, the end of input escapes and no query has been sent, yet the
    connection is closed all the same.  When the car is not connected, [main]
    prints its two lines of advice, sends no query and closes nothing. *)
Theorem p0420_main_closes_connection (car_connected : bool) (stdin : list string) (s : St) :
  let run := p0420_main car_connected stdin s in
  if car_connected then
    exists t,
      run.1.1 = t ++ [Close] /\ Forall (fun ev => ev <> Close) t /\
      match stdin with
      | _ :: _ :: _ => run.2 = inr tt
      | _ => run.2 = inl eof /\ queries t = []
      end
  else
    run = ([ Print "P0420 CATALYST DIAGNOSTIC FOR 2009 ACURA TSX"; Print (PyStr.repeat "=" 60);
             Print "✗ Could not connect to vehicle";
             Print "Make sure engine is running and warmed up for best results" ],
           s, inr tt).
Proof.
  cbn zeta. destruct car_connected; [|reflexivity].
  rewrite p0420_main_run. cbn [fst snd].
  exists (Print "P0420 CATALYST DIAGNOSTIC FOR 2009 ACURA TSX" :: Print (PyStr.repeat "=" 60)
            :: (live_analysis stdin s).1.1).
  split; [reflexivity|]. split.
  - do 2 (constructor; [discriminate|]).
    apply live_analysis_always; discriminate.
  - destruct stdin as [|first [|second rest]].
    + split; reflexivity.
    + split; reflexivity.
    + apply live_analysis_started.
Qed.

End P0420Main.

(** ** po420_honda_spec.py: test_wideband_o2_sensors *)

Section Wideband.
Context {St : Type}.
Variable conn_query : OBDCommand -> St -> (Exn + option PyValue) * St.
Variable show : PyValue -> string.

Local Abbreviation test_wideband_loop := (po420_honda_spec.test_wideband_loop conn_query show).

Lemma test_wideband_loop_run (pids : list (string * string)) (s : St) :
  let run := test_wideband_loop pids s in
  run.2 = inr tt /\
  queries run.1.1 = map (fun p => po420_honda_spec.afr_cmd p.1 p.2) pids /\
  Forall2 (fun (p : string * string) line =>
             exists mark rest, line = mark +:+ " " +:+ p.2 +:+ ": " +:+ rest)
          pids (printed run.1.1).
Proof.
  cbn zeta. revert s. induction pids as [|[pid description] pids IH]; intros s.
  - repeat split. constructor.
  - unfold po420_honda_spec.test_wideband_loop. cbn [for_each].
    fold (test_wideband_loop pids). rewrite bind_run.
    assert (exists mark rest s',
      try_except
        (response <- query conn_query (po420_honda_spec.afr_cmd pid description);;
         match response with
         | Some value => print ("✓ " +:+ description +:+ ": " +:+ show value)
         | None => print ("✗ " +:+ description +:+ ": No data")
         end)
        (fun e => print ("✗ " +:+ description +:+ ": Error - " +:+ str_exn e)) s
      = ([ Query (po420_honda_spec.afr_cmd pid description)
             (conn_query (po420_honda_spec.afr_cmd pid description) s).1;
           Print (mark +:+ " " +:+ description +:+ ": " +:+ rest) ], s', inr tt))
      as (mark & rest & s' & ->).
    { unfold try_except, bind, query, print, emit.
      destruct (conn_query (po420_honda_spec.afr_cmd pid description) s) as [[e|[v|]] s'];
        cbn [fst snd app].
      - exists "✗", ("Error - " +:+ str_exn e), s'. reflexivity.
      - exists "✓", (show v), s'. reflexivity.
      - exists "✗", "No data", s'. reflexivity. }
    cbn [fst snd]. destruct (IH s') as (Hr & Hq & Hlines).
    split; [exact Hr|]. split.
    + cbn [app map fst snd]. change (queries (Query ?c ?r :: ?t)) with (c :: queries t).
      rewrite queries_print, Hq. reflexivity.
    + cbn [app]. rewrite printed_query, printed_print. constructor; [|exact Hlines].
      exists mark, rest. reflexivity.
Qed.

(** X20. [test_wideband_o2_sensors] never lets an exception escape and
    sends exactly four queries, whatever the answers: the raw PIDs 0124 to
    0127, in this order, each built as a two-byte command decoded as a
    percentage.  The EGR commands of its list [wideband_commands] are never
    sent.  After the five lines of the banner it prints one line per PID,
    which carries a mark and the description of the sensor. *)
Theorem test_wideband_only_afr_pids (s : St) :
  let run := po420_honda_spec.test_wideband_o2_sensors conn_query show s in
  run.2 = inr tt /\
  queries run.1.1
  = [ OBDCommand_ "AFR_0124" "AFR Bank 1 Sensor 1" "0124" 2 decoders_percent;
      OBDCommand_ "AFR_0125" "AFR Bank 1 Sensor 2" "0125" 2 decoders_percent;
      OBDCommand_ "AFR_0126" "AFR Bank 2 Sensor 1" "0126" 2 decoders_percent;
      OBDCommand_ "AFR_0127" "AFR Bank 2 Sensor 2" "0127" 2 decoders_percent ] /\
  Forall (fun entry : string * string => ~ In (commands entry.1) (queries run.1.1))
         po420_honda_spec.wideband_commands /\
  Forall2 (fun (p : string * string) line =>
             exists mark rest, line = mark +:+ " " +:+ p.2 +:+ ": " +:+ rest)
          po420_honda_spec.afr_pids (skipn 5 (printed run.1.1)).
Proof.
  cbn zeta. unfold po420_honda_spec.test_wideband_o2_sensors.
  rewrite !print_then_run. cbn [fst snd]. rewrite !queries_print, !printed_print.
  cbn [skipn].
  destruct (test_wideband_loop_run po420_honda_spec.afr_pids s) as (Hr & Hq & Hlines).
  split; [exact Hr|]. split; [exact Hq|]. split; [|exact Hlines].
  rewrite Hq. repeat constructor; cbn; intuition discriminate.
Qed.

End Wideband.

(** ** print_codes.py: list_all_commands *)

Section ListAll.
Context {St : Type}.
Variable obd_commands : gmap string print_codes.Attr.

Local Abbreviation collect_body := (print_codes.collect_body (St:=St) obd_commands).
Local Abbreviation is_command_attr := (fun (name : string) (attr : print_codes.Attr) =>
  PyStr.startswith "_" name = false /\ print_codes.has_name attr = true /\
  is_Some (print_codes.desc attr)).

Lemma collect_body_run (acc : gmap string print_codes.Attr) (name : string)
    (attr : print_codes.Attr) (s : St) :
  obd_commands !! name = Some attr ->
  exists acc',
    collect_body acc name s = ([], s, inr acc') /\
    forall k a, acc' !! k = Some a <->
                (k = name /\ a = attr /\ is_command_attr name attr) \/
                ((k = name -> ~ is_command_attr name attr) /\ acc !! k = Some a).
Proof.
  intros Ha. unfold print_codes.collect_body. rewrite Ha.
  assert (forall C : Prop, ~ C ->
          forall k a, acc !! k = Some a <->
            (k = name /\ a = attr /\ C) \/ ((k = name -> ~ C) /\ acc !! k = Some a)) as Hskip.
  { intros C Hno k a. split.
    - intros H. right. split; [intros _; exact Hno | exact H].
    - intros [(_ & _ & Hc)|(_ & H)]; [destruct (Hno Hc) | exact H]. }
  destruct (PyStr.startswith "_" name) eqn:Hpriv; cbn [negb].
  { exists acc. split; [reflexivity|]. apply Hskip. intros (H & _). discriminate H. }
  destruct (print_codes.has_name attr) eqn:Hname.
  2:{ exists acc. split; [reflexivity|]. apply Hskip. intros (_ & H & _). discriminate H. }
  destruct (print_codes.desc attr) as [d|] eqn:Hdesc.
  2:{ exists acc. split; [reflexivity|]. apply Hskip. intros (_ & _ & [d Hd]).
      discriminate Hd. }
  exists (<[name:=attr]> acc). split; [reflexivity|]. intros k a.
  rewrite lookup_insert_Some. split.
  - intros [[<- <-]|[Hne Hacc]]; [left | right].
    + repeat split; eauto.
    + split; [congruence | exact Hacc].
  - intros [(-> & -> & _)|(Hno & Hacc)]; [left; split; reflexivity|].
    right. split; [|exact Hacc]. intros <-. apply Hno; [reflexivity|].
    repeat split; eauto.
Qed.

Lemma collect_loop_run (names : list string) (acc : gmap string print_codes.Attr) (s : St) :
  Forall (fun name => is_Some (obd_commands !! name)) names ->
  (forall k a, acc !! k = Some a -> obd_commands !! k = Some a /\ is_command_attr k a) ->
  exists commands_dict,
    for_acc names acc collect_body s = ([], s, inr commands_dict) /\
    forall k a,
      commands_dict !! k = Some a <->
      (In k names /\ obd_commands !! k = Some a /\ is_command_attr k a) \/ acc !! k = Some a.
Proof.
  intros Hall. revert acc. induction Hall as [|n names [attr Ha] _ IH]; intros acc Hacc.
  - exists acc. split; [reflexivity|]. intros k a. cbn. tauto.
  - cbn [for_acc]. rewrite bind_run.
    destruct (collect_body_run acc n attr s Ha) as (acc' & -> & Hacc'). cbn [fst snd].
    destruct (IH acc') as (m & -> & Hm).
    { intros k a [(-> & -> & Hc)|(_ & H)]%Hacc'; [split; assumption | apply Hacc, H]. }
    exists m. split; [reflexivity|]. intros k a. rewrite Hm, Hacc'. cbn [In]. split.
    + intros [(Hin & Hl & Hc)|[(-> & -> & Hc)|(_ & H)]]; [left | left | right]; tauto.
    + intros [([<-|Hin] & Hl & Hc)|H].
      * right. left. split; [reflexivity|]. split; [congruence|].
        replace attr with a by congruence. exact Hc.
      * left. tauto.
      * destruct (Hacc k a H) as [Hl Hc].
        destruct (decide (k = n)) as [->|Hne].
        -- right. left. split; [reflexivity|]. split; [congruence|].
           replace attr with a by congruence. exact Hc.
        -- right. right. split; [intros; contradiction | exact H].
Qed.

Lemma commands_dict_run (s : St) :
  exists commands_dict,
    for_acc (print_codes.dir obd_commands) ∅ collect_body s = ([], s, inr commands_dict) /\
    forall k a, commands_dict !! k = Some a <->
                obd_commands !! k = Some a /\ is_command_attr k a.
Proof.
  destruct (collect_loop_run (print_codes.dir obd_commands) ∅ s) as (m & Hrun & Hm).
  - apply Forall_forall. intros name. apply dir_lookup.
  - intros k a H. rewrite lookup_empty in H. discriminate H.
  - exists m. split; [exact Hrun|]. intros k a. rewrite Hm, lookup_empty. split.
    + intros [(_ & H)|H]; [exact H | discriminate H].
    + intros [Hl Hc]. left. split; [|tauto].
      apply list_elem_of_In, dir_lookup. eexists. exact Hl.
Qed.

#[local] Instance name_le_trans : Transitive print_codes.name_le.
Proof. intros a b c. unfold print_codes.name_le. apply transitivity. Qed.

#[local] Instance name_le_total : Total print_codes.name_le.
Proof. intros a b. unfold print_codes.name_le. apply total, _. Qed.

Lemma sorted_items_In (m : gmap string print_codes.Attr) k a :
  In (k, a) (print_codes.sorted_items m) <-> m !! k = Some a.
Proof.
  unfold print_codes.sorted_items.
  rewrite <- list_elem_of_In, merge_sort_Permutation. apply elem_of_map_to_list.
Qed.

Lemma sorted_items_sorted (m : gmap string print_codes.Attr) :
  StronglySorted print_codes.name_le (print_codes.sorted_items m).
Proof. apply StronglySorted_merge_sort; apply _. Qed.

Lemma sorted_items_NoDup (m : gmap string print_codes.Attr) :
  NoDup (map fst (print_codes.sorted_items m)).
Proof.
  unfold print_codes.sorted_items.
  change (NoDup ((merge_sort print_codes.name_le (map_to_list m)).*1)).
  rewrite merge_sort_Permutation. apply NoDup_fst_map_to_list.
Qed.

Lemma sorted_names {A} (l : list (string * A)) :
  StronglySorted (fun a b => String.le a.1 b.1) l -> StronglySorted String.le (map fst l).
Proof.
  induction 1 as [|x l _ IH Hx]; cbn; constructor; [exact IH|].
  apply List.Forall_map. exact Hx.
Qed.

Lemma NoDup_names_filter {A} (f : string * A -> bool) (l : list (string * A)) :
  NoDup (map fst l) -> NoDup (map fst (List.filter f l)).
Proof.
  induction l as [|x l IH]; cbn; [auto|].
  intros [Hx Hl]%NoDup_cons. destruct (f x); [|auto].
  cbn. apply NoDup_cons. split; [|auto].
  intros (y & Hy & Hin)%list_elem_of_fmap. apply Hx, list_elem_of_fmap.
  exists y. split; [exact Hy|].
  apply list_elem_of_In. apply list_elem_of_In, List.filter_In in Hin. tauto.
Qed.

(** the items of a category after the second loop *)
Local Abbreviation in_category := (fun (category : print_codes.Category)
    (item : string * print_codes.Attr) =>
  bool_decide (print_codes.categorize (PyStr.lower item.1) = category)).

Lemma categorize_loop_run (items : list (string * print_codes.Attr))
    (categories : print_codes.Category -> list (string * print_codes.Attr)) (s : St) :
  Forall (fun item => is_Some (print_codes.desc item.2)) items ->
  exists categories',
    for_acc items categories print_codes.categorize_body s = ([], s, inr categories') /\
    forall category,
      categories' category = categories category ++ List.filter (in_category category) items.
Proof.
  intros Hall. revert categories.
  induction Hall as [|[name attr] items [d Hd] _ IH]; intros categories.
  - exists categories. split; [reflexivity|]. intros c. cbn. rewrite app_nil_r. reflexivity.
  - cbn [for_acc]. rewrite bind_run. cbn [snd] in Hd.
    assert (print_codes.categorize_body categories (name, attr) s
            = ([], s, inr (fun key =>
                             if decide (key = print_codes.categorize (PyStr.lower name))
                             then categories key ++ [(name, attr)]
                             else categories key))) as ->
      by (unfold print_codes.categorize_body; rewrite Hd; reflexivity).
    cbn [fst snd app].
    match goal with
    | |- context [for_acc items ?c _ s] => destruct (IH c) as (cats' & -> & Hcats)
    end.
    exists cats'. split; [reflexivity|]. intros c. rewrite Hcats. cbn [List.filter fst].
    destruct (decide (c = print_codes.categorize (PyStr.lower name))) as [->|Hne].
    + rewrite bool_decide_eq_true_2 by reflexivity. rewrite <- app_assoc. reflexivity.
    + rewrite bool_decide_eq_false_2 by congruence. reflexivity.
Qed.

Lemma print_category_run (categories : print_codes.Category -> list (string * print_codes.Attr))
    (category : print_codes.Category) (s : St) :
  Forall (fun item => is_Some (print_codes.desc item.2)) (categories category) ->
  print_codes.print_category categories category s
  = (map Print (Catalogue.section_lines category (map Catalogue.row (categories category))),
     s, inr tt).
Proof.
  intros Hall. unfold print_codes.print_category.
  assert (for_each (categories category)
            (fun '(cmd_name, cmd_obj) =>
               match print_codes.desc cmd_obj with
               | Some description => print (print_codes.result_line cmd_name description)
               | None => raise (Exception "object has no attribute 'desc'")
               end) s
          = (map Print (map (fun r => print_codes.result_line r.1 r.2)
                            (map Catalogue.row (categories category))), s, inr tt)) as Hrows.
  { induction Hall as [|[name attr] items [d Hd] _ IH]; [reflexivity|].
    cbn [for_each]. cbn [snd] in Hd. rewrite Hd, print_then_run, IH.
    cbn [fst snd map].
    change (Catalogue.row (name, attr)).2 with (default "" (print_codes.desc attr)).
    rewrite Hd. reflexivity. }
  destruct (categories category) as [|item items] eqn:Hitems; [reflexivity|].
  rewrite !print_then_run, Hrows. reflexivity.
Qed.

Lemma print_loop_run (categories : print_codes.Category -> list (string * print_codes.Attr))
    (keys : list print_codes.Category) (s : St) :
  (forall category,
      Forall (fun item => is_Some (print_codes.desc item.2)) (categories category)) ->
  for_each keys (print_codes.print_category categories) s
  = (map Print (concat (map (fun category =>
                               Catalogue.section_lines category
                                 (map Catalogue.row (categories category))) keys)),
     s, inr tt).
Proof.
  intros Hall. induction keys as [|c keys IH]; [reflexivity|].
  cbn [for_each map concat]. rewrite bind_run, print_category_run by apply Hall.
  cbn [fst snd]. rewrite IH, map_app. reflexivity.
Qed.

Lemma categories_cover {A} (f : A -> print_codes.Category) (l : list A) :
  length (concat (map (fun category => List.filter (fun x => bool_decide (f x = category)) l)
                      print_codes.category_keys))
  = length l.
Proof.
  unfold print_codes.category_keys. cbn [map concat]. rewrite !length_app. cbn [length].
  induction l as [|x l IH]; [reflexivity|].
  cbn [List.filter].
  destruct (f x); repeat (case_bool_decide; [try discriminate|try congruence]);
    cbn [length]; lia.
Qed.

(** X21. [list_all_commands] never raises and lists every command exactly
    once.  The commands are the public attributes of [obd.commands] that have
    a name and a description.  After the banner and the line that counts
    them, the categories follow in the fixed order Engine, Fuel, Temperature,
    Pressure, Sensors, Emission, System, Other, an empty category being left
    out altogether; a command stands in the section of the category its
    lowered name falls in, and in no other; inside a section the names are in
    alphabetical order without repetition; and the count announced before
    the sections is the number of command lines in them. *)
Theorem list_all_commands_partition (s : St) :
  let run := print_codes.list_all_commands obd_commands s in
  run.2 = inr tt /\
  exists sections : print_codes.Category -> list (string * string),
    printed run.1.1
    = [ PyStr.repeat "=" 60; "AVAILABLE OBD COMMANDS IN PYTHON-OBD"; PyStr.repeat "=" 60;
        "Found "
          +:+ str_of_nat (length (concat (map sections print_codes.category_keys)))
          +:+ " OBD commands:" +:+ PyStr.nl ]
      ++ concat (map (fun category => Catalogue.section_lines category (sections category))
                     print_codes.category_keys) /\
    (forall category name description,
        In (name, description) (sections category) <->
        Catalogue.is_command obd_commands name description /\
        print_codes.categorize (PyStr.lower name) = category) /\
    (forall category,
        StronglySorted String.le (map fst (sections category)) /\
        NoDup (map fst (sections category))).
Proof.
  cbn zeta. unfold print_codes.list_all_commands.
  rewrite !print_then_run, bind_run. cbn [fst snd].
  destruct (commands_dict_run s) as (m & -> & Hm). cbn [fst snd app].
  rewrite print_then_run, bind_run. cbn [fst snd].
  assert (Forall (fun item : string * print_codes.Attr => is_Some (print_codes.desc item.2))
                 (print_codes.sorted_items m)) as Hdesc.
  { apply List.Forall_forall. intros [k a] Hin%sorted_items_In.
    apply Hm in Hin. cbn [snd]. tauto. }
  destruct (categorize_loop_run (print_codes.sorted_items m) (fun _ => []) s Hdesc)
    as (cats & -> & Hcats).
  cbn [fst snd app]. rewrite print_loop_run.
  2:{ intros c. rewrite Hcats. cbn [app]. apply List.Forall_forall. intros x Hx.
      apply List.filter_In in Hx as [Hx _]. revert x Hx. apply List.Forall_forall, Hdesc. }
  cbn [fst snd]. split; [reflexivity|].
  exists (fun c => map Catalogue.row (cats c)). split; [|split].
  - assert (length (concat (map (fun c => map Catalogue.row (cats c))
                                print_codes.category_keys))
            = length (print_codes.sorted_items m)) as ->.
    { rewrite <- (categories_cover (fun x : string * print_codes.Attr =>
                                      print_codes.categorize (PyStr.lower x.1))
                                   (print_codes.sorted_items m)).
      cbn [print_codes.category_keys map concat]. rewrite !Hcats, !length_app, !length_map.
      reflexivity. }
    rewrite !printed_print, printed_prints, List.map_id. reflexivity.
  - intros c name description. rewrite Hcats. cbn [app]. rewrite in_map_iff. split.
    + intros ([k a] & [= <- <-] & [Hin Hc]%List.filter_In).
      apply sorted_items_In, Hm in Hin as (Hl & Hpriv & Hname & [d Hd]).
      apply bool_decide_eq_true in Hc. cbn [fst] in Hc. split; [|exact Hc].
      exists a. cbn [snd]. rewrite Hd. cbn. auto.
    + intros [(a & Hl & Hpriv & Hname & Hd) Hc]. exists (name, a). split.
      * unfold Catalogue.row. cbn [fst snd]. rewrite Hd. reflexivity.
      * apply List.filter_In. split; [|apply bool_decide_eq_true; exact Hc].
        apply sorted_items_In, Hm. split; [exact Hl|]. rewrite Hd. eauto.
  - intros c. rewrite Hcats. cbn [app].
    assert (map fst (map Catalogue.row
                       (List.filter (in_category c) (print_codes.sorted_items m)))
            = map fst (List.filter (in_category c) (print_codes.sorted_items m))) as ->.
    { rewrite map_map. reflexivity. }
    split.
    + apply sorted_names, StronglySorted_filter, sorted_items_sorted.
    + apply NoDup_names_filter, sorted_items_NoDup.
Qed.

End ListAll.

(** ** po420_honda_spec.py: main *)

Section HondaMain.
Context {St : Type}.
Variable conn_query : OBDCommand -> St -> (Exn + option PyValue) * St.
Variable show : PyValue -> string.
Variable has_command : string -> bool.

Local Abbreviation test_all_o2_sensor_pids :=
  (po420_honda_spec.test_all_o2_sensor_pids conn_query show has_command).
Local Abbreviation test_wideband_o2_sensors :=
  (po420_honda_spec.test_wideband_o2_sensors conn_query show).
Local Abbreviation analyze_p0420_without_o2 :=
  (po420_honda_spec.analyze_p0420_without_o2 conn_query show).
Local Abbreviation diagnose := (po420_honda_spec.diagnose conn_query show has_command).
Local Abbreviation honda_main := (po420_honda_spec.main conn_query show has_command).
Local Abbreviation monitoring_prompt := (fun n : nat =>
  PyStr.nl +:+ "Found " +:+ str_of_nat n +:+ " working sensors. Do live monitoring? (y/N): ").

Lemma test_wideband_catches : catches test_wideband_o2_sensors.
Proof.
  unfold po420_honda_spec.test_wideband_o2_sensors, po420_honda_spec.test_wideband_loop.
  do 5 (apply catches_bind; [auto with py | intros _]).
  apply catches_for_each. intros [pid description]. auto with py.
Qed.

Lemma working_sensors_found (s : St) :
  exists working_sensors,
    (test_all_o2_sensor_pids s).2 = inr working_sensors /\
    length working_sensors = length (answered (test_all_o2_sensor_pids s).1.1).
Proof.
  destruct (test_all_o2_sensor_pids_ok conn_query show has_command s)
    as (_ & _ & standard & honda & Hr & Ha).
  exists (standard ++ honda). split; [exact Hr|].
  rewrite <- Ha, !length_app, !length_map. reflexivity.
Qed.

Section Quiet.
Variable P : Event -> Prop.
Hypothesis P_print : forall line, P (Print line).
Hypothesis P_query : forall cmd outcome, P (Query cmd outcome).

Lemma test_all_o2_sensor_pids_always : always P test_all_o2_sensor_pids.
Proof.
  unfold po420_honda_spec.test_all_o2_sensor_pids, po420_honda_spec.test_standard_loop,
    po420_honda_spec.test_honda_loop.
  do 5 (apply always_bind; [auto with trace | intros _]).
  apply always_bind.
  { apply always_for_acc. intros working [cmd_name description].
    unfold po420_honda_spec.test_standard_body.
    destruct (has_command cmd_name); auto 10 with trace. }
  intros working. do 2 (apply always_bind; [auto with trace | intros _]).
  apply always_bind; [|auto with trace].
  apply always_for_acc. intros working' [pid description].
  unfold po420_honda_spec.test_honda_body. auto 10 with trace.
Qed.

Lemma test_wideband_always : always P test_wideband_o2_sensors.
Proof.
  unfold po420_honda_spec.test_wideband_o2_sensors, po420_honda_spec.test_wideband_loop.
  do 5 (apply always_bind; [auto with trace | intros _]).
  apply always_for_each. intros [pid description]. auto 10 with trace.
Qed.

Lemma analyze_p0420_without_o2_always : always P analyze_p0420_without_o2.
Proof.
  unfold po420_honda_spec.analyze_p0420_without_o2, po420_honda_spec.fuel_mixture.
  do 7 (apply always_bind; [auto with trace | intros _]).
  apply always_bind; [|intros _; apply always_for_each; intros; apply always_emit, P_print].
  apply always_try_except; [|auto with trace].
  apply always_bind; [auto with trace | intros stft].
  apply always_bind; [auto with trace | intros ltft].
  do 2 (apply always_bind; [auto with trace | intros _]).
  destruct stft as [short|]; [|auto with trace].
  destruct ltft as [long|]; [|auto with trace].
  auto 20 with trace.
Qed.

End Quiet.

(** what [main] does between the probes and the analysis *)
Local Abbreviation offer live working_sensors stdin :=
  (match working_sensors%list with
   | [] => ret tt
   | _ :: _ =>
       match stdin%list with
       | [] => raise eof
       | line :: _ =>
           do_live <- input (monitoring_prompt (length working_sensors)) line;;
           if String.eqb (PyStr.lower do_live) "y" then live working_sensors%list else ret tt
       end
   end).

Lemma input_bind_then_run {A} prompt answer (f : string -> M St unit) (k : M St A) (s : St) :
  ((typed <- input prompt answer;; f typed);; k) s
  = (Input prompt answer :: ((f answer;; k) s).1.1,
     ((f answer;; k) s).1.2, ((f answer;; k) s).2).
Proof.
  unfold bind, input. destruct (f answer s) as [[t s'] [e|u]]; [reflexivity|].
  destruct (k s') as [[t2 s2] r]. reflexivity.
Qed.

Lemma diagnose_run (live : list po420_honda_spec.Sensor -> M St unit)
    (stdin : list string) (s : St) working_sensors :
  (test_all_o2_sensor_pids s).2 = inr working_sensors ->
  let probe := test_all_o2_sensor_pids s in
  let wide := test_wideband_o2_sensors probe.1.2 in
  let rest := (offer live working_sensors stdin;; analyze_p0420_without_o2) wide.1.2 in
  diagnose live stdin s = (probe.1.1 ++ wide.1.1 ++ rest.1.1, rest.1.2, rest.2).
Proof.
  intros Hw. cbn zeta. unfold po420_honda_spec.diagnose.
  rewrite bind_run, Hw. rewrite then_run by apply test_wideband_catches. reflexivity.
Qed.

Lemma honda_main_run (live : list po420_honda_spec.Sensor -> M St unit)
    (stdin : list string) (s : St) :
  honda_main live true stdin s
  = (Print "HONDA/ACURA O2 SENSOR DIAGNOSTIC FOR P0420" :: Print (PyStr.repeat "=" 60)
       :: (diagnose live stdin s).1.1 ++ [Close],
     (diagnose live stdin s).1.2, (diagnose live stdin s).2).
Proof.
  unfold po420_honda_spec.main. rewrite !print_then_run. cbn [negb fst snd].
  rewrite try_finally_run by (intros s'; exists tt; reflexivity). reflexivity.
Qed.

(** X22. With the car connected, [main] of the Honda tool offers live
    monitoring exactly when at least one probe of [test_all_o2_sensor_pids]
    was answered, and the prompt gives the number of answered probes.  The
    monitoring can start only after the answer y or Y: when no probe was
    answered (then nothing is asked of the user at all), when the input has
    ended (then the end of input escapes), and after any other answer, the
    run is the same whatever the monitoring would do.  In every case the
    last thing [main] does is close the connection. *)
Theorem honda_main_offers_monitoring
    (live live' : list po420_honda_spec.Sensor -> M St unit)
    (stdin : list string) (s : St) :
  let found := length (answered (test_all_o2_sensor_pids s).1.1) in
  let run := honda_main live true stdin s in
  (exists t, run.1.1 = t ++ [Close]) /\
  match found, stdin with
  | O, _ =>
      run = honda_main live' true stdin s /\
      Forall (fun ev => forall prompt answer, ev <> Input prompt answer) run.1.1
  | S _, [] => run = honda_main live' true stdin s /\ run.2 = inl eof
  | S _, line :: _ =>
      In (Input (monitoring_prompt found) line) run.1.1 /\
      if String.eqb (PyStr.lower line) "y" then True
      else run = honda_main live' true stdin s
  end.
Proof.
  cbn zeta. split.
  { rewrite honda_main_run. cbn [fst snd]. eexists (_ :: _ :: _). reflexivity. }
  destruct (working_sensors_found s) as (w & Hw & <-).
  rewrite !honda_main_run, !(diagnose_run _ stdin s w Hw). cbn zeta. cbn [fst snd].
  destruct w as [|sensor w]; cbn [length].
  - split; [reflexivity|].
    do 2 (constructor; [discriminate|]). rewrite !Forall_app.
    split; [|repeat constructor; discriminate].
    split; [apply test_all_o2_sensor_pids_always; discriminate|].
    split; [apply test_wideband_always; discriminate|].
    rewrite bind_run. cbn [ret fst snd app].
    apply analyze_p0420_without_o2_always; discriminate.
  - destruct stdin as [|line rest].
    + split; reflexivity.
    + split.
      * right. right. rewrite !in_app_iff. left. right. right.
        rewrite input_bind_then_run. cbn [fst snd]. left. reflexivity.
      * destruct (String.eqb (PyStr.lower line) "y") eqn:Hy; [exact I|].
        rewrite !input_bind_then_run, Hy. reflexivity.
Qed.

End HondaMain.
